(** * MaxTestorin Tracker: local data layer and derived statistics

    A shallow embedding of
      - [src/services/LocalStorageService.ts], the persistence service over
        AsyncStorage,
      - [calculateStats] of the statistics provider (contexts/StatsContext),
      - [calculateCurrentMonthStats] of the home screen,
      - the providers that call the service (contexts/AuthContext,
        RecordsContext, SettingsContext) and the check-in of the home screen
        ([toggleDailyCompletion]),
    followed by the properties the specification states about them and by
    further properties of the same code.

    Conventions of the embedding.
      - A JavaScript [Date] is its time value: milliseconds since the epoch,
        an integer; an invalid date ([NaN]) is [None].
      - A record's [date] is read as [new Date] reads the form [YYYY-MM-DD]
        of a calendar day, the form in which the application writes it:
        midnight UTC of that day, in every zone. What an engine makes of
        other strings is outside the model, and the properties that depend
        on the reading of a date are stated for records dated in that form
        ([validDate]).
      - One operation reads one clock value [now]: the calls of [new Date()]
        and [Date.now()] inside an operation all return it.
      - The zone of the device is its [LocalTZA] of ECMA-262: the offset of
        local time from UTC, in milliseconds, at a given instant or at a
        given local time, so that daylight saving is a zone whose offset
        changes; [JSDate.fixed tza] is a zone of constant offset.
      - Numbers are integers, and sums of them are exact: the source adds
        binary64 numbers, which agrees as long as the sums stay within
        [2^53]; the properties of sums carry that bound. The percentages and
        averages of the statistics are exact rationals (the source computes
        the same quotients in binary64).
      - Strings are byte strings (UTF-8). [String.prototype.toLowerCase],
        the Unicode case conversion, is a parameter of the operations that
        compare emails: their properties hold for every such function.
        [asciiLowerCase], which agrees with it on ASCII strings, serves the
        examples.
      - A JSON object that the source merges with the spread operator is a
        finite map from field names to scalar values; an absent field reads
        as [undefined].
      - AsyncStorage is one typed slot per key of [STORAGE_KEYS], holding the
        JSON value the stored string encodes ([JSON.parse] of
        [JSON.stringify] is the identity on these values); the backend
        itself never fails, so the only errors are the ones the service
        throws and, in [importAllData], the engine's own on a text that
        does not parse or parses to [null]. *)

From Stdlib Require Import ZArith QArith Lia String Ascii List Bool.
From Stdlib Require Import DecimalString.
From stdpp Require Import gmap strings list sorting.

Local Open Scope string_scope.
Local Open Scope Z_scope.

(** ** JavaScript dates *)

Module JSDate.

Definition msPerDay : Z := 86400000.
Definition msPerHour : Z := 3600000.
Definition msPerMinute : Z := 60000.
Definition msPerSecond : Z := 1000.

(** [Day(t)] and [TimeWithinDay(t)] of ECMA-262. *)
Definition Day (t : Z) : Z := t / msPerDay.
Definition TimeWithinDay (t : Z) : Z := t mod msPerDay.

(** A civil date: year, month (1..12), day of the month (1..31). *)
Definition civil : Type := Z * Z * Z.

(** Day of a 400-year era (starting on 1 March) from the year of the era,
    the month and the day of the month. *)
Definition doe_of_civil (yoe m d : Z) : Z :=
  let mp := if 2 <? m then m - 3 else m + 9 in
  let doy := (153 * mp + 2) / 5 + d - 1 in
  yoe * 365 + yoe / 4 - yoe / 100 + doy.

(** Number of days from 1970-01-01 to the civil date (proleptic Gregorian
    calendar). *)
Definition days_from_civil (y m d : Z) : Z :=
  let y' := if m <=? 2 then y - 1 else y in
  let era := y' / 400 in
  let yoe := y' mod 400 in
  era * 146097 + doe_of_civil yoe m d - 719468.

(** Inverse, on the day of the era: March-based year of the era, month, day. *)
Definition civil_of_doe (doe : Z) : civil :=
  let yoe := (doe - doe / 1460 + doe / 36524 - doe / 146096) / 365 in
  let doy := doe - (365 * yoe + yoe / 4 - yoe / 100) in
  let mp := (5 * doy + 2) / 153 in
  let d := doy - (153 * mp + 2) / 5 + 1 in
  let m := if mp <? 10 then mp + 3 else mp - 9 in
  (yoe, m, d).

Definition civil_from_days (z : Z) : civil :=
  let z' := z + 719468 in
  let era := z' / 146097 in
  let '(yoe, m, d) := civil_of_doe (z' mod 146097) in
  (yoe + era * 400 + (if m <=? 2 then 1 else 0), m, d).

(** [YearFromTime], [MonthFromTime] (0-based) and [DateFromTime]. *)
Definition YearFromTime (t : Z) : Z := fst (fst (civil_from_days (Day t))).
Definition MonthFromTime (t : Z) : Z := snd (fst (civil_from_days (Day t))) - 1.
Definition DateFromTime (t : Z) : Z := snd (civil_from_days (Day t)).

Definition HourFromTime (t : Z) : Z := TimeWithinDay t / msPerHour.
Definition MinFromTime (t : Z) : Z := (t mod msPerHour) / msPerMinute.
Definition SecFromTime (t : Z) : Z := (t mod msPerMinute) / msPerSecond.
Definition msFromTime (t : Z) : Z := t mod msPerSecond.

(** [MakeDay(year, month, date)]: the month is 0-based and may overflow into
    neighbouring years; the date may be any integer. *)
Definition MakeDay (year month date : Z) : Z :=
  let ym := year + month / 12 in
  let mn := month mod 12 in
  days_from_civil ym (mn + 1) 1 + date - 1.

Definition MakeDate (day time : Z) : Z := day * msPerDay + time.

(** [LocalTZA(t, isUTC)]: the offset of local time from UTC, in
    milliseconds, at the instant [t] ([isUTC = true]) or at the local time
    [t] ([isUTC = false]; a local time that a transition skips or repeats is
    read with the offset before the transition). *)
Definition Zone : Type := Z -> bool -> Z.

(** A zone without transitions. *)
Definition fixed (tza : Z) : Zone := fun _ _ => tza.

Section Zone.
Variable LocalTZA : Zone.

Definition LocalTime (t : Z) : Z := t + LocalTZA t true.
Definition UTC (t : Z) : Z := t - LocalTZA t false.

(** [Date.prototype.getFullYear], [getMonth], [getDate]. *)
Definition getFullYear (t : Z) : Z := YearFromTime (LocalTime t).
Definition getMonth (t : Z) : Z := MonthFromTime (LocalTime t).
Definition getDate (t : Z) : Z := DateFromTime (LocalTime t).

(** [Date.prototype.setDate(dt)], returning the new time value. *)
Definition setDate (t dt : Z) : Z :=
  let lt := LocalTime t in
  UTC (MakeDate (MakeDay (YearFromTime lt) (MonthFromTime lt) dt)
                (TimeWithinDay lt)).

(** [new Date(year, month, date)]: local midnight of that day; a year from
    0 to 99 stands for 1900 + year. *)
Definition newDate (year month date : Z) : Z :=
  let yr := if (0 <=? year) && (year <=? 99) then 1900 + year else year in
  UTC (MakeDate (MakeDay yr month date) 0).
End Zone.

(** *** Formatting *)

Definition digit (n : Z) : ascii := ascii_of_N (48 + Z.to_N n).

Definition pad2 (n : Z) : string :=
  String (digit (n / 10)) (String (digit (n mod 10)) EmptyString).

Definition pad3 (n : Z) : string :=
  String (digit (n / 100)) (pad2 (n mod 100)).

Definition pad4 (n : Z) : string :=
  String (digit (n / 1000)) (pad3 (n mod 1000)).

Definition pad6 (n : Z) : string :=
  pad2 (n / 10000) ++ pad4 (n mod 10000).

(** The year of [toISOString]: four digits from 0000 to 9999, otherwise a
    sign and six digits. *)
Definition isoYear (y : Z) : string :=
  if (0 <=? y) && (y <=? 9999) then pad4 y
  else (if y <? 0 then "-" else "+") ++ pad6 (Z.abs y).

(** The date part [YYYY-MM-DD] of [toISOString]. *)
Definition isoDate (day : Z) : string :=
  let '(y, m, d) := civil_from_days day in
  isoYear y ++ "-" ++ pad2 m ++ "-" ++ pad2 d.

Definition isoTime (t : Z) : string :=
  pad2 (HourFromTime t) ++ ":" ++ pad2 (MinFromTime t) ++ ":" ++
  pad2 (SecFromTime t) ++ "." ++ pad3 (msFromTime t).

(** [Date.prototype.toISOString]. *)
Definition toISOString (t : Z) : string :=
  isoDate (Day t) ++ "T" ++ isoTime t ++ "Z".

(** [s.split('T')[0]]: the part of [s] before the first ['T']. *)
Fixpoint beforeT (s : string) : string :=
  match s with
  | EmptyString => EmptyString
  | String c s' => if Ascii.eqb c "T" then EmptyString else String c (beforeT s')
  end.

(** *** Parsing *)

Definition digit_val (c : ascii) : option Z :=
  let n := Z.of_N (N_of_ascii c) in
  if (48 <=? n) && (n <=? 57) then Some (n - 48) else None.

Definition num2 (a b : ascii) : option Z :=
  match digit_val a, digit_val b with
  | Some x, Some y => Some (10 * x + y)
  | _, _ => None
  end.

Definition num4 (a b c d : ascii) : option Z :=
  match num2 a b, num2 c d with
  | Some x, Some y => Some (100 * x + y)
  | _, _ => None
  end.

Definition is_leap (y : Z) : bool :=
  (y mod 4 =? 0) && (negb (y mod 100 =? 0) || (y mod 400 =? 0)).

Definition days_in_month (y m : Z) : Z :=
  if m =? 2 then (if is_leap y then 29 else 28)
  else if (m =? 4) || (m =? 6) || (m =? 9) || (m =? 11) then 30
  else 31.

(** [Date.parse] on the date-only ISO form [YYYY-MM-DD], the form in which
    the application writes the [date] of a record: UTC midnight of that
    day. A field out of range makes the date invalid. Strings in the other
    forms an engine accepts (date-time forms, expanded years, legacy
    formats) are outside the model and read as invalid. *)
Definition parse (s : string) : option Z :=
  match s with
  | String y1 (String y2 (String y3 (String y4 (String c1
      (String m1 (String m2 (String c2
        (String d1 (String d2 EmptyString))))))))) =>
      match num4 y1 y2 y3 y4, num2 m1 m2, num2 d1 d2 with
      | Some y, Some m, Some d =>
          if Ascii.eqb c1 "-" && Ascii.eqb c2 "-" &&
             (1 <=? m) && (m <=? 12) && (1 <=? d) && (d <=? days_in_month y m)
          then Some (MakeDate (days_from_civil y m d) 0)
          else None
      | _, _, _ => None
      end
  | _ => None
  end.

(** 1 for January and February, which close the March-based year. *)
Definition month_shift (m : Z) : Z := if m <=? 2 then 1 else 0.

(** The days of the years 0000 to 9999, whose ISO form has a four-digit
    year: from -719528 (0000-01-01) to 2932896 (9999-12-31). *)
Definition inISORange (day : Z) : Prop := -719528 <= day < 2932897.

End JSDate.

(** ** JSON values and objects *)

Inductive jval : Type :=
  | JNull
  | JBool (b : bool)
  | JNum (n : Z)
  | JStr (s : string).

#[global] Instance jval_eq_dec : EqDecision jval.
Proof. solve_decision. Defined.

(** An object with scalar fields; an absent key reads as [undefined]. *)
Abbreviation obj := (gmap string jval).

(** [{...a, ...b}]: the fields of [b] override those of [a]. *)
Definition spread (a b : obj) : obj := b ∪ a.

(** JavaScript truthiness of a property read. *)
Definition truthy (v : option jval) : bool :=
  match v with
  | None | Some JNull => false
  | Some (JBool b) => b
  | Some (JNum n) => negb (n =? 0)
  | Some (JStr s) => negb (String.eqb s "")
  end.

(** [v === s] for a property read [v] and a string [s]. *)
Definition strict_eq_str (v : option jval) (s : string) : bool :=
  match v with
  | Some (JStr s') => String.eqb s' s
  | _ => false
  end.

(** [new Date(v).getTime()] for a property read [v]; [None] is [NaN]:
    [undefined] is invalid, a string is parsed, any other value is taken as
    a number of milliseconds, valid up to 8.64e15 either way. *)
Definition dateValue (v : option jval) : option Z :=
  match v with
  | None => None
  | Some JNull => Some 0
  | Some (JBool b) => Some (if b then 1 else 0)
  | Some (JNum n) => if Z.abs n <=? 8640000000000000 then Some n else None
  | Some (JStr s) => JSDate.parse s
  end.

(** Lower case of the ASCII letters, every other byte left alone: what
    [String.prototype.toLowerCase] does to a string of ASCII characters. *)
Definition lower_ascii (c : ascii) : ascii :=
  let n := N_of_ascii c in
  if (65 <=? n)%N && (n <=? 90)%N then ascii_of_N (n + 32) else c.

Fixpoint asciiLowerCase (s : string) : string :=
  match s with
  | EmptyString => EmptyString
  | String c s' => String (lower_ascii c) (asciiLowerCase s')
  end.

(** Decimal rendering of an integer inside a template literal. *)
Definition showZ (n : Z) : string := NilZero.string_of_int (Z.to_int n).

(** ** Array.prototype.sort

    The sort is stable, and a comparator result that is [NaN] counts as
    [+0]. The model is the stable insertion sort: [insert_by] puts an element
    in front of the sorted rest of the list and moves it back past the
    elements the comparator orders before it. Under a consistent comparator
    every stable sort returns this list; under an inconsistent one (invalid
    dates) the order is implementation-defined and this is one such order. *)

Section Sort.
Context {A : Type} (cmp : A -> A -> option Z).

Definition sortCompare (x y : A) : Z := default 0 (cmp x y).

Fixpoint insert_by (x : A) (l : list A) : list A :=
  match l with
  | [] => [x]
  | y :: l' => if 0 <? sortCompare x y then y :: insert_by x l' else x :: l
  end.

Fixpoint sort_by (l : list A) : list A :=
  match l with
  | [] => []
  | x :: l' => insert_by x (sort_by l')
  end.
End Sort.

(** [x] may stay in front of [y]: the comparator does not ask for a swap. *)
Definition inOrder {A : Type} (cmp : A -> A -> option Z) (x y : A) : Prop :=
  sortCompare cmp x y <= 0.

(** [(a, b) => new Date(b.date).getTime() - new Date(a.date).getTime()] *)
Definition byDateDesc (a b : obj) : option Z :=
  match dateValue (b !! "date"), dateValue (a !! "date") with
  | Some tb, Some ta => Some (tb - ta)
  | _, _ => None
  end.

(** The time value of a record's date; [None] when the date is invalid. *)
Definition recordTime (r : obj) : option Z := dateValue (r !! "date").

(** A record whose [date] is a calendar day in ISO form. *)
Definition validDate (r : obj) : Prop :=
  exists s, r !! "date" = Some (JStr s) /\ is_Some (JSDate.parse s).

(** [a] is dated not before, respectively strictly after, [b]. *)
Definition notBefore (a b : obj) : Prop :=
  exists ta tb, recordTime a = Some ta /\ recordTime b = Some tb /\ tb <= ta.

Definition laterThan (a b : obj) : Prop :=
  exists ta tb, recordTime a = Some ta /\ recordTime b = Some tb /\ tb < ta.

(** ** The storage service (LocalStorageService.ts) *)

Record User : Type := mkUser {
  uid : string;
  email : string;
  name : string;
  createdAt : string;
  updatedAt : string
}.

(** The AsyncStorage backend seen through [STORAGE_KEYS]: one slot per key,
    [None] when the key is absent. *)
Record Store : Type := mkStore {
  USERS : option (list User);
  CURRENT_USER : option User;
  AUTH_TOKEN : option string;
  USER_PROFILE : option obj;
  DAILY_RECORDS : option (list obj);
  USER_SETTINGS : option obj;
  APP_THEME : option string;
  APP_LANGUAGE : option string;
  TUTORIAL_SEEN : option string
}.

Definition emptyStore : Store :=
  mkStore None None None None None None None None None.

Definition set_USERS (v : option (list User)) (s : Store) : Store :=
  mkStore v (CURRENT_USER s) (AUTH_TOKEN s) (USER_PROFILE s) (DAILY_RECORDS s)
          (USER_SETTINGS s) (APP_THEME s) (APP_LANGUAGE s) (TUTORIAL_SEEN s).
Definition set_CURRENT_USER (v : option User) (s : Store) : Store :=
  mkStore (USERS s) v (AUTH_TOKEN s) (USER_PROFILE s) (DAILY_RECORDS s)
          (USER_SETTINGS s) (APP_THEME s) (APP_LANGUAGE s) (TUTORIAL_SEEN s).
Definition set_AUTH_TOKEN (v : option string) (s : Store) : Store :=
  mkStore (USERS s) (CURRENT_USER s) v (USER_PROFILE s) (DAILY_RECORDS s)
          (USER_SETTINGS s) (APP_THEME s) (APP_LANGUAGE s) (TUTORIAL_SEEN s).
Definition set_USER_PROFILE (v : option obj) (s : Store) : Store :=
  mkStore (USERS s) (CURRENT_USER s) (AUTH_TOKEN s) v (DAILY_RECORDS s)
          (USER_SETTINGS s) (APP_THEME s) (APP_LANGUAGE s) (TUTORIAL_SEEN s).
Definition set_DAILY_RECORDS (v : option (list obj)) (s : Store) : Store :=
  mkStore (USERS s) (CURRENT_USER s) (AUTH_TOKEN s) (USER_PROFILE s) v
          (USER_SETTINGS s) (APP_THEME s) (APP_LANGUAGE s) (TUTORIAL_SEEN s).
Definition set_USER_SETTINGS (v : option obj) (s : Store) : Store :=
  mkStore (USERS s) (CURRENT_USER s) (AUTH_TOKEN s) (USER_PROFILE s)
          (DAILY_RECORDS s) v (APP_THEME s) (APP_LANGUAGE s) (TUTORIAL_SEEN s).
Definition set_TUTORIAL_SEEN (v : option string) (s : Store) : Store :=
  mkStore (USERS s) (CURRENT_USER s) (AUTH_TOKEN s) (USER_PROFILE s)
          (DAILY_RECORDS s) (USER_SETTINGS s) (APP_THEME s) (APP_LANGUAGE s) v.

(** A thrown [Error(message)], or an error the engine raises itself, known
    by its name; its message is the engine's. *)
Inductive Error : Type :=
  | mkError (message : string)
  | nativeError (name : string).

Inductive result (A : Type) : Type :=
  | Ok (a : A)
  | Throw (e : Error).
Arguments Ok {A} a.
Arguments Throw {A} e.

(** The error kinds of the specification, as the messages the source throws. *)
Definition DuplicateEmailError : Error := mkError "Email already exists".
Definition UserNotFoundError : Error := mkError "User not found".
Definition RecordNotFoundError : Error := mkError "Record not found".
Definition SyntaxError : Error := nativeError "SyntaxError".
Definition TypeError : Error := nativeError "TypeError".

(** An asynchronous service operation: it runs against the store and leaves
    a store behind whether it returns or throws. *)
Definition M (A : Type) : Type := Store -> Store * result A.

Definition ret {A} (a : A) : M A := fun s => (s, Ok a).
Definition throw {A} (e : Error) : M A := fun s => (s, Throw e).
Definition bind {A B} (m : M A) (k : A -> M B) : M B :=
  fun s => match m s with
           | (s', Ok a) => k a s'
           | (s', Throw e) => (s', Throw e)
           end.
Definition getItem {A} (key : Store -> option A) : M (option A) :=
  fun s => (s, Ok (key s)).
Definition setItem {A} (set : option A -> Store -> Store) (v : A) : M unit :=
  fun s => (set (Some v) s, Ok tt).
Definition removeItem {A} (set : option A -> Store -> Store) : M unit :=
  fun s => (set None s, Ok tt).

Declare Scope service_scope.
Delimit Scope service_scope with service.
Notation "x <- m ;; k" := (bind m (fun x => k))
  (at level 100, m at next level, right associativity) : service_scope.
Notation "m ;; k" := (bind m (fun _ => k))
  (at level 100, right associativity) : service_scope.
Local Open Scope service_scope.

(** The exported document
    [{ user, profile, records, settings, metadata }]; a member that is
    absent, [null] or otherwise falsy is [None]. *)
Record Document : Type := mkDocument {
  doc_user : option User;
  doc_profile : option obj;
  doc_records : option (list obj);
  doc_settings : option obj;
  doc_metadata : option obj
}.

(** The argument [jsonData] of [importAllData], by what [JSON.parse] makes
    of it: a syntax error, the value [null], or another value, read through
    its members [profile], [records] and [settings] (a number, a string, a
    boolean and an array have none; [JSON.parse] of the text of an export
    is the exported document). A member is [None] when it is absent or
    falsy; a member that is present has the type it has in an export, an
    object or an array of objects. *)
Inductive JsonData : Type :=
  | Malformed
  | ParsesToNull
  | ParsesTo (data : Document).

Module LocalStorageService.
Section Service.
(** The clock reading ([Date.now()], [new Date()]) during the operation,
    the zone of the device, and [String.prototype.toLowerCase]. *)
Variable now : Z.
Variable zone : JSDate.Zone.
Variable toLowerCase : string -> string.

Definition nowISO : string := JSDate.toISOString now.

(** [new Date().toLocaleDateString('pt-BR')]: [dd/mm/yyyy], local time. *)
Definition nowLocaleDate : string :=
  JSDate.pad2 (JSDate.getDate zone now) ++ "/" ++
  JSDate.pad2 (JSDate.getMonth zone now + 1) ++ "/" ++
  JSDate.pad4 (JSDate.getFullYear zone now).

Definition getAllUsers : M (list User) :=
  usersData <- getItem USERS ;;
  ret (default [] usersData).

Definition sameEmail (e : string) (u : User) : bool :=
  String.eqb (toLowerCase (email u)) (toLowerCase e).

Definition defaultProfile (name email : string) : obj :=
  <["name" := JStr name]> (
  <["email" := JStr email]> (
  <["treatmentStartDate" := JStr nowLocaleDate]> (
  <["hasSeenTutorial" := JBool false]> (
  <["createdAt" := JStr nowISO]> (
  <["updatedAt" := JStr nowISO]> ∅))))).

Definition defaultSettings : obj :=
  <["notifications" := JBool true]> (
  <["reminderTime" := JStr "09:00"]> (
  <["dailyGoal" := JNum 2]> (
  <["weeklyGoal" := JNum 14]> (
  <["theme" := JStr "light"]> (
  <["language" := JStr "en"]> (
  <["createdAt" := JStr nowISO]> (
  <["updatedAt" := JStr nowISO]> ∅))))))).

Definition registerUser (email password name : string) : M User :=
  users <- getAllUsers ;;
  match List.find (sameEmail email) users with
  | Some existingUser => throw (mkError "Email already exists")
  | None =>
      let newUser :=
        mkUser ("user_" ++ showZ now) email name nowISO nowISO in
      setItem set_USERS (users ++ [newUser])%list ;;
      setItem set_CURRENT_USER newUser ;;
      setItem set_AUTH_TOKEN ("token_" ++ showZ now) ;;
      setItem set_USER_PROFILE (defaultProfile name email) ;;
      setItem set_USER_SETTINGS defaultSettings ;;
      ret newUser
  end.

Definition loginUser (email password : string) : M User :=
  users <- getAllUsers ;;
  match List.find (sameEmail email) users with
  | None => throw (mkError "User not found")
  | Some user =>
      setItem set_CURRENT_USER user ;;
      setItem set_AUTH_TOKEN ("token_" ++ showZ now) ;;
      ret user
  end.

Definition getCurrentUser : M (option User) :=
  userData <- getItem CURRENT_USER ;;
  authToken <- getItem AUTH_TOKEN ;;
  match userData, authToken with
  | Some u, Some tok => ret (if String.eqb tok "" then None else Some u)
  | _, _ => ret None
  end.

(** The logout event the source also dispatches is outside the store. *)
Definition logoutUser : M unit :=
  removeItem set_CURRENT_USER ;;
  removeItem set_AUTH_TOKEN.

Definition getUserProfile : M (option obj) := getItem USER_PROFILE.

Definition updateUserProfile (updates : obj) : M unit :=
  currentProfile <- getUserProfile ;;
  let updatedProfile :=
    <["updatedAt" := JStr nowISO]>
      (spread (default ∅ currentProfile) updates) in
  setItem set_USER_PROFILE updatedProfile.

Definition markTutorialAsSeen : M unit :=
  setItem set_TUTORIAL_SEEN "true" ;;
  profile <- getUserProfile ;;
  match profile with
  | Some _ => updateUserProfile {[ "hasSeenTutorial" := JBool true ]}
  | None => ret tt
  end.

Definition hasUserSeenTutorial : M bool :=
  tutorialSeen <- getItem TUTORIAL_SEEN ;;
  profile <- getUserProfile ;;
  ret (bool_decide (tutorialSeen = Some "true") ||
       bool_decide (default ∅ profile !! "hasSeenTutorial" = Some (JBool true))).

Definition resetTutorialStatus : M unit :=
  removeItem set_TUTORIAL_SEEN ;;
  profile <- getUserProfile ;;
  match profile with
  | Some _ => updateUserProfile {[ "hasSeenTutorial" := JBool false ]}
  | None => ret tt
  end.

Definition getDailyRecords : M (list obj) :=
  recordsData <- getItem DAILY_RECORDS ;;
  ret (sort_by byDateDesc (default [] recordsData)).

Definition createDailyRecord (record : obj) : M string :=
  records <- getDailyRecords ;;
  let recordId := "record_" ++ showZ now in
  let newRecord :=
    <["updatedAt" := JStr nowISO]> (
    <["createdAt" := JStr nowISO]> (
    <["id" := JStr recordId]> record)) in
  setItem set_DAILY_RECORDS (records ++ [newRecord])%list ;;
  ret recordId.

Definition getDailyRecordByDate (date : string) : M (option obj) :=
  records <- getDailyRecords ;;
  ret (List.find (fun r => strict_eq_str (r !! "date") date) records).

(** [records.findIndex(r => r.id === recordId)]; [None] is [-1]. *)
Fixpoint findIndex (p : obj -> bool) (l : list obj) : option nat :=
  match l with
  | [] => None
  | r :: l' => if p r then Some O else S <$> findIndex p l'
  end.

Definition updateDailyRecord (recordId : string) (updates : obj) : M unit :=
  records <- getDailyRecords ;;
  match findIndex (fun r => strict_eq_str (r !! "id") recordId) records with
  | None => throw (mkError "Record not found")
  | Some recordIndex =>
      let updated :=
        <["updatedAt" := JStr nowISO]>
          (spread (default ∅ (records !! recordIndex)) updates) in
      setItem set_DAILY_RECORDS (<[recordIndex := updated]> records)
  end.

Definition deleteDailyRecord (recordId : string) : M unit :=
  records <- getDailyRecords ;;
  let filteredRecords :=
    List.filter (fun r => negb (strict_eq_str (r !! "id") recordId)) records in
  setItem set_DAILY_RECORDS filteredRecords.

Definition clearAllDailyRecords : M unit := setItem set_DAILY_RECORDS [].

Definition getUserSettings : M obj :=
  settingsData <- getItem USER_SETTINGS ;;
  match settingsData with
  | Some settings => ret settings
  | None => setItem set_USER_SETTINGS defaultSettings ;; ret defaultSettings
  end.

Definition updateUserSettings (updates : obj) : M unit :=
  currentSettings <- getUserSettings ;;
  let updatedSettings :=
    <["updatedAt" := JStr nowISO]> (spread currentSettings updates) in
  setItem set_USER_SETTINGS updatedSettings.

Definition exportMetadata : obj :=
  <["version" := JStr "1.0.0"]> (
  <["exportDate" := JStr nowISO]> (
  <["platform" := JStr "MaxTestorin Tracker"]> ∅)).

Definition exportAllData : M Document :=
  user <- getCurrentUser ;;
  profile <- getUserProfile ;;
  records <- getDailyRecords ;;
  settings <- getUserSettings ;;
  ret (mkDocument user profile (Some records) (Some settings)
                  (Some exportMetadata)).

Definition when {A} (v : option A) (k : A -> M unit) : M unit :=
  match v with
  | Some a => k a
  | None => ret tt
  end.

(** [JSON.parse] of a malformed text throws before anything is written, and
    so does the read of [data.profile] when the text parses to [null]. *)
Definition importAllData (jsonData : JsonData) : M unit :=
  match jsonData with
  | Malformed => throw SyntaxError
  | ParsesToNull => throw TypeError
  | ParsesTo data =>
      when (doc_profile data) (setItem set_USER_PROFILE) ;;
      when (doc_records data) (setItem set_DAILY_RECORDS) ;;
      when (doc_settings data) (setItem set_USER_SETTINGS)
  end.

Definition clearAllData : M unit := fun _ => (emptyStore, Ok tt).
End Service.
End LocalStorageService.

(** ** Derived statistics *)

(** [r.completed], used as a condition. *)
Definition completed (r : obj) : bool := truthy (r !! "completed").

(** [sum + r.capsules] on numbers; [None] is a sum that is no longer a
    number (a record without a numeric [capsules]). *)
Definition addCapsules (sum : option Z) (r : obj) : option Z :=
  match sum, r !! "capsules" with
  | Some s, Some (JNum n) => Some (s + n)
  | _, _ => None
  end.

(** Whole numbers of capsules that binary64 adds exactly, in any order:
    none is negative and their sum, hence every partial sum, is at most
    [2^53]. *)
Definition exactSum (ns : list Z) : Prop :=
  Forall (fun n => 0 <= n) ns /\ foldr Z.add 0 ns <= 2 ^ 53.

(** [new Date(r.date) >= lo], and the two-sided test of the home screen. *)
Definition dateAtLeast (lo : Z) (r : obj) : bool :=
  match dateValue (r !! "date") with
  | Some t => lo <=? t
  | None => false
  end.

Definition dateBetween (lo hi : Z) (r : obj) : bool :=
  match dateValue (r !! "date") with
  | Some t => (lo <=? t) && (t <=? hi)
  | None => false
  end.

(** [(n / d) * 100] *)
Definition percent (n d : Z) : Q := (inject_Z n / inject_Z d * 100)%Q.

Module StatsContext.

Record Stats : Type := mkStats {
  totalDays : Z;
  currentStreak : Z;
  averageCapsules : option Q;
  completionRate : Q;
  totalCapsules : option Z;
  monthlyProgress : Q;
  completedDaysThisMonth : Z
}.

Section Stats.
Variable now : Z.
Variable zone : JSDate.Zone.

(** The date string expected at index [i] of the streak walk:
    a fresh [new Date()], moved back [i] days with [setDate], printed with
    [toISOString().split('T')[0]]. *)
Definition expectedDateStr (i : Z) : string :=
  JSDate.beforeT
    (JSDate.toISOString (JSDate.setDate zone now (JSDate.getDate zone now - i))).

(** The [for] loop over [streakRecords], entered at index [i]. *)
Fixpoint streakLoop (i : Z) (streakRecords : list obj) (currentStreak : Z) : Z :=
  match streakRecords with
  | [] => currentStreak
  | r :: rest =>
      if strict_eq_str (r !! "date") (expectedDateStr i)
      then streakLoop (i + 1) rest (currentStreak + 1)
      else currentStreak
  end.

Definition thirtyDaysAgo : Z :=
  JSDate.setDate zone now (JSDate.getDate zone now - 30).

Definition calculateStats (records : list obj) : Stats :=
  let completedRecords := List.filter completed records in
  let totalDays := Z.of_nat (length completedRecords) in
  let totalCapsules := fold_left addCapsules completedRecords (Some 0) in
  let averageCapsules :=
    if 0 <? totalDays
    then (fun c => (inject_Z c / inject_Z totalDays)%Q) <$> totalCapsules
    else Some 0%Q in
  let streakRecords := sort_by byDateDesc completedRecords in
  let currentStreak := streakLoop 0 streakRecords 0 in
  let last30DaysRecords := List.filter (dateAtLeast thirtyDaysAgo) records in
  let completedLast30Days :=
    Z.of_nat (length (List.filter completed last30DaysRecords)) in
  let completionRate := percent completedLast30Days 30 in
  let monthlyProgress := completionRate in
  let completedDaysThisMonth := completedLast30Days in
  mkStats totalDays currentStreak averageCapsules completionRate
          totalCapsules monthlyProgress completedDaysThisMonth.
End Stats.
End StatsContext.

Module HomeScreen.

Record MonthStats : Type := mkMonthStats {
  progress : Q;
  completedDays : Z;
  totalDaysInMonth : Z
}.

Section Home.
Variable now : Z.
Variable zone : JSDate.Zone.

Definition year : Z := JSDate.getFullYear zone now.
Definition month : Z := JSDate.getMonth zone now.
Definition firstDay : Z := JSDate.newDate zone year month 1.
Definition lastDay : Z := JSDate.newDate zone year (month + 1) 0.

Definition calculateCurrentMonthStats (records : list obj) : MonthStats :=
  let totalDaysInMonth := JSDate.getDate zone lastDay in
  let currentMonthRecords :=
    List.filter (dateBetween firstDay lastDay) records in
  let completedRecords := List.filter completed currentMonthRecords in
  let completedDays := Z.of_nat (length completedRecords) in
  let progress := percent completedDays totalDaysInMonth in
  mkMonthStats progress completedDays totalDaysInMonth.
End Home.
End HomeScreen.

(** ** Sample data *)

(** A daily record as the check-in of the home screen writes it. *)
Definition mkRecord (id date : string) (capsules : Z) (done : bool) : obj :=
  <["id" := JStr id]> (
  <["date" := JStr date]> (
  <["capsules" := JNum capsules]> (
  <["time" := JStr "09:00"]> (
  <["notes" := JStr ""]> (
  <["completed" := JBool done]> (
  <["createdAt" := JStr (date ++ "T09:00:00.000Z")]> (
  <["updatedAt" := JStr (date ++ "T09:00:00.000Z")]> ∅))))))).

Definition ann : User :=
  mkUser "user_1" "Ann@Example.com" "Ann"
         "2024-06-01T00:00:00.000Z" "2024-06-01T00:00:00.000Z".

(** 2024-06-15T12:34:56.789Z *)
Definition mid_june : Z := 1718454896789.

(** A store holding one record, and one holding three in no date order. *)
Definition one_record_store : Store :=
  set_DAILY_RECORDS (Some [mkRecord "r1" "2024-06-15" 2 true]) emptyStore.

Definition three_records : list obj :=
  [ mkRecord "r1" "2024-06-13" 2 true;
    mkRecord "r2" "2024-06-15" 2 true;
    mkRecord "r3" "2024-06-14" 2 false ].

(** What [createdAt] holds in the first stored record. *)
Definition firstCreatedAt (s : Store) : option jval :=
  match default [] (DAILY_RECORDS s) with
  | r :: _ => r !! "createdAt"
  | [] => None
  end.


(** New York in 2024, as a zone: five hours behind UTC until 10 March, 07:00
    UTC, four hours behind until 3 November, 06:00 UTC, five hours behind
    after. *)
Definition new_york_2024 : JSDate.Zone := fun t isUTC =>
  let est := -5 * JSDate.msPerHour in
  let edt := -4 * JSDate.msPerHour in
  let spring := 1710054000000 in
  let autumn := 1730613600000 in
  if isUTC
  then if t <? spring then est else if t <? autumn then edt else est
  else if t <? spring + edt then est else if t <? autumn + edt then edt else est.



(** 2024-11-20T00:30:00.000Z, an evening in New York seventeen days after
    the clocks went back. *)
Definition late_november : Z := 1732062600000.

(** One completed record for each of the 31 days from 21 October to
    20 November 2024. *)
Definition november_records : list obj :=
  map (fun day => mkRecord (JSDate.isoDate day) (JSDate.isoDate day) 2 true)
      (seqZ (JSDate.Day late_november - 30) 31).

(** A record is dated after the UTC day of the clock. *)
Definition datedAfterToday (now : Z) (r : obj) : Prop :=
  exists t, recordTime r = Some t /\ (JSDate.Day now + 1) * JSDate.msPerDay <= t.

(** 2024-06-05T12:00:00.000Z, a day in a 30-day month. *)
Definition early_june : Z := 1717588800000.

(** Ten completed records, 20 to 29 May 2024: inside the last 30 days of
    [early_june], outside its calendar month. *)
Definition may_records : list obj :=
  map (fun d => mkRecord ("m" ++ d) ("2024-05-" ++ d) 2 true)
      ["20"; "21"; "22"; "23"; "24"; "25"; "26"; "27"; "28"; "29"].

(** Ten completed records, 1 to 10 June 2024. *)
Definition june_records : list obj :=
  map (fun d => mkRecord ("j" ++ d) ("2024-06-" ++ d) 2 true)
      ["01"; "02"; "03"; "04"; "05"; "06"; "07"; "08"; "09"; "10"].

(** Six completed records in the last 30 days of [mid_june]. *)
Definition six_records : list obj :=
  map (fun d => mkRecord ("s" ++ d) ("2024-06-" ++ d) 2 true)
      ["03"; "05"; "08"; "10"; "12"; "15"].

(** A completed record dated half a year after [mid_june]. *)
Definition christmas_record : obj := mkRecord "f" "2024-12-25" 2 true.

(** Three hours west of UTC (Brasilia). *)
Definition utc_minus_3 : Z := -3 * JSDate.msPerHour.

(** Completed records with 2, 2 and 3 capsules, and one not completed. *)
Definition capsule_records : list obj :=
  [ mkRecord "p" "2024-06-13" 2 true; mkRecord "q" "2024-06-14" 2 true;
    mkRecord "n" "2024-06-12" 5 false; mkRecord "r" "2024-06-15" 3 true ].

(** A store with a profile, three records out of date order, a session, and
    no settings yet. *)
Definition sample_store : Store :=
  mkStore (Some [ann]) (Some ann) (Some "token_1")
          (Some (LocalStorageService.defaultProfile 0 (JSDate.fixed 0) "Ann"
                   "Ann@Example.com"))
          (Some three_records) None None None None.


(** ** Storage statistics (LocalStorageService.getStorageStats)

    The sizes are those of the stored strings, so this one operation is
    modelled over the raw storage: a finite map from keys to strings, a
    string being its UTF-8 bytes. *)

Module StorageStats.

(** [Object.values(STORAGE_KEYS)], in the order of the declaration. *)
Definition STORAGE_KEYS : list string :=
  [ "registeredUsers"; "currentUser"; "authToken"; "userProfile";
    "dailyRecords"; "userSettings"; "appTheme"; "appLanguage"; "tutorialSeen" ].

Record Stats : Type := mkStats {
  totalSize : Z;
  itemCount : Z;
  breakdown : gmap string Z
}.

(** [new Blob([value]).size] *)
Definition blobSize (value : string) : Z := Z.of_nat (String.length value).

(** One turn of the loop over the keys: a missing key and an empty string
    are skipped. *)
Definition visit (storage : gmap string string) (acc : Stats) (key : string)
    : Stats :=
  match storage !! key with
  | Some value =>
      if negb (String.eqb value "")
      then
        let size := blobSize value in
        mkStats (totalSize acc + size) (itemCount acc + 1)
                (<[key := size]> (breakdown acc))
      else acc
  | None => acc
  end.

Definition statsOver (keys : list string) (storage : gmap string string) : Stats :=
  fold_left (visit storage) keys (mkStats 0 0 ∅).

Definition getStorageStats (storage : gmap string string) : Stats :=
  statsOver STORAGE_KEYS storage.

End StorageStats.

(** ** The providers and the home screen's check-in

    An operation of a provider runs from a rendered state of the provider's
    [useState] cells against the store; its [set...] calls apply in order, a
    functional update to the value then current; it leaves the state and the
    store behind whether it returns or throws. Effects that re-run on a
    state change, alerts, logs and timers are not part of an operation. *)

Definition Ctx (St A : Type) : Type := St -> Store -> St * Store * result A.

Definition retC {St A} (a : A) : Ctx St A := fun st s => (st, s, Ok a).
Definition throwC {St A} (e : Error) : Ctx St A := fun st s => (st, s, Throw e).
Definition bindC {St A B} (m : Ctx St A) (k : A -> Ctx St B) : Ctx St B :=
  fun st s => match m st s with
              | (st', s', Ok a) => k a st' s'
              | (st', s', Throw e) => (st', s', Throw e)
              end.

(** [await] of a service call. *)
Definition await {St A} (m : M A) : Ctx St A :=
  fun st s => match m s with (s', r) => (st, s', r) end.

(** A [set...] call, and a read of the rendered state. *)
Definition setState {St} (f : St -> St) : Ctx St unit :=
  fun st s => (f st, s, Ok tt).
Definition getState {St} : Ctx St St := fun st s => (st, s, Ok st).

(** [try { body } catch (error) { handler }] *)
Definition tryCatch {St A} (body : Ctx St A) (handler : Error -> Ctx St A)
    : Ctx St A :=
  fun st s => match body st s with
              | (st', s', Throw e) => handler e st' s'
              | (st', s', Ok a) => (st', s', Ok a)
              end.

(** [... finally { set(...) }] *)
Definition finally {St A} (body : Ctx St A) (fin : St -> St) : Ctx St A :=
  fun st s => match body st s with (st', s', r) => (fin st', s', r) end.

Declare Scope context_scope.
Delimit Scope context_scope with context.
Notation "x <- m ;; k" := (bindC m (fun x => k))
  (at level 100, m at next level, right associativity) : context_scope.
Notation "m ;; k" := (bindC m (fun _ => k))
  (at level 100, right associativity) : context_scope.

Module AuthContext.
Local Open Scope context_scope.

Record State : Type := mkState {
  user : option User;
  userProfile : option obj;
  loading : bool;
  isAuthenticated : bool;
  error : option string
}.

Definition setUser (v : option User) (st : State) : State :=
  mkState v (userProfile st) (loading st) (isAuthenticated st) (error st).
Definition setUserProfile (v : option obj) (st : State) : State :=
  mkState (user st) v (loading st) (isAuthenticated st) (error st).
Definition setLoading (v : bool) (st : State) : State :=
  mkState (user st) (userProfile st) v (isAuthenticated st) (error st).
Definition setIsAuthenticated (v : bool) (st : State) : State :=
  mkState (user st) (userProfile st) (loading st) v (error st).
Definition setError (v : option string) (st : State) : State :=
  mkState (user st) (userProfile st) (loading st) (isAuthenticated st) v.

(** The state of the first render. *)
Definition initial : State := mkState None None true false None.

Definition clearSession : Ctx State unit :=
  setState (setUser None) ;;
  setState (setUserProfile None) ;;
  setState (setIsAuthenticated false).

Definition checkAuthState : Ctx State unit :=
  finally
    (tryCatch
       (setState (setLoading true) ;;
        currentUser <- await LocalStorageService.getCurrentUser ;;
        match currentUser with
        | Some u =>
            setState (setUser (Some u)) ;;
            setState (setIsAuthenticated true) ;;
            profile <- await LocalStorageService.getUserProfile ;;
            setState (setUserProfile profile)
        | None => clearSession
        end)
       (fun _ =>
          setState (setError (Some "Authentication error occurred")) ;;
          clearSession))
    (setLoading false).

Section Auth.
Variable now : Z.
Variable zone : JSDate.Zone.
Variable toLowerCase : string -> string.

Definition login (email password : string) : Ctx State bool :=
  finally
    (tryCatch
       (setState (setLoading true) ;;
        setState (setError None) ;;
        loggedUser <- await (LocalStorageService.loginUser now toLowerCase email password) ;;
        setState (setUser (Some loggedUser)) ;;
        setState (setIsAuthenticated true) ;;
        profile <- await LocalStorageService.getUserProfile ;;
        setState (setUserProfile profile) ;;
        retC true)
       (fun e =>
          setState (setError (Some "Login failed. Please check your credentials.")) ;;
          throwC e))
    (setLoading false).

Definition register (name email password : string) : Ctx State bool :=
  finally
    (tryCatch
       (setState (setLoading true) ;;
        setState (setError None) ;;
        newUser <- await (LocalStorageService.registerUser now zone toLowerCase email
                            password name) ;;
        setState (setUser (Some newUser)) ;;
        setState (setIsAuthenticated true) ;;
        profile <- await LocalStorageService.getUserProfile ;;
        setState (setUserProfile profile) ;;
        retC true)
       (fun e =>
          setState (setError (Some "Registration failed. Please try again.")) ;;
          throwC e))
    (setLoading false).

Definition logout : Ctx State unit :=
  finally
    (tryCatch
       (setState (setLoading true) ;;
        await LocalStorageService.logoutUser ;;
        clearSession ;;
        setState (setError None))
       (fun _ =>
          clearSession ;;
          setState (setError None)))
    (setLoading false).

(** [setUserProfile(prev => prev ? { ...prev, ...updates } : null)] *)
Definition mergeProfile (updates : obj) (st : State) : State :=
  setUserProfile
    (match userProfile st with
     | Some prev => Some (spread prev updates)
     | None => None
     end) st.

Definition updateUserProfile (updates : obj) : Ctx State unit :=
  tryCatch
    (setState (setError None) ;;
     await (LocalStorageService.updateUserProfile now updates) ;;
     setState (mergeProfile updates))
    (fun e =>
       setState (setError (Some "Failed to update profile. Please try again.")) ;;
       throwC e).
End Auth.
End AuthContext.

Module SettingsContext.
Local Open Scope context_scope.

Record State : Type := mkState {
  settings : obj;
  loading : bool;
  error : option string
}.

Definition setSettings (v : obj) (st : State) : State :=
  mkState v (loading st) (error st).
Definition setLoading (v : bool) (st : State) : State :=
  mkState (settings st) v (error st).
Definition setError (v : option string) (st : State) : State :=
  mkState (settings st) (loading st) v.

Section Settings.
Variable now : Z.

(** The state of the first render, at clock value [now]. *)
Definition initial : State :=
  mkState (LocalStorageService.defaultSettings now) true None.

Definition loadSettings : Ctx State unit :=
  finally
    (tryCatch
       (setState (setLoading true) ;;
        userSettings <- await (LocalStorageService.getUserSettings now) ;;
        setState (setSettings userSettings) ;;
        setState (setError None))
       (fun _ => setState (setError (Some "Failed to load settings"))))
    (setLoading false).

(** [setSettings(prev => ({ ...prev, ...updates }))] *)
Definition updateSettings (updates : obj) : Ctx State unit :=
  tryCatch
    (await (LocalStorageService.updateUserSettings now updates) ;;
     setState (fun st => setSettings (spread (settings st) updates) st))
    (fun e => throwC e).

Definition refreshSettings : Ctx State unit := loadSettings.
End Settings.
End SettingsContext.

Module RecordsContext.
Local Open Scope context_scope.

(** ['synced' | 'syncing' | 'error'] *)
Inductive SyncStatus : Type := synced | syncing | sync_error.

Record State : Type := mkState {
  records : list obj;
  loading : bool;
  error : option string;
  syncStatus : SyncStatus
}.

Definition setRecords (v : list obj) (st : State) : State :=
  mkState v (loading st) (error st) (syncStatus st).
Definition setLoading (v : bool) (st : State) : State :=
  mkState (records st) v (error st) (syncStatus st).
Definition setError (v : option string) (st : State) : State :=
  mkState (records st) (loading st) v (syncStatus st).
Definition setSyncStatus (v : SyncStatus) (st : State) : State :=
  mkState (records st) (loading st) (error st) v.

(** The state of the first render. *)
Definition initial : State := mkState [] true None synced.

Definition loadRecords : Ctx State unit :=
  finally
    (tryCatch
       (setState (setLoading true) ;;
        dailyRecords <- await LocalStorageService.getDailyRecords ;;
        setState (setRecords dailyRecords) ;;
        setState (setError None) ;;
        setState (setSyncStatus synced))
       (fun _ =>
          setState (setError (Some "Failed to load records")) ;;
          setState (setSyncStatus sync_error)))
    (setLoading false).

Section Records.
Variable now : Z.

Definition createRecord (recordData : obj) : Ctx State unit :=
  tryCatch
    (setState (setSyncStatus syncing) ;;
     await (LocalStorageService.createDailyRecord now recordData) ;;
     loadRecords)
    (fun e => setState (setSyncStatus sync_error) ;; throwC e).

Definition updateRecord (recordId : string) (updates : obj) : Ctx State unit :=
  tryCatch
    (setState (setSyncStatus syncing) ;;
     await (LocalStorageService.updateDailyRecord now recordId updates) ;;
     loadRecords)
    (fun e => setState (setSyncStatus sync_error) ;; throwC e).
End Records.

Definition deleteRecord (recordId : string) : Ctx State unit :=
  tryCatch
    (setState (setSyncStatus syncing) ;;
     await (LocalStorageService.deleteDailyRecord recordId) ;;
     loadRecords)
    (fun e => setState (setSyncStatus sync_error) ;; throwC e).

(** The loaded records are searched first, the storage only on a miss. *)
Definition getRecordByDate (date : string) : Ctx State (option obj) :=
  tryCatch
    (st <- getState ;;
     match List.find (fun r => strict_eq_str (r !! "date") date) (records st) with
     | Some existingRecord => retC (Some existingRecord)
     | None => await (LocalStorageService.getDailyRecordByDate date)
     end)
    (fun _ => retC None).

Definition refreshRecords : Ctx State unit := loadRecords.
End RecordsContext.

(** The check-in of the home screen ([toggleDailyCompletion]), over the
    screen's own cells and the records provider's. *)
Module HomeCheckIn.
Local Open Scope context_scope.

Record State : Type := mkState {
  todayRecord : option obj;
  isCompleted : bool;
  loading : bool;
  canCheckIn : bool;
  currentDate : string
}.

Definition setIsCompleted (v : bool) (h : State) : State :=
  mkState (todayRecord h) v (loading h) (canCheckIn h) (currentDate h).
Definition setLoading (v : bool) (h : State) : State :=
  mkState (todayRecord h) (isCompleted h) v (canCheckIn h) (currentDate h).
Definition setCanCheckIn (v : bool) (h : State) : State :=
  mkState (todayRecord h) (isCompleted h) (loading h) v (currentDate h).
Definition setCurrentDate (v : string) (h : State) : State :=
  mkState (todayRecord h) (isCompleted h) (loading h) (canCheckIn h) v.

(** A [set...] call of the screen, and a call into the records provider. *)
Definition setHome (f : State -> State) : Ctx (State * RecordsContext.State) unit :=
  setState (fun st => (f (fst st), snd st)).

Definition useRecords {A} (m : Ctx RecordsContext.State A)
    : Ctx (State * RecordsContext.State) A :=
  fun st s => match m (snd st) s with
              | (rc, s', r) => ((fst st, rc), s', r)
              end.

(** [new Date().toISOString().split('T')[0]] *)
Definition todayString (now : Z) : string :=
  JSDate.beforeT (JSDate.toISOString now).

Section CheckIn.
Variable now : Z.
(** [new Date().toLocaleTimeString('pt-BR', ...)], the wall-clock time as
    the device formats it. *)
Variable currentTime : string.

Definition recordData (date : string) : obj :=
  <["date" := JStr date]> (
  <["capsules" := JNum 2]> (
  <["time" := JStr currentTime]> (
  <["notes" := JStr ""]> (
  <["completed" := JBool true]> ∅)))).

(** The id of a record is a string, as [DailyRecord] declares it; an id of
    another type, which the typed operations of the service cannot be given,
    is read as absent. *)
Definition recordId (r : option obj) : option string :=
  match r with
  | Some record =>
      match record !! "id" with
      | Some (JStr i) => if String.eqb i "" then None else Some i
      | _ => None
      end
  | None => None
  end.

Definition toggleDailyCompletion : Ctx (State * RecordsContext.State) unit :=
  st <- getState ;;
  let h := fst st in
  let records := RecordsContext.records (snd st) in
  if loading h then retC tt else
  let currentTodayRecord :=
    List.find (fun record => strict_eq_str (record !! "date") (currentDate h))
              records in
  let alreadyCompleted :=
    match currentTodayRecord with
    | Some record => completed record
    | None => false
    end in
  if alreadyCompleted then retC tt else
  let currentDay := todayString now in
  if negb (String.eqb currentDay (currentDate h))
  then setHome (setCurrentDate currentDay)
  else
    finally
      (tryCatch
         (setHome (setLoading true) ;;
          match recordId currentTodayRecord with
          | Some i =>
              useRecords (RecordsContext.updateRecord now i
                            (recordData (currentDate h)))
          | None =>
              useRecords (RecordsContext.createRecord now
                            (recordData (currentDate h)))
          end ;;
          setHome (setIsCompleted true) ;;
          setHome (setCanCheckIn false))
         (fun _ => retC tt))
      (fun st => (setLoading false (fst st), snd st)).
End CheckIn.
End HomeCheckIn.
(** * Facts about dates *)

Module JSDateFacts.
Import JSDate.

Ltac zbool :=
  repeat match goal with
  | |- context [?a <=? ?b] => destruct (Z.leb_spec a b)
  | |- context [?a <? ?b] => destruct (Z.ltb_spec a b)
  | |- context [?a =? ?b] => destruct (Z.eqb_spec a b)
  | H : context [?a <=? ?b] |- _ => destruct (Z.leb_spec a b)
  | H : context [?a <? ?b] |- _ => destruct (Z.ltb_spec a b)
  | H : context [?a =? ?b] |- _ => destruct (Z.eqb_spec a b)
  end.

Ltac divlia := Z.div_mod_to_equations; lia.

(** Evaluates the operations on numerals that a case split leaves behind. *)
Ltac zconst_op op :=
  repeat match goal with
  | |- context [op (Zpos ?a) (Zpos ?b)] =>
      let v := eval vm_compute in (op (Zpos a) (Zpos b)) in
      change (op (Zpos a) (Zpos b)) with v
  end.

Ltac zconst :=
  zconst_op Z.div; zconst_op Z.modulo; zconst_op Z.add;
  zconst_op Z.leb; zconst_op Z.ltb; zconst_op Z.eqb;
  cbv iota; cbn [orb andb negb].

Lemma civil_of_doe_spec doe yoe m d :
  0 <= doe < 146097 -> civil_of_doe doe = (yoe, m, d) ->
  0 <= yoe < 400 /\ 1 <= m <= 12 /\ 1 <= d /\
  doe_of_civil yoe m d = doe.
Proof.
  unfold civil_of_doe, doe_of_civil. intros H E. injection E as <- <- <-.
  zbool; divlia.
Qed.

Lemma civil_of_doe_dim doe yoe m d :
  0 <= doe < 146097 -> civil_of_doe doe = (yoe, m, d) ->
  d <= days_in_month (yoe + month_shift m) m.
Proof.
  unfold civil_of_doe, days_in_month, is_leap, month_shift.
  intros H E. injection E as <- <- <-.
  zbool; cbn [andb orb negb]; divlia.
Qed.

Lemma is_leap_era y e : is_leap (y + e * 400) = is_leap y.
Proof.
  unfold is_leap.
  replace ((y + e * 400) mod 4) with (y mod 4) by divlia.
  replace ((y + e * 400) mod 100) with (y mod 100) by divlia.
  replace ((y + e * 400) mod 400) with (y mod 400) by divlia.
  reflexivity.
Qed.

Lemma days_in_month_era y e m : days_in_month (y + e * 400) m = days_in_month y m.
Proof. unfold days_in_month. now rewrite is_leap_era. Qed.

(** The day count of the date that [civil_from_days] returns is the day it
    was given, and the date is a valid calendar date. *)
Lemma days_from_civil_from_days z y m d :
  civil_from_days z = (y, m, d) ->
  days_from_civil y m d = z /\ 1 <= m <= 12 /\ 1 <= d <= days_in_month y m.
Proof.
  unfold civil_from_days. intros E.
  set (z' := z + 719468) in *.
  assert (Hdoe : 0 <= z' mod 146097 < 146097) by (apply Z.mod_pos_bound; lia).
  destruct (civil_of_doe (z' mod 146097)) as [[yoe m0] d0] eqn:Ec.
  injection E as <- <- <-.
  destruct (civil_of_doe_spec _ _ _ _ Hdoe Ec) as (Hy & Hm & Hd & Hr).
  pose proof (civil_of_doe_dim _ _ _ _ Hdoe Ec) as Hdim.
  split; [|split; [exact Hm|]].
  - unfold days_from_civil.
    replace (if m0 <=? 2 then yoe + z' / 146097 * 400 + (if m0 <=? 2 then 1 else 0) - 1
             else yoe + z' / 146097 * 400 + (if m0 <=? 2 then 1 else 0))
      with (yoe + z' / 146097 * 400) by (destruct (m0 <=? 2); lia).
    replace ((yoe + z' / 146097 * 400) / 400) with (z' / 146097) by divlia.
    replace ((yoe + z' / 146097 * 400) mod 400) with yoe by divlia.
    rewrite Hr. subst z'. divlia.
  - split; [exact Hd|].
    replace (yoe + z' / 146097 * 400 + (if m0 <=? 2 then 1 else 0))
      with (yoe + month_shift m0 + z' / 146097 * 400) by (unfold month_shift; lia).
    now rewrite days_in_month_era.
Qed.


Lemma yoe_recover yoe doy :
  0 <= yoe < 400 -> 0 <= doy <= 365 ->
  (doy = 365 -> is_leap (yoe + 1) = true) ->
  let doe := yoe * 365 + yoe / 4 - yoe / 100 + doy in
  0 <= doe < 146097 /\
  (doe - doe / 1460 + doe / 36524 - doe / 146096) / 365 = yoe.
Proof.
  intros H1 H2 H3 doe. subst doe.
  assert (doy = 365 -> (yoe + 1) mod 4 = 0 /\
          ((yoe + 1) mod 100 <> 0 \/ (yoe + 1) mod 400 = 0)) as H4.
  { intros E. specialize (H3 E). unfold is_leap in H3.
    apply andb_prop in H3 as [Ha Hb]. apply Z.eqb_eq in Ha. split; [exact Ha|].
    apply orb_prop in Hb as [Hb|Hb].
    - left. apply negb_true_iff, Z.eqb_neq in Hb. exact Hb.
    - right. now apply Z.eqb_eq in Hb. }
  clear H3. divlia.
Qed.

Lemma month_recover m d :
  1 <= m <= 12 -> 1 <= d <= 31 ->
  (m = 2 -> d <= 29) ->
  (m = 4 \/ m = 6 \/ m = 9 \/ m = 11 -> d <= 30) ->
  let mp := if 2 <? m then m - 3 else m + 9 in
  let doy := (153 * mp + 2) / 5 + d - 1 in
  0 <= doy <= 365 /\ (doy = 365 -> m = 2 /\ d = 29) /\
  (5 * doy + 2) / 153 = mp /\ doy - (153 * mp + 2) / 5 + 1 = d /\
  (if mp <? 10 then mp + 3 else mp - 9) = m.
Proof.
  intros Hm Hd H2 H30 mp doy. subst doy mp.
  zbool; divlia.
Qed.

Lemma days_in_month_bounds y m :
  28 <= days_in_month y m <= 31 /\
  (m = 2 -> days_in_month y m <= 29) /\
  (m = 2 -> days_in_month y m = 29 -> is_leap y = true) /\
  (m = 4 \/ m = 6 \/ m = 9 \/ m = 11 -> days_in_month y m <= 30).
Proof.
  unfold days_in_month. destruct (is_leap y); zbool; cbn [orb]; lia.
Qed.

Lemma doe_of_civil_inv yoe m d :
  0 <= yoe < 400 -> 1 <= m <= 12 ->
  1 <= d <= days_in_month (yoe + month_shift m) m ->
  0 <= doe_of_civil yoe m d < 146097 /\
  civil_of_doe (doe_of_civil yoe m d) = (yoe, m, d).
Proof.
  intros Hy Hm Hd.
  destruct (days_in_month_bounds (yoe + month_shift m) m) as (Hb & Hfeb & Hleap & H30).
  destruct (month_recover m d Hm) as (Hdoy & H365 & Hmp & Hdd & Hmm);
    [lia | lia | lia |].
  set (mp := if 2 <? m then m - 3 else m + 9) in *.
  set (doy := (153 * mp + 2) / 5 + d - 1) in *.
  destruct (yoe_recover yoe doy Hy Hdoy) as [Hr Hyoe].
  { intros E. destruct (H365 E) as [-> ->].
    apply Hleap; [reflexivity|]. unfold month_shift in *. simpl in *. lia. }
  unfold doe_of_civil, civil_of_doe. fold mp. fold doy.
  split; [exact Hr|].
  cbv zeta. rewrite Hyoe.
  replace (yoe * 365 + yoe / 4 - yoe / 100 + doy - (365 * yoe + yoe / 4 - yoe / 100))
    with doy by lia.
  rewrite Hmp, Hdd, Hmm. reflexivity.
Qed.

(** Conversely, a valid calendar date is the date of its day count. *)
Lemma civil_from_days_from_civil y m d :
  1 <= m <= 12 -> 1 <= d <= days_in_month y m ->
  civil_from_days (days_from_civil y m d) = (y, m, d).
Proof.
  intros Hm Hd. unfold days_from_civil, civil_from_days.
  set (y' := if m <=? 2 then y - 1 else y).
  assert (Hy : y = y' mod 400 + month_shift m + y' / 400 * 400).
  { subst y'. unfold month_shift. destruct (m <=? 2); divlia. }
  assert (Hyoe : 0 <= y' mod 400 < 400) by (apply Z.mod_pos_bound; lia).
  rewrite Hy, days_in_month_era in Hd.
  destruct (doe_of_civil_inv _ _ _ Hyoe Hm Hd) as [Hr Hc].
  set (doe := doe_of_civil (y' mod 400) m d) in *.
  replace (y' / 400 * 146097 + doe - 719468 + 719468)
    with (doe + y' / 400 * 146097) by lia.
  replace ((doe + y' / 400 * 146097) mod 146097) with doe by divlia.
  replace ((doe + y' / 400 * 146097) / 146097) with (y' / 400) by divlia.
  rewrite Hc. f_equal. f_equal. unfold month_shift in Hy. lia.
Qed.


Lemma civil_from_days_year z y m d :
  inISORange z -> civil_from_days z = (y, m, d) -> 0 <= y <= 9999.
Proof.
  unfold inISORange. intros Hz E.
  destruct (days_from_civil_from_days _ _ _ _ E) as (Hr & Hm & Hd).
  destruct (days_in_month_bounds y m) as (Hb & _).
  destruct (Z_lt_ge_dec y 0) as [Hneg|Hnn].
  - exfalso. revert Hr. unfold days_from_civil, doe_of_civil. zbool; divlia.
  - split; [lia|].
    destruct (Z_le_gt_dec y 9999) as [Hle|Hgt]; [exact Hle|].
    exfalso. revert Hr. unfold days_from_civil, doe_of_civil. zbool; divlia.
Qed.

Lemma days_from_civil_day y m d :
  days_from_civil y m d = days_from_civil y m 1 + d - 1.
Proof. unfold days_from_civil, doe_of_civil. lia. Qed.

Lemma MakeDay_of_time t dt :
  MakeDay (YearFromTime t) (MonthFromTime t) dt = Day t - DateFromTime t + dt.
Proof.
  unfold MakeDay, YearFromTime, MonthFromTime, DateFromTime.
  destruct (civil_from_days (Day t)) as [[y m] d] eqn:E. cbn [fst snd].
  destruct (days_from_civil_from_days _ _ _ _ E) as (Hr & Hm & Hd).
  replace ((m - 1) / 12) with 0 by divlia.
  replace ((m - 1) mod 12 + 1) with m by divlia.
  rewrite Z.add_0_r. rewrite (days_from_civil_day y m d) in Hr. lia.
Qed.

(** Moving a date back [i] days with [setDate(getDate() - i)] subtracts
    [i] whole days from its time value, in a zone of constant offset. *)
Lemma setDate_getDate (tza t i : Z) :
  setDate (fixed tza) t (getDate (fixed tza) t - i) = t - i * msPerDay.
Proof.
  unfold setDate, getDate, UTC, MakeDate.
  set (lt := LocalTime (fixed tza) t). rewrite MakeDay_of_time.
  unfold Day, TimeWithinDay, LocalTime, fixed in *. unfold msPerDay. subst lt.
  divlia.
Qed.


Lemma digit_val_digit k : 0 <= k <= 9 -> digit_val (digit k) = Some k.
Proof.
  intros H.
  assert (k = 0 \/ k = 1 \/ k = 2 \/ k = 3 \/ k = 4 \/ k = 5 \/ k = 6 \/
          k = 7 \/ k = 8 \/ k = 9) as Hc by lia.
  repeat (destruct Hc as [-> | Hc]); try subst k; reflexivity.
Qed.


Lemma digit_of_val c v : digit_val c = Some v -> c = digit v /\ 0 <= v <= 9.
Proof.
  unfold digit_val, digit. intros H.
  destruct ((48 <=? Z.of_N (N_of_ascii c)) && (Z.of_N (N_of_ascii c) <=? 57)) eqn:E;
    [|discriminate].
  apply andb_prop in E as [E1 E2]. apply Z.leb_le in E1, E2.
  injection H as <-. split; [|lia].
  replace (48 + Z.to_N (Z.of_N (N_of_ascii c) - 48))%N with (N_of_ascii c) by lia.
  now rewrite ascii_N_embedding.
Qed.

Lemma num2_pad2 n :
  0 <= n <= 99 ->
  num2 (digit (n / 10)) (digit (n mod 10)) = Some n.
Proof.
  intros H. unfold num2.
  rewrite !digit_val_digit by divlia. f_equal. divlia.
Qed.

Lemma num4_pad4 n :
  0 <= n <= 9999 ->
  num4 (digit (n / 1000)) (digit (n mod 1000 / 100))
       (digit (n mod 1000 mod 100 / 10)) (digit (n mod 1000 mod 100 mod 10)) = Some n.
Proof.
  intros H. unfold num4, num2.
  rewrite !digit_val_digit by divlia. f_equal. divlia.
Qed.

Lemma num2_inv a b n :
  num2 a b = Some n -> 0 <= n <= 99 /\ String a (String b "") = pad2 n.
Proof.
  unfold num2, pad2. intros H.
  destruct (digit_val a) as [x|] eqn:Ea; [|discriminate].
  destruct (digit_val b) as [y|] eqn:Eb; [|discriminate].
  injection H as <-.
  apply digit_of_val in Ea as [-> Hx], Eb as [-> Hy].
  split; [lia|].
  replace ((10 * x + y) / 10) with x by divlia.
  replace ((10 * x + y) mod 10) with y by divlia. reflexivity.
Qed.

Lemma num4_inv a b c d n :
  num4 a b c d = Some n ->
  0 <= n <= 9999 /\ String a (String b (String c (String d ""))) = pad4 n.
Proof.
  unfold num4. intros H.
  destruct (num2 a b) as [x|] eqn:Ea; [|discriminate].
  destruct (num2 c d) as [y|] eqn:Eb; [|discriminate].
  injection H as <-.
  apply num2_inv in Ea as [Hx Ea], Eb as [Hy Eb].
  split; [lia|].
  unfold pad4, pad3.
  replace ((100 * x + y) mod 1000 mod 100) with y by divlia.
  rewrite <- Eb. unfold pad2 in Ea. injection Ea as -> ->.
  f_equal; [f_equal; divlia | f_equal; f_equal; divlia].
Qed.

Lemma isoYear_pad4 y : 0 <= y <= 9999 -> isoYear y = pad4 y.
Proof.
  intros H. unfold isoYear.
  destruct (Z.leb_spec 0 y); [|lia]. destruct (Z.leb_spec y 9999); [|lia].
  reflexivity.
Qed.


(** Parsing the ISO form of a day gives UTC midnight of that day. *)
Lemma parse_isoDate z :
  inISORange z -> parse (isoDate z) = Some (z * msPerDay).
Proof.
  intros Hz. unfold isoDate.
  destruct (civil_from_days z) as [[y m] d] eqn:E.
  pose proof (civil_from_days_year _ _ _ _ Hz E) as Hy.
  destruct (days_from_civil_from_days _ _ _ _ E) as (Hr & Hm & Hd).
  destruct (days_in_month_bounds y m) as (Hb & _).
  rewrite isoYear_pad4 by exact Hy.
  unfold pad4, pad3, pad2. cbv [String.append]. cbn [parse].
  rewrite num4_pad4 by lia. rewrite !num2_pad2 by lia.
  cbn [Ascii.eqb Bool.eqb andb].
  replace ((1 <=? m) && (m <=? 12) && (1 <=? d) && (d <=? days_in_month y m))
    with true by (symmetry; rewrite !andb_true_iff, !Z.leb_le; lia).
  rewrite Hr. unfold MakeDate. f_equal. lia.
Qed.

(** Only the ISO form of a day parses, and it parses to that day. *)
Lemma parse_inv s t :
  parse s = Some t ->
  s = isoDate (Day t) /\ t = Day t * msPerDay /\ inISORange (Day t).
Proof.
  intros H.
  destruct s as [|y1 [|y2 [|y3 [|y4 [|c1 [|m1 [|m2 [|c2 [|d1 [|d2 [|? ?]]]]]]]]]]];
    try discriminate H.
  cbn [parse] in H.
  destruct (num4 y1 y2 y3 y4) as [y|] eqn:Ey; [|discriminate].
  destruct (num2 m1 m2) as [m|] eqn:Em; [|discriminate].
  destruct (num2 d1 d2) as [d|] eqn:Ed; [|discriminate].
  match type of H with (if ?c then _ else _) = _ => destruct c eqn:Ec end;
    [|discriminate].
  injection H as <-.
  rewrite !andb_true_iff, !Z.leb_le in Ec.
  destruct Ec as (((((Hc1 & Hc2) & Hm1) & Hm2) & Hd1) & Hd2).
  apply Ascii.eqb_eq in Hc1, Hc2. subst c1 c2.
  apply num4_inv in Ey as [Hy Ey]. apply num2_inv in Em as [_ Em], Ed as [_ Ed].
  assert (HD : Day (MakeDate (days_from_civil y m d) 0) = days_from_civil y m d).
  { unfold Day, MakeDate, msPerDay. divlia. }
  rewrite HD. split; [|split].
  - unfold isoDate. rewrite civil_from_days_from_civil by lia.
    rewrite isoYear_pad4 by exact Hy.
    rewrite <- Ey, <- Em, <- Ed. reflexivity.
  - unfold MakeDate. lia.
  - destruct (days_in_month_bounds y m) as (Hb & _).
    unfold inISORange, days_from_civil, doe_of_civil. zbool; divlia.
Qed.

Lemma parse_injective s1 s2 t :
  parse s1 = Some t -> parse s2 = Some t -> s1 = s2.
Proof.
  intros H1 H2. apply parse_inv in H1 as [-> _], H2 as [-> _]. reflexivity.
Qed.

Example days_from_civil_epoch : days_from_civil 1970 1 1 = 0.
Proof. reflexivity. Qed.

Example toISOString_sample :
  toISOString 1718454896789 = "2024-06-15T12:34:56.789Z".
Proof. vm_compute. reflexivity. Qed.

Example parse_sample : parse "2024-06-15" = Some 1718409600000.
Proof. vm_compute. reflexivity. Qed.

Example parse_leap_day :
  parse "2024-02-29" = Some 1709164800000 /\ parse "2023-02-29" = None.
Proof. vm_compute. split; reflexivity. Qed.

Example setDate_sample :
  toISOString (setDate (fixed (13 * msPerHour)) 1718454896789
                 (getDate (fixed (13 * msPerHour)) 1718454896789 - 3))
  = "2024-06-12T12:34:56.789Z".
Proof. vm_compute. reflexivity. Qed.
End JSDateFacts.

(** * Facts about the sort *)

Section SortFacts.
Context {A : Type} (cmp : A -> A -> option Z).

Lemma insert_by_Permutation x l : insert_by cmp x l ≡ₚ x :: l.
Proof.
  induction l as [|y l IH]; cbn [insert_by]; [reflexivity|].
  destruct (0 <? sortCompare cmp x y); [|reflexivity].
  rewrite IH. apply Permutation_swap.
Qed.

Lemma sort_by_Permutation l : sort_by cmp l ≡ₚ l.
Proof.
  induction l as [|x l IH]; cbn [sort_by]; [reflexivity|].
  now rewrite insert_by_Permutation, IH.
Qed.

Lemma sort_by_length l : length (sort_by cmp l) = length l.
Proof. apply Permutation_length, sort_by_Permutation. Qed.

Lemma insert_by_head x l :
  HdRel (inOrder cmp) x l -> insert_by cmp x l = x :: l.
Proof.
  intros [|y l' H]; [reflexivity|]. cbn [insert_by]. unfold inOrder in H.
  destruct (Z.ltb_spec 0 (sortCompare cmp x y)); [lia|reflexivity].
Qed.

(** A list that is already in order is left as it is. *)
Lemma sort_by_Sorted_id l : Sorted (inOrder cmp) l -> sort_by cmp l = l.
Proof.
  induction 1 as [|x l Hs IH Hh]; cbn [sort_by]; [reflexivity|].
  rewrite IH. now apply insert_by_head.
Qed.

Hypothesis cmp_antisym :
  forall x y, 0 < sortCompare cmp x y -> sortCompare cmp y x <= 0.

Lemma insert_by_Sorted x l :
  Sorted (inOrder cmp) l -> Sorted (inOrder cmp) (insert_by cmp x l).
Proof.
  induction 1 as [|y l Hs IH Hh]; cbn [insert_by].
  - repeat constructor.
  - destruct (Z.ltb_spec 0 (sortCompare cmp x y)) as [Hlt|Hge].
    + constructor; [exact IH|].
      destruct Hh as [|z l' Hz]; cbn [insert_by].
      * constructor. now apply cmp_antisym.
      * destruct (0 <? sortCompare cmp x z); constructor;
          [exact Hz | now apply cmp_antisym].
    + constructor; [now constructor|]. constructor. exact Hge.
Qed.

Lemma sort_by_Sorted l : Sorted (inOrder cmp) (sort_by cmp l).
Proof.
  induction l as [|x l IH]; cbn [sort_by]; [constructor|].
  now apply insert_by_Sorted.
Qed.

Lemma sort_by_idempotent l : sort_by cmp (sort_by cmp l) = sort_by cmp l.
Proof. apply sort_by_Sorted_id, sort_by_Sorted. Qed.
End SortFacts.

Lemma byDateDesc_antisym x y :
  0 < sortCompare byDateDesc x y -> sortCompare byDateDesc y x <= 0.
Proof.
  unfold sortCompare, byDateDesc.
  destruct (dateValue (x !! "date")), (dateValue (y !! "date")); cbn; lia.
Qed.

Lemma sortRecords_idempotent (l : list obj) :
  sort_by byDateDesc (sort_by byDateDesc l) = sort_by byDateDesc l.
Proof. apply sort_by_idempotent, byDateDesc_antisym. Qed.

Lemma validDate_time r : validDate r -> is_Some (recordTime r).
Proof. intros (s & E & H). unfold recordTime. rewrite E. exact H. Qed.

Lemma inOrder_notBefore a b :
  is_Some (recordTime a) -> is_Some (recordTime b) ->
  inOrder byDateDesc a b -> notBefore a b.
Proof.
  intros [ta Ha] [tb Hb]. unfold inOrder, sortCompare, byDateDesc.
  unfold recordTime in *. rewrite Ha, Hb. cbn. intros H.
  exists ta, tb. repeat split; auto. lia.
Qed.

Lemma notBefore_trans : Transitive notBefore.
Proof.
  intros a b c (ta & tb & Ha & Hb & H1) (tb' & tc & Hb' & Hc & H2).
  rewrite Hb in Hb'. injection Hb' as <-. exists ta, tc. repeat split; auto. lia.
Qed.

(** With valid dates the sorted list is in descending order of date,
    every element against every later one. *)
Lemma sorted_notBefore l :
  Forall (fun r => is_Some (recordTime r)) l ->
  StronglySorted notBefore (sort_by byDateDesc l).
Proof.
  intros Hv. apply Sorted_StronglySorted; [apply notBefore_trans|].
  assert (Hv' : Forall (fun r => is_Some (recordTime r)) (sort_by byDateDesc l)).
  { now rewrite sort_by_Permutation. }
  pose proof (sort_by_Sorted byDateDesc byDateDesc_antisym l) as Hs.
  induction Hs as [|x l' Hs IH Hh]; [constructor|].
  apply Forall_cons in Hv' as [Hx Hl'].
  constructor; [now apply IH|].
  destruct Hh as [|y l'' Hy]; constructor.
  apply Forall_cons in Hl' as [Hy' _].
  now apply inOrder_notBefore.
Qed.

Lemma validDate_same_time a b t :
  validDate a -> validDate b ->
  recordTime a = Some t -> recordTime b = Some t -> a !! "date" = b !! "date".
Proof.
  intros (sa & Ea & _) (sb & Eb & _). unfold recordTime. rewrite Ea, Eb. cbn.
  intros Ha Hb. now rewrite (JSDateFacts.parse_injective _ _ _ Ha Hb).
Qed.

(** Distinct valid dates make the descending order strict. *)
Lemma notBefore_strict l :
  Forall validDate l -> NoDup (map (fun r : obj => r !! "date") l) ->
  StronglySorted notBefore l -> StronglySorted laterThan l.
Proof.
  intros Hv Hn Hs. induction Hs as [|x l Hs IH Hx]; [constructor|].
  apply Forall_cons in Hv as [Hvx Hv]. cbn [map] in Hn.
  apply NoDup_cons in Hn as [Hnx Hn].
  constructor; [now apply IH|].
  rewrite Forall_forall in Hx, Hv. apply Forall_forall. intros y Hy.
  destruct (Hx y Hy) as (ta & tb & Ha & Hb & Hle).
  exists ta, tb. repeat split; auto.
  destruct (Z.eq_dec ta tb) as [->|]; [|lia].
  exfalso. apply Hnx. rewrite (validDate_same_time x y tb); auto.
  apply list_elem_of_fmap. exists y. split; [reflexivity|exact Hy].
Qed.

Lemma laterThan_asym a b : laterThan a b -> laterThan b a -> False.
Proof.
  intros (ta & tb & Ha & Hb & H1) (tb' & ta' & Hb' & Ha' & H2).
  rewrite Ha in Ha'. rewrite Hb in Hb'. injection Ha' as <-. injection Hb' as <-.
  lia.
Qed.

Lemma sort_distinct_dates (l : list obj) :
  Forall validDate l -> NoDup (map (fun r : obj => r !! "date") l) ->
  StronglySorted laterThan (sort_by byDateDesc l).
Proof.
  intros Hv Hn. apply notBefore_strict.
  - now rewrite sort_by_Permutation.
  - now rewrite sort_by_Permutation.
  - apply sorted_notBefore. eapply Forall_impl; [exact Hv|].
    intros r. apply validDate_time.
Qed.

(** The result does not depend on the order of the input. *)
Lemma sort_distinct_dates_unique (l l' : list obj) :
  Forall validDate l -> NoDup (map (fun r : obj => r !! "date") l) ->
  l' ≡ₚ l -> sort_by byDateDesc l' = sort_by byDateDesc l.
Proof.
  intros Hv Hn Hp.
  apply (StronglySorted_unique_strong laterThan).
  - intros x y _ _ H1 H2. destruct (laterThan_asym _ _ H1 H2).
  - apply sort_distinct_dates; now rewrite Hp.
  - now apply sort_distinct_dates.
  - now rewrite !sort_by_Permutation.
Qed.

Lemma strict_eq_str_true v s : strict_eq_str v s = true <-> v = Some (JStr s).
Proof.
  unfold strict_eq_str. destruct v as [[| | |s']|]; try (split; discriminate).
  rewrite String.eqb_eq. split; [now intros -> | now intros [= ->]].
Qed.

(** * The storage service *)

Lemma sameEmail_true (toLowerCase : string -> string) e u :
  LocalStorageService.sameEmail toLowerCase e u = true <->
  toLowerCase (email u) = toLowerCase e.
Proof. unfold LocalStorageService.sameEmail. apply String.eqb_eq. Qed.

Lemma find_None_not_Exists {A} (p : A -> bool) (P : A -> Prop) (l : list A) :
  (forall x, p x = true <-> P x) ->
  List.find p l = None <-> ~ Exists P l.
Proof.
  intros Hp. induction l as [|x l IH]; cbn [List.find].
  - split; [intros _ H; inversion H | reflexivity].
  - destruct (p x) eqn:E.
    + split; [discriminate|]. intros H. exfalso. apply H. left. now apply Hp.
    + rewrite IH. split.
      * intros H H'. apply Exists_cons in H' as [H'|H']; [|now apply H].
        apply Hp in H'. congruence.
      * intros H H'. apply H. now right.
Qed.


Lemma findIndex_None p (l : list obj) :
  LocalStorageService.findIndex p l = None <-> Forall (fun r => p r = false) l.
Proof.
  induction l as [|r l IH]; cbn [LocalStorageService.findIndex].
  - split; [constructor | reflexivity].
  - destruct (p r) eqn:E.
    + split; [discriminate|]. intros H. apply Forall_cons in H as [H _]. congruence.
    + destruct (LocalStorageService.findIndex p l) eqn:E'; cbn.
      * split; [discriminate|]. intros H. apply Forall_cons in H as [_ H].
        apply IH in H. discriminate.
      * split; [|reflexivity]. intros _. constructor; [exact E|now apply IH].
Qed.

Lemma findIndex_Some p (l : list obj) i :
  LocalStorageService.findIndex p l = Some i ->
  exists r, l !! i = Some r /\ p r = true /\
            forall j r', (j < i)%nat -> l !! j = Some r' -> p r' = false.
Proof.
  revert i. induction l as [|r l IH]; cbn [LocalStorageService.findIndex];
    intros i H; [discriminate|].
  destruct (p r) eqn:E.
  - injection H as <-. exists r. repeat split; auto. intros j r' Hj. lia.
  - destruct (LocalStorageService.findIndex p l) as [i'|] eqn:E'; [|discriminate].
    cbn in H. injection H as <-.
    destruct (IH i' eq_refl) as (r0 & Hl & Hp & Hmin).
    exists r0. repeat split; auto.
    intros [|j] r' Hj Hr'; cbn in Hr'; [congruence|].
    apply (Hmin j); [lia|exact Hr'].
Qed.

(** The fields of [{...r, ...updates, updatedAt: now}]. *)
Lemma merged_lookup (r updates : obj) (stamp : jval) (k : string) :
  <["updatedAt" := stamp]> (spread r updates) !! k =
  if decide (k = "updatedAt") then Some stamp
  else match updates !! k with
       | Some v => Some v
       | None => r !! k
       end.
Proof.
  unfold spread. destruct (decide (k = "updatedAt")) as [->|Hk].
  - apply lookup_insert_eq.
  - rewrite lookup_insert_ne by congruence.
    rewrite lookup_union. destruct (updates !! k), (r !! k); reflexivity.
Qed.

(** C6. [registerUser] fails with [DuplicateEmailError], leaving the whole
    store (so the registered-user list, its length and its contents) as it
    was, when some registered user's email equals the given one up to case
    ([toLowerCase] being the case conversion of the engine, whatever it
    does to the two strings); otherwise it appends the new user to the list,
    makes it the current session with a token made from the clock, seeds
    the default profile (the name and the email given, the local date as
    treatment start, the tutorial not seen, both time stamps the clock) and
    the default settings (notifications on, reminder at 09:00, daily goal
    2, weekly goal 14, light theme, English, both time stamps the clock),
    leaves the other slots alone, and returns the created user. *)
Theorem registerUser_spec (now : Z) (zone : JSDate.Zone)
    (toLowerCase : string -> string) (s : Store) (e password nm : string) :
  let users := default [] (USERS s) in
  let matches := fun u => toLowerCase (email u) = toLowerCase e in
  let stamp := JSDate.toISOString now in
  let newUser := mkUser ("user_" ++ showZ now) e nm stamp stamp in
  let localDate :=
    JSDate.pad2 (JSDate.getDate zone now) ++ "/" ++
    JSDate.pad2 (JSDate.getMonth zone now + 1) ++ "/" ++
    JSDate.pad4 (JSDate.getFullYear zone now) in
  let profile : obj :=
    <["name" := JStr nm]> (
    <["email" := JStr e]> (
    <["treatmentStartDate" := JStr localDate]> (
    <["hasSeenTutorial" := JBool false]> (
    <["createdAt" := JStr stamp]> (
    <["updatedAt" := JStr stamp]> ∅))))) in
  let settings : obj :=
    <["notifications" := JBool true]> (
    <["reminderTime" := JStr "09:00"]> (
    <["dailyGoal" := JNum 2]> (
    <["weeklyGoal" := JNum 14]> (
    <["theme" := JStr "light"]> (
    <["language" := JStr "en"]> (
    <["createdAt" := JStr stamp]> (
    <["updatedAt" := JStr stamp]> ∅))))))) in
  (Exists matches users ->
   LocalStorageService.registerUser now zone toLowerCase e password nm s =
     (s, Throw DuplicateEmailError)) /\
  (~ Exists matches users ->
   LocalStorageService.registerUser now zone toLowerCase e password nm s =
     (mkStore (Some (users ++ [newUser])%list) (Some newUser)
              (Some ("token_" ++ showZ now))
              (Some profile) (DAILY_RECORDS s) (Some settings)
              (APP_THEME s) (APP_LANGUAGE s) (TUTORIAL_SEEN s),
      Ok newUser)).
Proof.
  intros users matches stamp newUser localDate profile settings.
  pose proof (find_None_not_Exists
                (LocalStorageService.sameEmail toLowerCase e) matches users
                (fun u => sameEmail_true toLowerCase e u)) as Hfind.
  unfold LocalStorageService.registerUser, LocalStorageService.getAllUsers,
    bind, getItem, ret, throw. fold users.
  split; intros H.
  - destruct (List.find (LocalStorageService.sameEmail toLowerCase e) users) eqn:E.
    + reflexivity.
    + exfalso. now apply Hfind.
  - apply Hfind in H. rewrite H. reflexivity.
Qed.

Lemma registerUser_spec_witness :
  LocalStorageService.registerUser 1718454896789 (JSDate.fixed 0) asciiLowerCase
      "ann@example.COM" "pw" "Ann B" (set_USERS (Some [ann]) emptyStore)
    = (set_USERS (Some [ann]) emptyStore, Throw DuplicateEmailError) /\
  exists s',
    fst (LocalStorageService.registerUser 1718454896789 (JSDate.fixed 0)
           asciiLowerCase "bob@example.com" "pw" "Bob"
           (set_USERS (Some [ann]) emptyStore)) = s' /\
    length (default [] (USERS s')) = 2%nat /\
    (USER_PROFILE s' ≫= fun p => p !! "treatmentStartDate")
      = Some (JStr "15/06/2024") /\
    (USER_SETTINGS s' ≫= fun t => t !! "weeklyGoal") = Some (JNum 14).
Proof.
  split.
  - apply (proj1 (registerUser_spec 1718454896789 (JSDate.fixed 0) asciiLowerCase
                    (set_USERS (Some [ann]) emptyStore)
                    "ann@example.COM" "pw" "Ann B")).
    left. reflexivity.
  - eexists. split.
    + rewrite (proj2 (registerUser_spec 1718454896789 (JSDate.fixed 0)
                        asciiLowerCase (set_USERS (Some [ann]) emptyStore)
                        "bob@example.com" "pw" "Bob")); [reflexivity|].
      intros H. apply Exists_cons in H as [H|H]; [discriminate H|inversion H].
    + cbn [USERS USER_PROFILE USER_SETTINGS fst]. split; [reflexivity|].
      split; [vm_compute; reflexivity|reflexivity].
Defined.



(** [updateDailyRecord], run: the outcome is decided by [findIndex] on the
    list [getDailyRecords] returns. *)
Lemma updateDailyRecord_run (now : Z) (s : Store) (recordId : string)
    (updates : obj) :
  let records := sort_by byDateDesc (default [] (DAILY_RECORDS s)) in
  LocalStorageService.updateDailyRecord now recordId updates s =
    match LocalStorageService.findIndex
            (fun r : obj => strict_eq_str (r !! "id") recordId) records with
    | None => (s, Throw RecordNotFoundError)
    | Some i =>
        (set_DAILY_RECORDS
           (Some (<[i := <["updatedAt" := JStr (JSDate.toISOString now)]>
                           (spread (default ∅ (records !! i)) updates)]> records)) s,
         Ok tt)
    end.
Proof.
  intros records.
  unfold LocalStorageService.updateDailyRecord, LocalStorageService.getDailyRecords,
    bind, getItem, setItem, ret, throw. fold records.
  destruct (LocalStorageService.findIndex _ records); reflexivity.
Qed.



(** What [updateUserProfile] and [updateUserSettings] leave behind. *)
Lemma updateUserProfile_run (now : Z) (s : Store) (updates : obj) :
  LocalStorageService.updateUserProfile now updates s =
    (set_USER_PROFILE
       (Some (<["updatedAt" := JStr (JSDate.toISOString now)]>
                (spread (default ∅ (USER_PROFILE s)) updates))) s,
     Ok tt).
Proof. reflexivity. Qed.

Lemma getUserSettings_stored (now : Z) (s : Store) (st : obj) :
  USER_SETTINGS s = Some st ->
  LocalStorageService.getUserSettings now s = (s, Ok st).
Proof.
  intros E. unfold LocalStorageService.getUserSettings, bind, getItem, ret.
  now rewrite E.
Qed.

Lemma getUserSettings_absent (now : Z) (s : Store) :
  USER_SETTINGS s = None ->
  LocalStorageService.getUserSettings now s =
    (set_USER_SETTINGS (Some (LocalStorageService.defaultSettings now)) s,
     Ok (LocalStorageService.defaultSettings now)).
Proof.
  intros E. unfold LocalStorageService.getUserSettings, bind, getItem, setItem, ret.
  now rewrite E.
Qed.

Lemma updateUserSettings_run (now : Z) (s : Store) (updates : obj) :
  exists old,
    snd (LocalStorageService.getUserSettings now s) = Ok old /\
    (forall st, USER_SETTINGS s = Some st -> old = st) /\
    LocalStorageService.updateUserSettings now updates s =
      (set_USER_SETTINGS
         (Some (<["updatedAt" := JStr (JSDate.toISOString now)]>
                  (spread old updates))) s,
       Ok tt).
Proof.
  unfold LocalStorageService.updateUserSettings, bind.
  destruct (USER_SETTINGS s) as [st|] eqn:E.
  - rewrite (getUserSettings_stored now s st E). exists st.
    split; [reflexivity|]. split; [now intros ? [= ->]|reflexivity].
  - rewrite (getUserSettings_absent now s E).
    exists (LocalStorageService.defaultSettings now).
    split; [reflexivity|]. split; [discriminate|]. destruct s; reflexivity.
Qed.

(** C3, as stated, fails: an update that itself carries a [createdAt] field
    overwrites the stored one. *)
Lemma createdAt_overwritten :
  snd (LocalStorageService.updateDailyRecord mid_june "r1"
         {[ "createdAt" := JStr "1999-01-01T00:00:00.000Z" ]} one_record_store)
    = Ok tt /\
  firstCreatedAt one_record_store = Some (JStr "2024-06-15T09:00:00.000Z") /\
  firstCreatedAt
    (fst (LocalStorageService.updateDailyRecord mid_june "r1"
            {[ "createdAt" := JStr "1999-01-01T00:00:00.000Z" ]} one_record_store))
    = Some (JStr "1999-01-01T00:00:00.000Z").
Proof. vm_compute. repeat split. Qed.

(** C3, amended. Every update of a daily record, of the profile or of the
    settings stamps [updatedAt] with the current time; it keeps the stored
    [createdAt] when the update carries no [createdAt] field, and takes the
    update's [createdAt] when it carries one. For the settings the stored
    entity is the one [getUserSettings] returns (the defaults, created on
    the spot, when none are stored); an absent profile has no [createdAt]
    to keep. *)
Theorem update_stamps (now : Z) (s : Store) (updates : obj) :
  let stamp := Some (JStr (JSDate.toISOString now)) in
  let kept (old : obj) (new : obj) :=
    new !! "updatedAt" = stamp /\
    (updates !! "createdAt" = None -> new !! "createdAt" = old !! "createdAt") /\
    (forall v, updates !! "createdAt" = Some v -> new !! "createdAt" = Some v) in
  (forall recordId s',
     LocalStorageService.updateDailyRecord now recordId updates s = (s', Ok tt) ->
     exists (i : nat) (old new : obj),
       sort_by byDateDesc (default [] (DAILY_RECORDS s)) !! i = Some old /\
       old !! "id" = Some (JStr recordId) /\
       default [] (DAILY_RECORDS s') !! i = Some new /\
       kept old new) /\
  (exists new,
     LocalStorageService.updateUserProfile now updates s =
       (set_USER_PROFILE (Some new) s, Ok tt) /\
     kept (default ∅ (USER_PROFILE s)) new) /\
  (exists old new,
     snd (LocalStorageService.getUserSettings now s) = Ok old /\
     (forall st, USER_SETTINGS s = Some st -> old = st) /\
     LocalStorageService.updateUserSettings now updates s =
       (set_USER_SETTINGS (Some new) s, Ok tt) /\
     kept old new).
Proof.
  intros stamp kept.
  assert (Hkept : forall old, kept old
            (<["updatedAt" := JStr (JSDate.toISOString now)]> (spread old updates))).
  { intros old. unfold kept. rewrite !merged_lookup.
    repeat split.
    - intros ->. reflexivity.
    - intros v ->. reflexivity. }
  split; [|split].
  - intros recordId s' H. rewrite updateDailyRecord_run in H.
    destruct (LocalStorageService.findIndex _ _) as [i|] eqn:E; [|discriminate].
    apply findIndex_Some in E as (old & Hi & Hid & _).
    apply strict_eq_str_true in Hid. injection H as <-.
    rewrite Hi. cbn [from_option id].
    exists i, old. eexists. split; [exact Hi|]. split; [exact Hid|].
    split; [|apply Hkept].
    cbn [DAILY_RECORDS set_DAILY_RECORDS from_option id].
    apply list_lookup_insert_eq. now apply lookup_lt_Some in Hi.
  - eexists. split; [apply updateUserProfile_run|apply Hkept].
  - destruct (updateUserSettings_run now s updates) as (old & Hget & Hst & Hrun).
    exists old. eexists. split; [exact Hget|]. split; [exact Hst|].
    split; [exact Hrun|apply Hkept].
Qed.

Lemma update_stamps_witness :
  exists new,
    LocalStorageService.updateUserProfile mid_june {[ "phone" := JStr "555" ]}
        (set_USER_PROFILE
           (Some (LocalStorageService.defaultProfile 0 (JSDate.fixed 0) "Ann" "a@b.c"))
                          emptyStore)
      = (set_USER_PROFILE (Some new) emptyStore, Ok tt) /\
    new !! "updatedAt" = Some (JStr "2024-06-15T12:34:56.789Z") /\
    new !! "createdAt" = Some (JStr "1970-01-01T00:00:00.000Z").
Proof.
  destruct (update_stamps mid_june
              (set_USER_PROFILE
                 (Some (LocalStorageService.defaultProfile 0 (JSDate.fixed 0) "Ann" "a@b.c"))
                 emptyStore)
              {[ "phone" := JStr "555" ]})
    as (_ & (new & Hrun & Hup & Hkeep & _) & _).
  exists new. split; [exact Hrun|]. split; [exact Hup|].
  rewrite Hkeep; reflexivity.
Defined.



Lemma getCurrentUser_run (s : Store) :
  exists u, LocalStorageService.getCurrentUser s = (s, Ok u).
Proof.
  unfold LocalStorageService.getCurrentUser, bind, getItem, ret.
  destruct (CURRENT_USER s), (AUTH_TOKEN s); eauto.
Qed.

(** C5. Exporting a store and importing the document into a fresh store
    reproduces the profile, the records and the settings: the profile slot is
    the original one, the record list is the original list in the order
    [getDailyRecords] reads it (so every record, field for field, and the
    same list on every later read), and the settings are the ones the export
    read (the stored ones, or the defaults it created). The document's
    [user] and [metadata] are not imported: every other slot stays empty. *)
Theorem export_import_round_trip (now : Z) (s : Store) :
  exists (doc : Document) (s1 s2 : Store) (settings : obj),
    LocalStorageService.exportAllData now s = (s1, Ok doc) /\
    LocalStorageService.importAllData (ParsesTo doc) emptyStore = (s2, Ok tt) /\
    s2 = mkStore None None None (USER_PROFILE s)
                 (Some (sort_by byDateDesc (default [] (DAILY_RECORDS s))))
                 (Some settings) None None None /\
    USER_SETTINGS s1 = Some settings /\
    (forall st, USER_SETTINGS s = Some st -> settings = st) /\
    LocalStorageService.getUserProfile s2 = (s2, snd (LocalStorageService.getUserProfile s)) /\
    LocalStorageService.getDailyRecords s2 = (s2, snd (LocalStorageService.getDailyRecords s)) /\
    default [] (DAILY_RECORDS s2) ≡ₚ default [] (DAILY_RECORDS s) /\
    (forall now', LocalStorageService.getUserSettings now' s2 = (s2, Ok settings)).
Proof.
  destruct (getCurrentUser_run s) as [u Hu].
  assert (Hsettings : exists settings s1,
            LocalStorageService.getUserSettings now s = (s1, Ok settings) /\
            USER_SETTINGS s1 = Some settings /\
            (forall st, USER_SETTINGS s = Some st -> settings = st)).
  { destruct (USER_SETTINGS s) as [st|] eqn:E.
    - exists st, s. rewrite (getUserSettings_stored now s st E).
      repeat split; auto. now intros ? [= ->].
    - eexists _, _. rewrite (getUserSettings_absent now s E).
      repeat split. discriminate. }
  destruct Hsettings as (settings & s1 & Hget & Hs1 & Hst).
  exists (mkDocument u (USER_PROFILE s)
            (Some (sort_by byDateDesc (default [] (DAILY_RECORDS s))))
            (Some settings) (Some (LocalStorageService.exportMetadata now))).
  exists s1.
  exists (mkStore None None None (USER_PROFILE s)
            (Some (sort_by byDateDesc (default [] (DAILY_RECORDS s))))
            (Some settings) None None None).
  exists settings.
  unfold LocalStorageService.exportAllData, LocalStorageService.importAllData,
    LocalStorageService.getDailyRecords, LocalStorageService.getUserProfile.
  split.
  { unfold bind at 1. rewrite Hu. unfold bind, getItem. cbn [ret].
    now rewrite Hget. }
  split.
  { cbn [doc_profile doc_records doc_settings].
    destruct (USER_PROFILE s) as [p|]; reflexivity. }
  split; [reflexivity|].
  split; [exact Hs1|]. split; [exact Hst|].
  split; [reflexivity|].
  split.
  { unfold bind, getItem, ret. cbn [DAILY_RECORDS from_option snd id].
    now rewrite sortRecords_idempotent. }
  split.
  { cbn [DAILY_RECORDS from_option id]. apply sort_by_Permutation. }
  intros now'. now apply getUserSettings_stored.
Qed.

Lemma export_import_round_trip_witness :
  exists doc s1 s2 settings,
    LocalStorageService.exportAllData mid_june sample_store = (s1, Ok doc) /\
    LocalStorageService.importAllData (ParsesTo doc) emptyStore = (s2, Ok tt) /\
    USER_PROFILE s2 = USER_PROFILE sample_store /\
    LocalStorageService.getDailyRecords s2 =
      (s2, snd (LocalStorageService.getDailyRecords sample_store)) /\
    USER_SETTINGS s2 = Some settings /\ USER_SETTINGS s1 = Some settings /\
    CURRENT_USER s2 = None.
Proof.
  destruct (export_import_round_trip mid_june sample_store)
    as (doc & s1 & s2 & settings & Hexp & Himp & Hs2 & Hs1 & _ & _ & Hrec & _).
  exists doc, s1, s2, settings.
  split; [exact Hexp|]. split; [exact Himp|].
  split; [now rewrite Hs2|]. split; [exact Hrec|].
  split; [now rewrite Hs2|]. split; [exact Hs1|now rewrite Hs2].
Defined.

(** C8. When the stored records carry valid, pairwise distinct dates,
    [getDailyRecords] returns exactly those records (a permutation of the
    stored list), most recent first (each record is dated strictly after all
    that follow it), and returns the same list for every order in which the
    records may be stored. The store is not modified. *)
Theorem getDailyRecords_sorted (s : Store) :
  let stored := default [] (DAILY_RECORDS s) in
  Forall validDate stored ->
  NoDup (map (fun r : obj => r !! "date") stored) ->
  exists records,
    LocalStorageService.getDailyRecords s = (s, Ok records) /\
    records ≡ₚ stored /\
    StronglySorted laterThan records /\
    (forall s', default [] (DAILY_RECORDS s') ≡ₚ stored ->
                LocalStorageService.getDailyRecords s' = (s', Ok records)).
Proof.
  intros stored Hv Hn. exists (sort_by byDateDesc stored).
  split; [reflexivity|]. split; [apply sort_by_Permutation|].
  split; [now apply sort_distinct_dates|].
  intros s' Hp. unfold LocalStorageService.getDailyRecords, bind, getItem, ret.
  now rewrite (sort_distinct_dates_unique stored _ Hv Hn Hp).
Qed.

Lemma getDailyRecords_sorted_witness :
  exists records,
    LocalStorageService.getDailyRecords
        (set_DAILY_RECORDS (Some three_records) emptyStore)
      = (set_DAILY_RECORDS (Some three_records) emptyStore, Ok records) /\
    records ≡ₚ three_records /\
    StronglySorted laterThan records.
Proof.
  destruct (getDailyRecords_sorted (set_DAILY_RECORDS (Some three_records) emptyStore))
    as (records & Hrun & Hperm & Hsorted & _).
  - repeat constructor; (eexists; split; [reflexivity|]); vm_compute; eauto.
  - apply NoDup_ListNoDup. repeat constructor; vm_compute;
      intros H; repeat (destruct H as [H|H]; [discriminate H|]); exact H.
  - exists records. auto.
Defined.

Example getDailyRecords_sample :
  map (fun r : obj => r !! "id")
      (sort_by byDateDesc three_records)
  = [Some (JStr "r2"); Some (JStr "r3"); Some (JStr "r1")].
Proof. vm_compute. reflexivity. Qed.

(** * The statistics *)

Section StatsFacts.
Variable now : Z.
Variable tza : Z.


Lemma thirtyDaysAgo_spec :
  StatsContext.thirtyDaysAgo now (JSDate.fixed tza) = now - 30 * JSDate.msPerDay.
Proof. exact (JSDateFacts.setDate_getDate tza now 30). Qed.

End StatsFacts.

Lemma isoDate_injective a b :
  JSDate.inISORange a -> JSDate.inISORange b ->
  JSDate.isoDate a = JSDate.isoDate b -> a = b.
Proof.
  intros Ha Hb E.
  pose proof (JSDateFacts.parse_isoDate a Ha) as Pa.
  pose proof (JSDateFacts.parse_isoDate b Hb) as Pb.
  rewrite E, Pb in Pa. injection Pa as Pa. unfold JSDate.msPerDay in Pa. lia.
Qed.

(** The date field of an ISO day, and its time value. *)
Lemma isoDay_time (r : obj) day :
  JSDate.inISORange day ->
  r !! "date" = Some (JStr (JSDate.isoDate day)) ->
  validDate r /\ recordTime r = Some (day * JSDate.msPerDay).
Proof.
  intros Hd E. pose proof (JSDateFacts.parse_isoDate day Hd) as P. split.
  - exists (JSDate.isoDate day). split; [exact E|]. rewrite P. eauto.
  - unfold recordTime. rewrite E. exact P.
Qed.






(** The completion rate is the number of completed records dated at or after
    the instant thirty days before the clock, over the fixed denominator 30,
    as a percentage. The window has no upper end. *)
Lemma completionRate_spec (now tza : Z) (records : list obj) :
  StatsContext.completionRate (StatsContext.calculateStats now (JSDate.fixed tza) records) =
  percent
    (Z.of_nat (length (List.filter completed
       (List.filter (dateAtLeast (now - 30 * JSDate.msPerDay)) records))))
    30.
Proof.
  change (StatsContext.completionRate (StatsContext.calculateStats now (JSDate.fixed tza) records))
    with (percent
            (Z.of_nat (length (List.filter completed
               (List.filter (dateAtLeast (StatsContext.thirtyDaysAgo now (JSDate.fixed tza)))
                            records))))
            30).
  now rewrite thirtyDaysAgo_spec.
Qed.

(** The 30-day completion rate, on a device whose zone has a constant
    offset from UTC and for records dated as calendar days ([YYYY-MM-DD]):
    the completed records dated at or after [now - 30 days], counted over
    30, times 100. A further record dated as a calendar day before that
    instant, or without a date, does not contribute, completed or not, and
    neither does a further record that is not completed, whatever its
    date. *)
Theorem completionRate_window (now tza : Z) (records : list obj) :
  let lo := now - 30 * JSDate.msPerDay in
  let rate l :=
    StatsContext.completionRate
      (StatsContext.calculateStats now (JSDate.fixed tza) l) in
  Forall validDate records ->
  rate records =
    percent
      (Z.of_nat (length (List.filter (fun r => dateAtLeast lo r && completed r)
                                     records))) 30 /\
  (forall r,
     r !! "date" = None \/
     (validDate r /\ exists t, recordTime r = Some t /\ t < lo) ->
     rate (r :: records) = rate records) /\
  (forall r, completed r = false -> rate (r :: records) = rate records).
Proof.
  intros lo rate _.
  assert (Hrate : forall l, rate l =
            percent
              (Z.of_nat (length (List.filter
                 (fun r => dateAtLeast lo r && completed r) l))) 30).
  { intros l. unfold rate. rewrite completionRate_spec. fold lo.
    f_equal. f_equal. f_equal. induction l as [|x l IH]; [reflexivity|].
    cbn [List.filter]. destruct (dateAtLeast lo x); cbn [andb List.filter];
      [destruct (completed x)|]; now rewrite IH. }
  split; [apply Hrate|]. split.
  - intros r Hold. rewrite !Hrate. cbn [List.filter].
    replace (dateAtLeast lo r) with false; [reflexivity|].
    unfold dateAtLeast. fold (recordTime r).
    destruct Hold as [Hnone|(_ & t & Ht & Hlt)].
    + unfold recordTime. now rewrite Hnone.
    + rewrite Ht. symmetry. apply Z.leb_gt. exact Hlt.
  - intros r Hc. rewrite !Hrate. cbn [List.filter]. rewrite Hc.
    now rewrite andb_false_r.
Qed.

Lemma completionRate_window_witness :
  StatsContext.completionRate
    (StatsContext.calculateStats mid_june (JSDate.fixed 0)
       (mkRecord "old" "2024-05-01" 2 true :: six_records)) =
  StatsContext.completionRate
    (StatsContext.calculateStats mid_june (JSDate.fixed 0) six_records).
Proof.
  apply (proj1 (proj2 (completionRate_window mid_june 0 six_records
                         ltac:(repeat constructor; eexists;
                               (split; [reflexivity|]); vm_compute; eauto)))).
  right. split.
  - eexists. split; [reflexivity|]. vm_compute. eauto.
  - eexists. split; [vm_compute; reflexivity|]. reflexivity.
Defined.

(** Six completed records inside the window give a rate of 20. *)
Example completionRate_six :
  (StatsContext.completionRate (StatsContext.calculateStats mid_june (JSDate.fixed 0) six_records)
   == 20)%Q.
Proof. vm_compute. reflexivity. Qed.

(** C2. The 30-day window has no upper end in the source: a completed
    record dated after today is counted, here as 1/30 of 100 percent, where
    the claim has it contribute nothing. *)
Theorem completionRate_counts_future :
  StatsContext.completionRate
    (StatsContext.calculateStats mid_june (JSDate.fixed 0) [christmas_record])
    = percent 1 30 /\
  ~ (percent 1 30 == 0)%Q /\
  recordTime christmas_record = Some (20082 * JSDate.msPerDay) /\
  JSDate.Day mid_june = 19889.
Proof.
  split; [vm_compute; reflexivity|]. split; [intros H; discriminate H|].
  split; vm_compute; reflexivity.
Qed.

(** In [calculateStats] the monthly figures are the 30-day figures under
    other names. *)
Lemma monthlyProgress_alias (now tza : Z) (records : list obj) :
  let stats := StatsContext.calculateStats now (JSDate.fixed tza) records in
  StatsContext.monthlyProgress stats = StatsContext.completionRate stats /\
  percent (StatsContext.completedDaysThisMonth stats) 30 =
    StatsContext.completionRate stats.
Proof. split; reflexivity. Qed.

(** C1. [calculateStats] does not compute the monthly progress over the
    calendar month: on 5 June 2024 ten completed records of late May, none
    of them in the current month, give [completedDaysThisMonth = 10] and a
    monthly progress of 10/30, while the home screen's
    [calculateCurrentMonthStats] counts none of them in the 30-day month. *)
Theorem monthlyProgress_not_calendar_month :
  let stats := StatsContext.calculateStats early_june (JSDate.fixed 0) may_records in
  let home :=
    HomeScreen.calculateCurrentMonthStats early_june (JSDate.fixed 0) may_records in
  JSDate.toISOString early_june = "2024-06-05T12:00:00.000Z" /\
  StatsContext.completedDaysThisMonth stats = 10 /\
  StatsContext.monthlyProgress stats = percent 10 30 /\
  HomeScreen.completedDays home = 0 /\
  HomeScreen.totalDaysInMonth home = 30 /\
  HomeScreen.progress home = percent 0 30.
Proof. vm_compute. repeat split. Qed.

(** The home screen's figures for ten completed days of a 30-day month, in
    UTC: a progress of 100/3, about 33.33. *)
Example currentMonthStats_june :
  let home :=
    HomeScreen.calculateCurrentMonthStats early_june (JSDate.fixed 0) june_records in
  HomeScreen.completedDays home = 10 /\
  HomeScreen.totalDaysInMonth home = 30 /\
  (HomeScreen.progress home == 100 # 3)%Q /\
  (3333 # 100 < HomeScreen.progress home < 3334 # 100)%Q.
Proof. vm_compute. repeat split. Qed.

(** West of UTC the home screen's month starts after the UTC midnight that
    a record of the first day of the month parses to: that record is not
    counted. *)
Example currentMonthStats_first_day_west :
  HomeScreen.completedDays
    (HomeScreen.calculateCurrentMonthStats early_june (JSDate.fixed utc_minus_3)
       june_records) = 9.
Proof. vm_compute. reflexivity. Qed.

(** * The home screen's month *)

(** Day 0 of the next month is the last day of the month. *)
Lemma last_day_of_month y m :
  1 <= m <= 12 ->
  JSDate.MakeDay y m 0 = JSDate.days_from_civil y m (JSDate.days_in_month y m).
Proof.
  intros Hm.
  assert (Hc : m = 1 \/ m = 2 \/ m = 3 \/ m = 4 \/ m = 5 \/ m = 6 \/
               m = 7 \/ m = 8 \/ m = 9 \/ m = 10 \/ m = 11 \/ m = 12) by lia.
  unfold JSDate.MakeDay, JSDate.days_from_civil, JSDate.doe_of_civil,
    JSDate.days_in_month, JSDate.is_leap.
  repeat (destruct Hc as [-> | Hc]); try subst m; JSDateFacts.zconst;
    rewrite ?Z.add_0_r;
    JSDateFacts.zbool; cbn [andb orb negb]; JSDateFacts.divlia.
Qed.

Lemma first_day_of_month y m :
  1 <= m <= 12 ->
  JSDate.MakeDay y (m - 1) 1 = JSDate.days_from_civil y m 1.
Proof.
  intros Hm. unfold JSDate.MakeDay.
  replace ((m - 1) / 12) with 0 by JSDateFacts.divlia.
  replace ((m - 1) mod 12 + 1) with m by JSDateFacts.divlia.
  rewrite Z.add_0_r. lia.
Qed.

Lemma year_after_epoch z y m d :
  0 <= z -> JSDate.civil_from_days z = (y, m, d) -> 1970 <= y.
Proof.
  intros Hz E.
  destruct (JSDateFacts.days_from_civil_from_days _ _ _ _ E) as (Hr & Hm & Hd).
  destruct (JSDateFacts.days_in_month_bounds y m) as (Hb & _).
  destruct (Z_lt_ge_dec y 1970) as [Hlt|Hge]; [exfalso|lia].
  revert Hr. unfold JSDate.days_from_civil, JSDate.doe_of_civil.
  JSDateFacts.zbool; JSDateFacts.divlia.
Qed.

Lemma Day_of_midnight z : JSDate.Day (z * JSDate.msPerDay) = z.
Proof. unfold JSDate.Day, JSDate.msPerDay. JSDateFacts.divlia. Qed.

(** On a device whose zone is UTC, at any time from the epoch on, the home
    screen counts the completed records dated from the first to the last
    day of the current month, both included, over the number of days of that
    month. *)
Theorem calculateCurrentMonthStats_utc (now : Z) (records : list obj) :
  0 <= now ->
  forall y m d, JSDate.civil_from_days (JSDate.Day now) = (y, m, d) ->
  let dim := JSDate.days_in_month y m in
  let first := JSDate.days_from_civil y m 1 * JSDate.msPerDay in
  let last := JSDate.days_from_civil y m dim * JSDate.msPerDay in
  let inMonth := List.filter (dateBetween first last) records in
  let n := Z.of_nat (length (List.filter completed inMonth)) in
  28 <= dim <= 31 /\
  HomeScreen.calculateCurrentMonthStats now (JSDate.fixed 0) records =
    HomeScreen.mkMonthStats (percent n dim) n dim.
Proof.
  intros Hnow y m d E dim first last inMonth n.
  destruct (JSDateFacts.days_from_civil_from_days _ _ _ _ E) as (Hr & Hm & Hd).
  destruct (JSDateFacts.days_in_month_bounds y m) as (Hb & _).
  split; [exact Hb|].
  assert (Hy : 1970 <= y).
  { apply (year_after_epoch (JSDate.Day now) y m d); [|exact E].
    unfold JSDate.Day, JSDate.msPerDay. JSDateFacts.divlia. }
  assert (Hyear : HomeScreen.year now (JSDate.fixed 0) = y).
  { unfold HomeScreen.year, JSDate.getFullYear, JSDate.LocalTime, JSDate.YearFromTime,
      JSDate.fixed.
    rewrite Z.add_0_r, E. reflexivity. }
  assert (Hmonth : HomeScreen.month now (JSDate.fixed 0) = m - 1).
  { unfold HomeScreen.month, JSDate.getMonth, JSDate.LocalTime, JSDate.MonthFromTime,
      JSDate.fixed.
    rewrite Z.add_0_r, E. reflexivity. }
  assert (Hnew : forall mo dt, JSDate.newDate (JSDate.fixed 0) y mo dt =
                               JSDate.MakeDay y mo dt * JSDate.msPerDay).
  { intros mo dt. unfold JSDate.newDate, JSDate.UTC, JSDate.MakeDate, JSDate.fixed.
    destruct (Z.leb_spec 0 y); [|lia]. destruct (Z.leb_spec y 99); [lia|].
    cbn [andb]. lia. }
  assert (Hfirst : HomeScreen.firstDay now (JSDate.fixed 0) = first).
  { unfold HomeScreen.firstDay. rewrite Hyear, Hmonth, Hnew.
    now rewrite first_day_of_month. }
  assert (Hlast : HomeScreen.lastDay now (JSDate.fixed 0) = last).
  { unfold HomeScreen.lastDay. rewrite Hyear, Hmonth, Hnew.
    replace (m - 1 + 1) with m by lia. now rewrite last_day_of_month. }
  assert (Htotal : JSDate.getDate (JSDate.fixed 0) last = dim).
  { unfold JSDate.getDate, JSDate.LocalTime, JSDate.DateFromTime, JSDate.fixed, last.
    rewrite Z.add_0_r, Day_of_midnight.
    rewrite JSDateFacts.civil_from_days_from_civil by (fold dim; lia).
    reflexivity. }
  unfold HomeScreen.calculateCurrentMonthStats.
  rewrite Hfirst, Hlast, Htotal. reflexivity.
Qed.

Lemma calculateCurrentMonthStats_utc_witness :
  HomeScreen.calculateCurrentMonthStats early_june (JSDate.fixed 0) june_records =
    HomeScreen.mkMonthStats (percent 10 30) 10 30.
Proof.
  destruct (calculateCurrentMonthStats_utc early_june june_records
              ltac:(discriminate) 2024 6 5 ltac:(vm_compute; reflexivity))
    as [_ H].
  rewrite H. vm_compute. reflexivity.
Defined.

(** * Further properties of the service and of the statistics *)

(** [getCurrentUser] returns the stored user only if a user and a non-empty
    token are both stored; it never fails and never writes. After
    [logoutUser] it returns nothing. *)
Theorem getCurrentUser_gated (s : Store) :
  (exists r, LocalStorageService.getCurrentUser s = (s, Ok r) /\
     (forall u, r = Some u <->
        CURRENT_USER s = Some u /\
        exists tok, AUTH_TOKEN s = Some tok /\ tok <> "")) /\
  (CURRENT_USER s = None \/ AUTH_TOKEN s = None ->
   LocalStorageService.getCurrentUser s = (s, Ok None)) /\
  (let s' := fst (LocalStorageService.logoutUser s) in
   LocalStorageService.getCurrentUser s' = (s', Ok None)).
Proof.
  unfold LocalStorageService.getCurrentUser, LocalStorageService.logoutUser,
    bind, getItem, removeItem, ret.
  split; [|split].
  - destruct (CURRENT_USER s) as [u|], (AUTH_TOKEN s) as [tok|];
      try (eexists; split; [reflexivity|]; intros u'; split;
           [discriminate | intros [H (t & H' & _)]; discriminate]).
    destruct (String.eqb_spec tok "") as [->|Hne];
      (eexists; split; [reflexivity|]; intros u'; split).
    + discriminate.
    + intros [_ (t & [= <-] & Hne)]. now destruct Hne.
    + intros [= ->]. eauto.
    + intros [[= ->] _]. reflexivity.
  - intros [H|H]; rewrite H; [reflexivity|]. now destruct (CURRENT_USER s).
  - reflexivity.
Qed.

Lemma getCurrentUser_gated_witness :
  LocalStorageService.getCurrentUser (set_CURRENT_USER (Some ann) emptyStore)
    = (set_CURRENT_USER (Some ann) emptyStore, Ok None).
Proof.
  apply (proj1 (proj2 (getCurrentUser_gated (set_CURRENT_USER (Some ann) emptyStore)))).
  right. reflexivity.
Defined.

(** Deleting an id that no stored record carries does not fail and leaves
    the records as [getDailyRecords] reads them; what is written back is
    that sorted list. *)
Theorem deleteDailyRecord_absent (s : Store) (recordId : string) :
  let stored := default [] (DAILY_RECORDS s) in
  Forall (fun r : obj => r !! "id" <> Some (JStr recordId)) stored ->
  LocalStorageService.deleteDailyRecord recordId s =
    (set_DAILY_RECORDS (Some (sort_by byDateDesc stored)) s, Ok tt) /\
  snd (LocalStorageService.getDailyRecords
         (fst (LocalStorageService.deleteDailyRecord recordId s))) =
  snd (LocalStorageService.getDailyRecords s).
Proof.
  intros stored Hno.
  assert (Hfilter :
    List.filter (fun r : obj => negb (strict_eq_str (r !! "id") recordId))
                (sort_by byDateDesc stored) = sort_by byDateDesc stored).
  { assert (Hs : Forall (fun r : obj => r !! "id" <> Some (JStr recordId))
                        (sort_by byDateDesc stored))
      by now rewrite sort_by_Permutation.
    induction Hs as [|r l Hr Hl IH]; [reflexivity|].
    cbn [List.filter].
    destruct (strict_eq_str (r !! "id") recordId) eqn:E.
    - apply strict_eq_str_true in E. now destruct Hr.
    - cbn [negb]. now rewrite IH. }
  unfold LocalStorageService.deleteDailyRecord, LocalStorageService.getDailyRecords,
    bind, getItem, setItem, ret. fold stored. rewrite Hfilter.
  split; [reflexivity|].
  cbn [fst snd DAILY_RECORDS set_DAILY_RECORDS from_option id].
  now rewrite sortRecords_idempotent.
Qed.

Lemma deleteDailyRecord_absent_witness :
  LocalStorageService.deleteDailyRecord "missing" one_record_store =
    (one_record_store, Ok tt).
Proof.
  destruct (deleteDailyRecord_absent one_record_store "missing") as [H _].
  - repeat constructor. discriminate.
  - rewrite H. reflexivity.
Defined.

(** * Daily records: create, look up, delete *)

(** The records as [getDailyRecords] reads them from a store. *)
Lemma getDailyRecords_run (s : Store) :
  LocalStorageService.getDailyRecords s =
    (s, Ok (sort_by byDateDesc (default [] (DAILY_RECORDS s)))).
Proof. reflexivity. Qed.

Lemma createDailyRecord_run (now : Z) (s : Store) (record : obj) :
  LocalStorageService.createDailyRecord now record s =
    (set_DAILY_RECORDS
       (Some (sort_by byDateDesc (default [] (DAILY_RECORDS s)) ++
              [ <["updatedAt" := JStr (JSDate.toISOString now)]> (
                <["createdAt" := JStr (JSDate.toISOString now)]> (
                <["id" := JStr ("record_" ++ showZ now)]> record)) ])%list) s,
     Ok ("record_" ++ showZ now)).
Proof. reflexivity. Qed.

Lemma deleteDailyRecord_run (s : Store) (recordId : string) :
  LocalStorageService.deleteDailyRecord recordId s =
    (set_DAILY_RECORDS
       (Some (List.filter
                (fun r : obj => negb (strict_eq_str (r !! "id") recordId))
                (sort_by byDateDesc (default [] (DAILY_RECORDS s))))) s,
     Ok tt).
Proof. reflexivity. Qed.

Lemma filter_all {A} (p : A -> bool) (l : list A) :
  Forall (fun x => p x = true) l -> List.filter p l = l.
Proof.
  induction 1 as [|x l Hx Hl IH]; [reflexivity|].
  cbn [List.filter]. now rewrite Hx, IH.
Qed.

Lemma filter_Forall {A} (p : A -> bool) (l : list A) :
  Forall (fun x => p x = true) (List.filter p l).
Proof.
  induction l as [|x l IH]; cbn [List.filter]; [constructor|].
  destruct (p x) eqn:E; [constructor; assumption|exact IH].
Qed.

Lemma not_id_true (r : obj) (recordId : string) :
  negb (strict_eq_str (r !! "id") recordId) = true <->
  r !! "id" <> Some (JStr recordId).
Proof.
  rewrite negb_true_iff. split.
  - intros E H. apply strict_eq_str_true in H. congruence.
  - intros H. destruct (strict_eq_str (r !! "id") recordId) eqn:E; [|reflexivity].
    apply strict_eq_str_true in E. now destruct H.
Qed.

(** [createDailyRecord] never fails and never looks at the dates already
    stored: it returns the id made from the clock and appends the record,
    with [id], [createdAt] and [updatedAt] set by the service (over any the
    caller supplied) and every other field as supplied. What
    [getDailyRecords] reads afterwards is the old records and the new one,
    so one record more, also when a record of the same date exists. *)
Theorem createDailyRecord_appends (now : Z) (s : Store) (record : obj) :
  let stored := default [] (DAILY_RECORDS s) in
  let recordId := "record_" ++ showZ now in
  exists (s' : Store) (new : obj),
    LocalStorageService.createDailyRecord now record s = (s', Ok recordId) /\
    DAILY_RECORDS s' = Some (sort_by byDateDesc stored ++ [new])%list /\
    new !! "id" = Some (JStr recordId) /\
    new !! "createdAt" = Some (JStr (JSDate.toISOString now)) /\
    new !! "updatedAt" = Some (JStr (JSDate.toISOString now)) /\
    (forall k, k <> "id" -> k <> "createdAt" -> k <> "updatedAt" ->
               new !! k = record !! k) /\
    (exists records',
       LocalStorageService.getDailyRecords s' = (s', Ok records') /\
       records' ≡ₚ new :: stored /\
       length records' = S (length stored)).
Proof.
  intros stored recordId. rewrite createDailyRecord_run. fold stored recordId.
  eexists _, _. split; [reflexivity|]. split; [reflexivity|].
  split; [now rewrite lookup_insert_ne, lookup_insert_ne, lookup_insert_eq|].
  split; [now rewrite lookup_insert_ne, lookup_insert_eq|].
  split; [apply lookup_insert_eq|]. split.
  - intros k H1 H2 H3. now rewrite !lookup_insert_ne by congruence.
  - eexists. rewrite getDailyRecords_run. split; [reflexivity|].
    cbn [DAILY_RECORDS set_DAILY_RECORDS from_option id].
    assert (Hp : forall new : obj,
              sort_by byDateDesc (sort_by byDateDesc stored ++ [new]) ≡ₚ new :: stored).
    { intros new. rewrite sort_by_Permutation, sort_by_Permutation.
      symmetry. apply Permutation_cons_append. }
    split; [apply Hp|]. rewrite (Permutation_length (Hp _)). reflexivity.
Qed.

(** [getDailyRecordByDate] never fails and never writes; it finds nothing
    exactly when no stored record carries the date string, and what it finds
    is a stored record with that date. *)
Theorem getDailyRecordByDate_spec (s : Store) (date : string) :
  let stored := default [] (DAILY_RECORDS s) in
  exists found,
    LocalStorageService.getDailyRecordByDate date s = (s, Ok found) /\
    (found = None <->
     Forall (fun r : obj => r !! "date" <> Some (JStr date)) stored) /\
    (forall r, found = Some r -> r ∈ stored /\ r !! "date" = Some (JStr date)).
Proof.
  intros stored.
  unfold LocalStorageService.getDailyRecordByDate, bind.
  rewrite getDailyRecords_run. fold stored. cbn [ret].
  set (p := fun r : obj => strict_eq_str (r !! "date") date).
  eexists. split; [reflexivity|]. split.
  - rewrite (find_None_not_Exists p
               (fun r : obj => r !! "date" = Some (JStr date)))
      by (intros r; apply strict_eq_str_true).
    rewrite sort_by_Permutation. rewrite <- Forall_Exists_neg. reflexivity.
  - intros r H. apply find_some in H as [Hin Hp].
    split; [|now apply strict_eq_str_true].
    apply list_elem_of_In in Hin. now rewrite sort_by_Permutation in Hin.
Qed.

Lemma getDailyRecordByDate_spec_witness :
  exists r,
    LocalStorageService.getDailyRecordByDate "2024-06-15" one_record_store
      = (one_record_store, Ok (Some r)) /\
    r !! "date" = Some (JStr "2024-06-15").
Proof.
  destruct (getDailyRecordByDate_spec one_record_store "2024-06-15")
    as ([r|] & Hrun & Hnone & Hsome).
  - exists r. split; [exact Hrun|]. now apply Hsome.
  - exfalso. pose proof (proj1 Hnone eq_refl) as H.
    change (Forall (fun r : obj => r !! "date" <> Some (JStr "2024-06-15"))
                   [mkRecord "r1" "2024-06-15" 2 true]) in H.
    apply Forall_cons in H as [H _]. now apply H.
Defined.

(** [deleteDailyRecord] never fails. It writes back the records in the order
    [getDailyRecords] reads them, without every record of the given id: the
    records of other ids all stay, no record of that id is left, a later
    update of that id fails with [RecordNotFoundError], and deleting the id
    again changes nothing in what is read. *)
Theorem deleteDailyRecord_spec (now : Z) (s : Store) (recordId : string)
    (updates : obj) :
  let stored := default [] (DAILY_RECORDS s) in
  let hasId := fun r : obj => r !! "id" = Some (JStr recordId) in
  exists (s' : Store) (kept : list obj),
    LocalStorageService.deleteDailyRecord recordId s = (s', Ok tt) /\
    s' = set_DAILY_RECORDS (Some kept) s /\
    (forall r, r ∈ kept <-> r ∈ stored /\ ~ hasId r) /\
    (length kept <= length stored)%nat /\
    LocalStorageService.updateDailyRecord now recordId updates s' =
      (s', Throw RecordNotFoundError) /\
    snd (LocalStorageService.getDailyRecords
           (fst (LocalStorageService.deleteDailyRecord recordId s'))) =
    snd (LocalStorageService.getDailyRecords s').
Proof.
  intros stored hasId. rewrite deleteDailyRecord_run. fold stored.
  set (p := fun r : obj => negb (strict_eq_str (r !! "id") recordId)).
  set (kept := List.filter p (sort_by byDateDesc stored)).
  assert (Hkept : forall r, r ∈ kept <-> r ∈ stored /\ ~ hasId r).
  { intros r. unfold kept. rewrite list_elem_of_In, List.filter_In.
    rewrite <- list_elem_of_In, sort_by_Permutation.
    unfold p. now rewrite not_id_true. }
  assert (Hall : Forall (fun r => p r = true) (sort_by byDateDesc kept)).
  { rewrite sort_by_Permutation. apply filter_Forall. }
  exists (set_DAILY_RECORDS (Some kept) s), kept.
  split; [reflexivity|]. split; [reflexivity|]. split; [exact Hkept|].
  split.
  { unfold kept. rewrite <- (sort_by_length byDateDesc stored).
    apply List.filter_length_le. }
  split.
  - rewrite updateDailyRecord_run.
    cbn [DAILY_RECORDS set_DAILY_RECORDS from_option id].
    replace (LocalStorageService.findIndex _ (sort_by byDateDesc kept))
      with (@None nat); [destruct s; reflexivity|].
    symmetry. apply findIndex_None.
    eapply Forall_impl; [exact Hall|]. intros r Hr. unfold p in Hr.
    now apply negb_true_iff in Hr.
  - rewrite deleteDailyRecord_run, !getDailyRecords_run.
    cbn [fst snd DAILY_RECORDS set_DAILY_RECORDS from_option id].
    fold p. rewrite (filter_all p _ Hall).
    now rewrite sortRecords_idempotent.
Qed.

(** An element that keeps its place in front of the kept part of a list is
    inserted in front of it, whatever the dropped elements are. *)
Lemma filter_insert_by {A} (cmp : A -> A -> option Z) (p : A -> bool) x l :
  p x = true -> HdRel (inOrder cmp) x (List.filter p l) ->
  List.filter p (insert_by cmp x l) = x :: List.filter p l.
Proof.
  intros Hx. induction l as [|y l IH]; intros Hh; cbn [insert_by List.filter].
  - now rewrite Hx.
  - destruct (Z.ltb_spec 0 (sortCompare cmp x y)) as [Hlt|Hge];
      cbn [List.filter]; [|now rewrite Hx].
    cbn [List.filter] in Hh. destruct (p y) eqn:Ey.
    + apply HdRel_inv in Hh. unfold inOrder in Hh. lia.
    + now apply IH.
Qed.

(** Sorting a sorted list with one more element at its end, then dropping
    that element, gives the list back. *)
Lemma sort_append_filter {A} (cmp : A -> A -> option Z) (p : A -> bool) l new :
  Sorted (inOrder cmp) l -> Forall (fun x => p x = true) l -> p new = false ->
  List.filter p (sort_by cmp (l ++ [new])) = l.
Proof.
  intros Hs Hl Hnew. induction Hs as [|x l Hs IH Hh].
  - cbn. now rewrite Hnew.
  - apply Forall_cons in Hl as [Hx Hl]. cbn [app sort_by].
    rewrite filter_insert_by; [now rewrite IH| exact Hx |].
    now rewrite IH.
Qed.

(** The ids of a list of records. *)
Lemma ids_fresh_filter (l : list obj) (recordId : string) :
  Forall (fun r : obj => r !! "id" <> Some (JStr recordId)) l ->
  Forall (fun r : obj => negb (strict_eq_str (r !! "id") recordId) = true) l.
Proof.
  intros H. eapply Forall_impl; [exact H|]. intros r. apply not_id_true.
Qed.

(** Record ids are made from the clock alone. They stay pairwise distinct
    when the id of the clock value is not stored yet; a second record created
    at the same clock value gets the id of the first, and the ids are no
    longer distinct. *)
Theorem createDailyRecord_ids (now : Z) (s : Store) (record : obj) :
  let ids := fun st : Store =>
    map (fun r : obj => r !! "id") (default [] (DAILY_RECORDS st)) in
  let recordId := "record_" ++ showZ now in
  let s' := fst (LocalStorageService.createDailyRecord now record s) in
  (NoDup (ids s) -> Some (JStr recordId) ∉ ids s -> NoDup (ids s')) /\
  (Some (JStr recordId) ∈ ids s -> ~ NoDup (ids s')) /\
  (forall record2,
     ~ NoDup (ids (fst (LocalStorageService.createDailyRecord now record2 s')))).
Proof.
  intros ids recordId s'.
  assert (Hids : forall st rec,
    ids (fst (LocalStorageService.createDailyRecord now rec st)) ≡ₚ
    Some (JStr recordId) :: ids st).
  { intros st rec. unfold ids. rewrite createDailyRecord_run.
    cbn [fst DAILY_RECORDS set_DAILY_RECORDS from_option id].
    rewrite map_app, sort_by_Permutation. cbn [map].
    rewrite lookup_insert_ne, lookup_insert_ne, lookup_insert_eq by discriminate.
    symmetry. apply Permutation_cons_append. }
  split; [|split].
  - intros Hn Hf. unfold s'. rewrite Hids. now apply NoDup_cons.
  - intros Hin Hn. unfold s' in Hn. rewrite Hids in Hn.
    apply NoDup_cons in Hn as [Hn _]. now apply Hn.
  - intros record2 Hn. rewrite Hids in Hn. apply NoDup_cons in Hn as [Hn _].
    apply Hn. unfold s'. rewrite Hids. now left.
Qed.

Lemma createDailyRecord_ids_witness :
  NoDup (map (fun r : obj => r !! "id")
           (default []
              (DAILY_RECORDS
                 (fst (LocalStorageService.createDailyRecord mid_june
                         (mkRecord "" "2024-06-16" 2 true) one_record_store))))).
Proof.
  apply (proj1 (createDailyRecord_ids mid_june one_record_store
                  (mkRecord "" "2024-06-16" 2 true))).
  - apply NoDup_singleton.
  - intros H. apply list_elem_of_singleton in H. discriminate H.
Defined.

(** Creating a record whose id is not stored yet and deleting the returned
    id leaves what [getDailyRecords] reads exactly as it was; updating the
    returned id instead succeeds and changes the new record only. *)
Theorem createDailyRecord_then (now now' : Z) (s : Store) (record updates : obj) :
  let stored := default [] (DAILY_RECORDS s) in
  let recordId := "record_" ++ showZ now in
  Forall (fun r : obj => r !! "id" <> Some (JStr recordId)) stored ->
  exists (s1 : Store) (new : obj),
    LocalStorageService.createDailyRecord now record s = (s1, Ok recordId) /\
    new !! "id" = Some (JStr recordId) /\
    (exists s2,
       LocalStorageService.deleteDailyRecord recordId s1 = (s2, Ok tt) /\
       DAILY_RECORDS s2 = Some (sort_by byDateDesc stored) /\
       LocalStorageService.getDailyRecords s2 =
         (s2, snd (LocalStorageService.getDailyRecords s))) /\
    (exists (s3 : Store) (i : nat) (records1 : list obj),
       LocalStorageService.getDailyRecords s1 = (s1, Ok records1) /\
       records1 !! i = Some new /\
       LocalStorageService.updateDailyRecord now' recordId updates s1 = (s3, Ok tt) /\
       DAILY_RECORDS s3 =
         Some (<[i := <["updatedAt" := JStr (JSDate.toISOString now')]>
                        (spread new updates)]> records1)).
Proof.
  intros stored recordId Hfresh. rewrite createDailyRecord_run.
  fold stored recordId.
  set (new := <["updatedAt" := JStr (JSDate.toISOString now)]>
                (<["createdAt" := JStr (JSDate.toISOString now)]>
                   (<["id" := JStr recordId]> record))).
  set (sorted := sort_by byDateDesc stored).
  set (p := fun r : obj => negb (strict_eq_str (r !! "id") recordId)).
  assert (Hnew : new !! "id" = Some (JStr recordId)).
  { unfold new. now rewrite lookup_insert_ne, lookup_insert_ne, lookup_insert_eq. }
  assert (Hpnew : p new = false).
  { unfold p. apply negb_false_iff, strict_eq_str_true. exact Hnew. }
  assert (Hsorted : Forall (fun r => p r = true) sorted).
  { apply ids_fresh_filter. unfold sorted. now rewrite sort_by_Permutation. }
  eexists _, new. split; [reflexivity|]. split; [exact Hnew|]. split.
  - eexists. rewrite deleteDailyRecord_run.
    cbn [DAILY_RECORDS set_DAILY_RECORDS from_option id]. fold p.
    rewrite (sort_append_filter byDateDesc p sorted new);
      [|apply sort_by_Sorted, byDateDesc_antisym|exact Hsorted|exact Hpnew].
    split; [reflexivity|]. split; [reflexivity|].
    rewrite !getDailyRecords_run.
    cbn [snd DAILY_RECORDS set_DAILY_RECORDS from_option id].
    fold stored. unfold sorted. now rewrite sortRecords_idempotent.
  - rewrite updateDailyRecord_run, getDailyRecords_run.
    cbn [DAILY_RECORDS set_DAILY_RECORDS from_option id].
    set (records1 := sort_by byDateDesc (sorted ++ [new])).
    destruct (LocalStorageService.findIndex
                (fun r : obj => strict_eq_str (r !! "id") recordId) records1)
      as [i|] eqn:E.
    + pose proof (findIndex_Some _ _ _ E) as (r & Hi & Hr & _).
      assert (r = new) as ->.
      { assert (Hin : r ∈ new :: sorted).
        { apply list_elem_of_lookup_2 in Hi. unfold records1 in Hi.
          rewrite sort_by_Permutation in Hi.
          now rewrite <- Permutation_cons_append in Hi. }
        apply elem_of_cons in Hin as [->|Hin]; [reflexivity|].
        rewrite Forall_forall in Hsorted. specialize (Hsorted r Hin).
        unfold p in Hsorted. rewrite Hr in Hsorted. discriminate. }
      eexists _, i, records1. split; [reflexivity|]. split; [exact Hi|].
      rewrite Hi. cbn [from_option id]. split; reflexivity.
    + exfalso. apply findIndex_None in E.
      assert (Hin : new ∈ records1).
      { unfold records1. rewrite sort_by_Permutation.
        rewrite <- Permutation_cons_append. now left. }
      rewrite Forall_forall in E. specialize (E new Hin).
      unfold p in Hpnew. apply negb_false_iff in Hpnew. congruence.
Qed.

Lemma createDailyRecord_then_witness :
  exists s1 s2,
    LocalStorageService.createDailyRecord mid_june
        (mkRecord "" "2024-06-16" 2 true) one_record_store
      = (s1, Ok "record_1718454896789") /\
    LocalStorageService.deleteDailyRecord "record_1718454896789" s1 = (s2, Ok tt) /\
    LocalStorageService.getDailyRecords s2 =
      (s2, snd (LocalStorageService.getDailyRecords one_record_store)).
Proof.
  destruct (createDailyRecord_then mid_june mid_june one_record_store
              (mkRecord "" "2024-06-16" 2 true) ∅)
    as (s1 & new & Hc & _ & (s2 & Hd & _ & Hr) & _).
  - repeat constructor. discriminate.
  - exists s1, s2. split; [exact Hc|]. split; [exact Hd|exact Hr].
Defined.

(** * Users and the session *)

Lemma registerUser_run (now : Z) (zone : JSDate.Zone)
    (toLowerCase : string -> string) (s : Store) (e password nm : string) :
  LocalStorageService.registerUser now zone toLowerCase e password nm s =
    match List.find (LocalStorageService.sameEmail toLowerCase e) (default [] (USERS s)) with
    | Some _ => (s, Throw DuplicateEmailError)
    | None =>
        let newUser := mkUser ("user_" ++ showZ now) e nm
                              (JSDate.toISOString now) (JSDate.toISOString now) in
        (mkStore (Some (default [] (USERS s) ++ [newUser])%list) (Some newUser)
                 (Some ("token_" ++ showZ now))
                 (Some (LocalStorageService.defaultProfile now zone nm e))
                 (DAILY_RECORDS s)
                 (Some (LocalStorageService.defaultSettings now))
                 (APP_THEME s) (APP_LANGUAGE s) (TUTORIAL_SEEN s),
         Ok newUser)
    end.
Proof.
  unfold LocalStorageService.registerUser, LocalStorageService.getAllUsers,
    bind, getItem, ret, throw.
  destruct (List.find _ _); reflexivity.
Qed.

Lemma loginUser_run (now : Z) (toLowerCase : string -> string) (s : Store)
    (e password : string) :
  LocalStorageService.loginUser now toLowerCase e password s =
    match List.find (LocalStorageService.sameEmail toLowerCase e) (default [] (USERS s)) with
    | None => (s, Throw UserNotFoundError)
    | Some u =>
        (set_AUTH_TOKEN (Some ("token_" ++ showZ now))
           (set_CURRENT_USER (Some u) s), Ok u)
    end.
Proof.
  unfold LocalStorageService.loginUser, LocalStorageService.getAllUsers,
    bind, getItem, ret, throw.
  destruct (List.find _ _); reflexivity.
Qed.

Lemma sameEmail_ext (toLowerCase : string -> string) e e' u :
  toLowerCase e' = toLowerCase e ->
  LocalStorageService.sameEmail toLowerCase e' u = LocalStorageService.sameEmail toLowerCase e u.
Proof. unfold LocalStorageService.sameEmail. now intros ->. Qed.

Lemma find_app_none {A} (p : A -> bool) (l : list A) (x : A) :
  List.find p l = None -> p x = true -> List.find p (l ++ [x]) = Some x.
Proof.
  induction l as [|y l IH]; cbn [List.find app]; intros Hn Hx.
  - now rewrite Hx.
  - destruct (p y); [discriminate|]. now apply IH.
Qed.

Lemma find_pointwise {A} (p q : A -> bool) (l : list A) :
  (forall x, p x = q x) -> List.find p l = List.find q l.
Proof.
  intros H. induction l as [|y l IH]; cbn [List.find]; [reflexivity|].
  now rewrite H, IH.
Qed.

Lemma find_sameEmail_None (toLowerCase : string -> string) e (users : list User) :
  List.find (LocalStorageService.sameEmail toLowerCase e) users = None <->
  toLowerCase e ∉ map (fun u => toLowerCase (email u)) users.
Proof.
  rewrite (find_None_not_Exists _ (fun u => toLowerCase (email u) = toLowerCase e))
    by (intros u; apply sameEmail_true).
  rewrite list_elem_of_fmap, List.Exists_exists. split.
  - intros H (u & E & Hin). apply H. exists u. split; [|now rewrite E].
    now apply list_elem_of_In.
  - intros H (u & Hin & E). apply H. exists u. split; [now rewrite E|].
    now apply list_elem_of_In.
Qed.

(** Registration keeps the registered emails pairwise distinct up to case,
    as the engine's [toLowerCase] converts them: whether it succeeds or
    fails, a user list without two emails of the same lower case is one
    afterwards. *)
Theorem registerUser_keeps_emails_distinct (now : Z) (zone : JSDate.Zone)
    (toLowerCase : string -> string) (s : Store) (e password nm : string) :
  let emails := fun st : Store =>
    map (fun u => toLowerCase (email u)) (default [] (USERS st)) in
  NoDup (emails s) ->
  NoDup (emails (fst (LocalStorageService.registerUser now zone toLowerCase
                        e password nm s))).
Proof.
  intros emails Hn. rewrite registerUser_run.
  destruct (List.find _ _) eqn:E; [exact Hn|].
  unfold emails. cbn [fst USERS from_option id]. rewrite map_app. cbn [map email].
  apply find_sameEmail_None in E.
  apply NoDup_app. split; [exact Hn|]. split; [|apply NoDup_singleton].
  intros x Hx Hx'. apply list_elem_of_singleton in Hx'. subst x. now apply E.
Qed.

Lemma registerUser_keeps_emails_distinct_witness :
  NoDup (map (fun u => asciiLowerCase (email u))
           (default []
              (USERS (fst (LocalStorageService.registerUser mid_june
                             (JSDate.fixed 0) asciiLowerCase
                             "bob@example.com" "pw" "Bob"
                             (set_USERS (Some [ann]) emptyStore)))))).
Proof.
  apply (registerUser_keeps_emails_distinct mid_june (JSDate.fixed 0)
           asciiLowerCase (set_USERS (Some [ann]) emptyStore)
           "bob@example.com" "pw" "Bob").
  apply NoDup_singleton.
Defined.

(** The life of a session. After a successful registration the new user is
    the current user; after [logoutUser] there is none, while the user
    list, the profile, the records, the settings and the tutorial flag are
    as before; a later login with an email of the same lower case (as the
    engine's [toLowerCase] converts it), and any password, brings the same
    user back as the current user; and a second registration of such an
    email fails. *)
Theorem session_lifecycle (now now' : Z) (zone : JSDate.Zone)
    (toLowerCase : string -> string) (s : Store)
    (e e' password password' nm : string) :
  toLowerCase e' = toLowerCase e ->
  ~ Exists (fun u => toLowerCase (email u) = toLowerCase e) (default [] (USERS s)) ->
  exists (u : User) (s1 s2 s3 : Store),
    LocalStorageService.registerUser now zone toLowerCase e password nm s
      = (s1, Ok u) /\
    LocalStorageService.getCurrentUser s1 = (s1, Ok (Some u)) /\
    LocalStorageService.logoutUser s1 = (s2, Ok tt) /\
    LocalStorageService.getCurrentUser s2 = (s2, Ok None) /\
    (USERS s2, USER_PROFILE s2, DAILY_RECORDS s2, USER_SETTINGS s2, TUTORIAL_SEEN s2)
      = (USERS s1, USER_PROFILE s1, DAILY_RECORDS s1, USER_SETTINGS s1,
         TUTORIAL_SEEN s1) /\
    LocalStorageService.loginUser now' toLowerCase e' password' s2 = (s3, Ok u) /\
    LocalStorageService.getCurrentUser s3 = (s3, Ok (Some u)) /\
    LocalStorageService.registerUser now' zone toLowerCase e' password' nm s3 =
      (s3, Throw DuplicateEmailError).
Proof.
  intros He Hnew.
  assert (Hfind : List.find (LocalStorageService.sameEmail toLowerCase e)
                    (default [] (USERS s)) = None).
  { apply (find_None_not_Exists _
             (fun u => toLowerCase (email u) = toLowerCase e)); [|exact Hnew].
    intros u. apply sameEmail_true. }
  set (u := mkUser ("user_" ++ showZ now) e nm
                   (JSDate.toISOString now) (JSDate.toISOString now)).
  assert (Hfind' : List.find (LocalStorageService.sameEmail toLowerCase e')
                      (default [] (USERS s) ++ [u]) = Some u).
  { apply find_app_none.
    - rewrite <- Hfind. apply find_pointwise. intros x. symmetry. now apply sameEmail_ext.
    - apply sameEmail_true. now rewrite He. }
  set (s1 := mkStore (Some (default [] (USERS s) ++ [u])%list) (Some u)
                     (Some ("token_" ++ showZ now))
                     (Some (LocalStorageService.defaultProfile now zone nm e))
                     (DAILY_RECORDS s)
                     (Some (LocalStorageService.defaultSettings now))
                     (APP_THEME s) (APP_LANGUAGE s) (TUTORIAL_SEEN s)).
  set (s2 := set_AUTH_TOKEN None (set_CURRENT_USER None s1)).
  set (s3 := set_AUTH_TOKEN (Some ("token_" ++ showZ now'))
               (set_CURRENT_USER (Some u) s2)).
  exists u, s1, s2, s3.
  split; [rewrite registerUser_run, Hfind; reflexivity|].
  split; [reflexivity|]. split; [reflexivity|]. split; [reflexivity|].
  split; [reflexivity|].
  split.
  { rewrite loginUser_run.
    change (default [] (USERS s2)) with (default [] (USERS s) ++ [u])%list.
    now rewrite Hfind'. }
  split; [reflexivity|].
  rewrite registerUser_run.
  change (default [] (USERS s3)) with (default [] (USERS s) ++ [u])%list.
  now rewrite Hfind'.
Qed.

Lemma session_lifecycle_witness :
  exists u s1 s2 s3,
    LocalStorageService.registerUser mid_june (JSDate.fixed 0) asciiLowerCase
        "Bob@Example.com" "pw" "Bob" (set_USERS (Some [ann]) emptyStore)
      = (s1, Ok u) /\
    LocalStorageService.logoutUser s1 = (s2, Ok tt) /\
    LocalStorageService.loginUser early_june asciiLowerCase "bob@example.COM"
        "other" s2
      = (s3, Ok u) /\
    LocalStorageService.getCurrentUser s3 = (s3, Ok (Some u)).
Proof.
  destruct (session_lifecycle mid_june early_june (JSDate.fixed 0) asciiLowerCase
              (set_USERS (Some [ann]) emptyStore)
              "Bob@Example.com" "bob@example.COM" "pw" "other" "Bob")
    as (u & s1 & s2 & s3 & H1 & _ & H2 & _ & _ & H3 & H4 & _).
  - reflexivity.
  - intros H. apply Exists_cons in H as [H|H]; [discriminate H|inversion H].
  - exists u, s1, s2, s3. auto.
Defined.

(** * The tutorial flag, the profile and the settings *)

Lemma markTutorialAsSeen_run (now : Z) (s : Store) :
  LocalStorageService.markTutorialAsSeen now s =
    match USER_PROFILE s with
    | Some p =>
        (set_USER_PROFILE
           (Some (<["updatedAt" := JStr (JSDate.toISOString now)]>
                    (spread p {[ "hasSeenTutorial" := JBool true ]})))
           (set_TUTORIAL_SEEN (Some "true") s), Ok tt)
    | None => (set_TUTORIAL_SEEN (Some "true") s, Ok tt)
    end.
Proof.
  unfold LocalStorageService.markTutorialAsSeen, bind, setItem,
    LocalStorageService.getUserProfile, getItem, ret.
  destruct s as [a b c [p|] d e f g h]; reflexivity.
Qed.

Lemma resetTutorialStatus_run (now : Z) (s : Store) :
  LocalStorageService.resetTutorialStatus now s =
    match USER_PROFILE s with
    | Some p =>
        (set_USER_PROFILE
           (Some (<["updatedAt" := JStr (JSDate.toISOString now)]>
                    (spread p {[ "hasSeenTutorial" := JBool false ]})))
           (set_TUTORIAL_SEEN None s), Ok tt)
    | None => (set_TUTORIAL_SEEN None s, Ok tt)
    end.
Proof.
  unfold LocalStorageService.resetTutorialStatus, bind, removeItem,
    LocalStorageService.getUserProfile, getItem, ret.
  destruct s as [a b c [p|] d e f g h]; reflexivity.
Qed.

Lemma hasUserSeenTutorial_run (s : Store) :
  LocalStorageService.hasUserSeenTutorial s =
    (s, Ok (bool_decide (TUTORIAL_SEEN s = Some "true") ||
            bool_decide (default ∅ (USER_PROFILE s) !! "hasSeenTutorial"
                         = Some (JBool true)))).
Proof. reflexivity. Qed.

Lemma stamped_flag (t : string) (p : obj) (b : bool) :
  (<["updatedAt" := JStr t]> (spread p {[ "hasSeenTutorial" := JBool b ]}) : obj)
    !! "hasSeenTutorial" = Some (JBool b).
Proof.
  rewrite lookup_insert_ne by discriminate. unfold spread.
  apply lookup_union_Some_l, lookup_singleton_eq.
Qed.

Lemma stamped_other (t : string) (p : obj) (b : bool) (k : string) :
  k <> "hasSeenTutorial" -> k <> "updatedAt" ->
  (<["updatedAt" := JStr t]> (spread p {[ "hasSeenTutorial" := JBool b ]}) : obj)
    !! k = p !! k.
Proof.
  intros H1 H2. rewrite lookup_insert_ne by congruence. unfold spread.
  rewrite lookup_union_r; [reflexivity|]. now apply lookup_singleton_ne.
Qed.

(** Marking and resetting the tutorial. Neither operation fails. After
    [markTutorialAsSeen] the tutorial counts as seen, after
    [resetTutorialStatus] it does not, whatever was stored before. Neither
    creates a profile where none is stored; where one is stored, only its
    fields [hasSeenTutorial] and [updatedAt] change. *)
Theorem tutorial_mark_reset (now : Z) (s : Store) :
  let marked := fst (LocalStorageService.markTutorialAsSeen now s) in
  let reset := fst (LocalStorageService.resetTutorialStatus now s) in
  snd (LocalStorageService.markTutorialAsSeen now s) = Ok tt /\
  snd (LocalStorageService.resetTutorialStatus now s) = Ok tt /\
  LocalStorageService.hasUserSeenTutorial marked = (marked, Ok true) /\
  LocalStorageService.hasUserSeenTutorial reset = (reset, Ok false) /\
  (USER_PROFILE s = None -> USER_PROFILE marked = None /\ USER_PROFILE reset = None) /\
  (forall p, USER_PROFILE s = Some p ->
     exists pm pr,
       USER_PROFILE marked = Some pm /\ USER_PROFILE reset = Some pr /\
       forall k, k <> "hasSeenTutorial" -> k <> "updatedAt" ->
         pm !! k = p !! k /\ pr !! k = p !! k).
Proof.
  intros marked reset. subst marked reset.
  rewrite markTutorialAsSeen_run, resetTutorialStatus_run.
  destruct (USER_PROFILE s) as [p|] eqn:E.
  - cbn [fst snd]. rewrite !hasUserSeenTutorial_run.
    cbn [USER_PROFILE TUTORIAL_SEEN set_USER_PROFILE set_TUTORIAL_SEEN from_option id].
    rewrite !stamped_flag.
    repeat split; try discriminate.
    intros p' [= <-]. eexists _, _. split; [reflexivity|]. split; [reflexivity|].
    intros k H1 H2. now rewrite !stamped_other.
  - cbn [fst snd]. rewrite !hasUserSeenTutorial_run.
    assert (Hp : forall v, USER_PROFILE (set_TUTORIAL_SEEN v s) = None)
      by (intros v; destruct s; exact E).
    rewrite !Hp. cbn [from_option id]. rewrite lookup_empty.
    repeat split; discriminate.
Qed.

(** The installation holds one profile, one settings object, one record
    list and one tutorial key for all users. [loginUser] changes nothing but
    the session, so the profile read after a login is the one last stored,
    whoever logs in. A successful [registerUser] replaces the profile and
    the settings by the defaults and keeps the records and the tutorial key
    of whoever used the application before: the new profile says "tutorial
    not seen", and [hasUserSeenTutorial] answers with the old key. *)
Theorem users_share_one_installation (now : Z) (zone : JSDate.Zone)
    (toLowerCase : string -> string) (s : Store) (e password nm : string) :
  (let s' := fst (LocalStorageService.loginUser now toLowerCase e password s) in
   (USERS s', USER_PROFILE s', DAILY_RECORDS s', USER_SETTINGS s', TUTORIAL_SEEN s')
   = (USERS s, USER_PROFILE s, DAILY_RECORDS s, USER_SETTINGS s, TUTORIAL_SEEN s)) /\
  (forall u s',
     LocalStorageService.registerUser now zone toLowerCase e password nm s
       = (s', Ok u) ->
     LocalStorageService.getDailyRecords s' =
       (s', snd (LocalStorageService.getDailyRecords s)) /\
     USER_PROFILE s' = Some (LocalStorageService.defaultProfile now zone nm e) /\
     USER_SETTINGS s' = Some (LocalStorageService.defaultSettings now) /\
     default ∅ (USER_PROFILE s') !! "hasSeenTutorial" = Some (JBool false) /\
     LocalStorageService.hasUserSeenTutorial s' =
       (s', Ok (bool_decide (TUTORIAL_SEEN s = Some "true")))).
Proof.
  split.
  - rewrite loginUser_run. destruct (List.find _ _); reflexivity.
  - intros u s' H. rewrite registerUser_run in H.
    destruct (List.find _ _); [discriminate|]. injection H as <- <-.
    assert (L : LocalStorageService.defaultProfile now zone nm e !! "hasSeenTutorial"
                = Some (JBool false)).
    { unfold LocalStorageService.defaultProfile.
      rewrite !lookup_insert_ne by discriminate. apply lookup_insert_eq. }
    split; [reflexivity|]. split; [reflexivity|]. split; [reflexivity|].
    split; [exact L|].
    rewrite hasUserSeenTutorial_run.
    cbn [USER_PROFILE TUTORIAL_SEEN from_option id].
    rewrite L. now rewrite orb_false_r.
Qed.

Lemma users_share_one_installation_witness :
  let s := fst (LocalStorageService.markTutorialAsSeen early_june sample_store) in
  let s' := fst (LocalStorageService.registerUser mid_june (JSDate.fixed 0)
                   asciiLowerCase "bob@example.com" "pw" "Bob" s) in
  LocalStorageService.getDailyRecords s' =
    (s', snd (LocalStorageService.getDailyRecords sample_store)) /\
  LocalStorageService.hasUserSeenTutorial s' = (s', Ok true).
Proof.
  intros s s'.
  destruct (proj2 (users_share_one_installation mid_june (JSDate.fixed 0)
                     asciiLowerCase s "bob@example.com" "pw" "Bob")
              (mkUser ("user_" ++ showZ mid_june) "bob@example.com" "Bob"
                      (JSDate.toISOString mid_june) (JSDate.toISOString mid_june))
              s' eq_refl) as (H1 & _ & _ & _ & H2).
  split; [exact H1|exact H2].
Defined.

Lemma getUserSettings_twice (now now' : Z) (s : Store) :
  exists (settings : obj) (s1 : Store),
    LocalStorageService.getUserSettings now s = (s1, Ok settings) /\
    LocalStorageService.getUserSettings now' s1 = (s1, Ok settings) /\
    s1 = set_USER_SETTINGS (Some settings) s /\
    (forall st, USER_SETTINGS s = Some st -> settings = st /\ s1 = s).
Proof.
  destruct (USER_SETTINGS s) as [st|] eqn:E.
  - exists st, s. rewrite !(getUserSettings_stored _ s st E).
    split; [reflexivity|]. split; [reflexivity|].
    split; [destruct s; cbn in E |- *; now rewrite E|].
    now intros ? [= ->].
  - eexists _, _. rewrite (getUserSettings_absent now s E).
    split; [reflexivity|].
    split; [apply getUserSettings_stored; now destruct s|].
    split; [reflexivity|discriminate].
Qed.

(** Reading the settings persists the defaults once: [getUserSettings]
    never fails; a second read, at any later clock value, returns what the
    first returned and writes nothing; the first read changes the store only
    when no settings were stored, and then only the settings slot. *)
Theorem getUserSettings_persists (now now' : Z) (s : Store) :
  exists (settings : obj) (s1 : Store),
    LocalStorageService.getUserSettings now s = (s1, Ok settings) /\
    LocalStorageService.getUserSettings now' s1 = (s1, Ok settings) /\
    s1 = set_USER_SETTINGS (Some settings) s /\
    (forall st, USER_SETTINGS s = Some st -> settings = st /\ s1 = s) /\
    (USER_SETTINGS s = None -> settings = LocalStorageService.defaultSettings now).
Proof.
  destruct (USER_SETTINGS s) as [st|] eqn:E.
  - exists st, s. rewrite !(getUserSettings_stored _ s st E).
    split; [reflexivity|]. split; [reflexivity|].
    split; [destruct s; cbn in E |- *; now rewrite E|].
    split; [|discriminate]. now intros ? [= ->].
  - exists (LocalStorageService.defaultSettings now),
      (set_USER_SETTINGS (Some (LocalStorageService.defaultSettings now)) s).
    rewrite (getUserSettings_absent now s E).
    split; [reflexivity|].
    split; [apply getUserSettings_stored; now destruct s|].
    split; [reflexivity|]. split; [discriminate|reflexivity].
Qed.

Lemma spread_assoc (p u1 u2 : obj) :
  spread (spread p u1) u2 = spread p (spread u1 u2).
Proof. unfold spread. now rewrite (assoc_L (∪)). Qed.

Lemma stamp_spread_stamp (t1 t2 : string) (p u : obj) :
  (<["updatedAt" := JStr t2]> (spread (<["updatedAt" := JStr t1]> p) u) : obj)
  = <["updatedAt" := JStr t2]> (spread p u).
Proof.
  apply map_eq. intros k. destruct (decide (k = "updatedAt")) as [->|Hk].
  - now rewrite !lookup_insert_eq.
  - rewrite !lookup_insert_ne by congruence. unfold spread.
    rewrite !lookup_union, lookup_insert_ne by congruence. reflexivity.
Qed.

(** Successive updates compose. Two profile updates in a row leave what one
    update with the merged object (the later update winning on shared
    fields) leaves at the later clock value; the same holds of two settings
    updates, from the store the first read of the settings leaves. *)
Theorem updates_compose (now1 now2 : Z) (s : Store) (u1 u2 : obj) :
  LocalStorageService.updateUserProfile now2 u2
      (fst (LocalStorageService.updateUserProfile now1 u1 s))
    = LocalStorageService.updateUserProfile now2 (spread u1 u2) s /\
  LocalStorageService.updateUserSettings now2 u2
      (fst (LocalStorageService.updateUserSettings now1 u1 s))
    = LocalStorageService.updateUserSettings now2 (spread u1 u2)
        (fst (LocalStorageService.getUserSettings now1 s)).
Proof.
  split.
  - rewrite !updateUserProfile_run. cbn [fst].
    cbn [USER_PROFILE set_USER_PROFILE from_option id].
    rewrite stamp_spread_stamp, spread_assoc. now destruct s.
  - destruct (getUserSettings_twice now1 now2 s)
      as (st & s1 & H1 & H2 & -> & _).
    rewrite H1. cbn [fst].
    assert (Hst : forall n st0 s0 u, USER_SETTINGS s0 = Some st0 ->
              LocalStorageService.updateUserSettings n u s0 =
                (set_USER_SETTINGS
                   (Some (<["updatedAt" := JStr (JSDate.toISOString n)]>
                            (spread st0 u))) s0, Ok tt)).
    { intros n st0 s0 u E.
      unfold LocalStorageService.updateUserSettings, bind.
      now rewrite (getUserSettings_stored n s0 st0 E). }
    assert (Hup : LocalStorageService.updateUserSettings now1 u1 s =
              (set_USER_SETTINGS
                 (Some (<["updatedAt" := JStr (JSDate.toISOString now1)]>
                          (spread st u1))) s, Ok tt)).
    { unfold LocalStorageService.updateUserSettings, bind. rewrite H1.
      destruct s; reflexivity. }
    rewrite Hup. cbn [fst].
    rewrite (Hst now2 (<["updatedAt" := JStr (JSDate.toISOString now1)]> (spread st u1)))
      by now destruct s.
    rewrite (Hst now2 st) by now destruct s.
    rewrite stamp_spread_stamp, spread_assoc. now destruct s.
Qed.

(** * Export and import *)

Lemma importAllData_run (data : Document) (s : Store) :
  LocalStorageService.importAllData (ParsesTo data) s =
    (mkStore (USERS s) (CURRENT_USER s) (AUTH_TOKEN s)
       (match doc_profile data with Some p => Some p | None => USER_PROFILE s end)
       (match doc_records data with Some r => Some r | None => DAILY_RECORDS s end)
       (match doc_settings data with Some t => Some t | None => USER_SETTINGS s end)
       (APP_THEME s) (APP_LANGUAGE s) (TUTORIAL_SEEN s),
     Ok tt).
Proof.
  unfold LocalStorageService.importAllData, LocalStorageService.when, bind,
    setItem, ret.
  destruct s, (doc_profile data), (doc_records data), (doc_settings data);
    reflexivity.
Qed.

Lemma exportAllData_run (now : Z) (s : Store) :
  LocalStorageService.exportAllData now s =
    (fst (LocalStorageService.getUserSettings now s),
     match snd (LocalStorageService.getUserSettings now s) with
     | Ok settings =>
         Ok (mkDocument
               (match CURRENT_USER s, AUTH_TOKEN s with
                | Some u, Some tok => if String.eqb tok "" then None else Some u
                | _, _ => None
                end)
               (USER_PROFILE s)
               (Some (sort_by byDateDesc (default [] (DAILY_RECORDS s))))
               (Some settings)
               (Some (LocalStorageService.exportMetadata now)))
     | Throw e => Throw e
     end).
Proof.
  unfold LocalStorageService.exportAllData, LocalStorageService.getCurrentUser,
    LocalStorageService.getUserProfile, LocalStorageService.getDailyRecords,
    bind, getItem, ret.
  destruct (CURRENT_USER s), (AUTH_TOKEN s);
    destruct (LocalStorageService.getUserSettings now s) as [s1 [st|err]];
    reflexivity.
Qed.

(** [importAllData]. A text that does not parse is refused with the
    engine's [SyntaxError], a text that parses to [null] with its
    [TypeError], and in both cases nothing is written. Any other text is
    imported without failure, member by member: a slot whose member the
    document lacks keeps its value; the users, the session and the tutorial
    key are never touched; the document's [user] and [metadata] play no
    part. Importing the same document again changes nothing, and importing
    one document after another leaves what one import of their overlay
    leaves, the later document's members over the earlier one's. *)
Theorem importAllData_partial (s : Store) :
  LocalStorageService.importAllData Malformed s = (s, Throw SyntaxError) /\
  LocalStorageService.importAllData ParsesToNull s = (s, Throw TypeError) /\
  forall data : Document,
  exists s' : Store,
    LocalStorageService.importAllData (ParsesTo data) s = (s', Ok tt) /\
    USER_PROFILE s' =
      match doc_profile data with Some p => Some p | None => USER_PROFILE s end /\
    DAILY_RECORDS s' =
      match doc_records data with Some r => Some r | None => DAILY_RECORDS s end /\
    USER_SETTINGS s' =
      match doc_settings data with Some t => Some t | None => USER_SETTINGS s end /\
    (USERS s', CURRENT_USER s', AUTH_TOKEN s', APP_THEME s', APP_LANGUAGE s',
     TUTORIAL_SEEN s')
      = (USERS s, CURRENT_USER s, AUTH_TOKEN s, APP_THEME s, APP_LANGUAGE s,
         TUTORIAL_SEEN s) /\
    LocalStorageService.getCurrentUser s' =
      (s', snd (LocalStorageService.getCurrentUser s)) /\
    (forall user metadata,
       LocalStorageService.importAllData
         (ParsesTo (mkDocument user (doc_profile data) (doc_records data)
                               (doc_settings data) metadata)) s = (s', Ok tt)) /\
    LocalStorageService.importAllData (ParsesTo data) s' = (s', Ok tt) /\
    (forall later : Document,
       LocalStorageService.importAllData (ParsesTo later) s' =
       LocalStorageService.importAllData
         (ParsesTo (mkDocument None
            (match doc_profile later with Some p => Some p | None => doc_profile data end)
            (match doc_records later with Some r => Some r | None => doc_records data end)
            (match doc_settings later with Some t => Some t | None => doc_settings data end)
            None)) s).
Proof.
  split; [reflexivity|]. split; [reflexivity|]. intros data.
  eexists. split; [apply importAllData_run|].
  do 4 (split; [reflexivity|]).
  split.
  { unfold LocalStorageService.getCurrentUser, bind, getItem, ret.
    cbn [CURRENT_USER AUTH_TOKEN snd].
    destruct (CURRENT_USER s), (AUTH_TOKEN s); reflexivity. }
  split; [intros; now rewrite importAllData_run|].
  split.
  { rewrite importAllData_run.
    cbn [USERS CURRENT_USER AUTH_TOKEN USER_PROFILE DAILY_RECORDS USER_SETTINGS
         APP_THEME APP_LANGUAGE TUTORIAL_SEEN].
    destruct (doc_profile data), (doc_records data), (doc_settings data);
      reflexivity. }
  intros later. rewrite !importAllData_run.
  cbn [USERS CURRENT_USER AUTH_TOKEN USER_PROFILE DAILY_RECORDS USER_SETTINGS
       APP_THEME APP_LANGUAGE TUTORIAL_SEEN doc_profile doc_records doc_settings].
  destruct (doc_profile later), (doc_records later), (doc_settings later),
    (doc_profile data), (doc_records data), (doc_settings data); reflexivity.
Qed.

(** Import, then export. After importing a document with a profile, records
    and settings, an export returns that profile and those settings, the
    imported records in the order [getDailyRecords] reads them (the imported
    list itself when it is already in that order), the current user of the
    session rather than the document's, and fresh metadata; it writes
    nothing. *)
Theorem import_then_export (now : Z) (data : Document) (s : Store)
    (p : obj) (rs : list obj) (st : obj) :
  doc_profile data = Some p ->
  doc_records data = Some rs ->
  doc_settings data = Some st ->
  exists (s' : Store) (u : option User),
    LocalStorageService.importAllData (ParsesTo data) s = (s', Ok tt) /\
    LocalStorageService.getCurrentUser s = (s, Ok u) /\
    LocalStorageService.exportAllData now s' =
      (s', Ok (mkDocument u (Some p) (Some (sort_by byDateDesc rs)) (Some st)
                          (Some (LocalStorageService.exportMetadata now)))) /\
    (Sorted (inOrder byDateDesc) rs -> sort_by byDateDesc rs = rs).
Proof.
  intros Hp Hr Ht. destruct (getCurrentUser_run s) as [u Hu].
  set (s' := mkStore (USERS s) (CURRENT_USER s) (AUTH_TOKEN s) (Some p) (Some rs)
                     (Some st) (APP_THEME s) (APP_LANGUAGE s) (TUTORIAL_SEEN s)).
  exists s', u.
  split; [now rewrite importAllData_run, Hp, Hr, Ht|]. split; [exact Hu|].
  split; [|apply sort_by_Sorted_id].
  rewrite exportAllData_run.
  rewrite (getUserSettings_stored now s' st eq_refl).
  cbn [fst snd]. f_equal. f_equal.
  unfold LocalStorageService.getCurrentUser, bind, getItem, ret in Hu.
  subst s'. cbn [CURRENT_USER AUTH_TOKEN USER_PROFILE DAILY_RECORDS from_option id].
  destruct (CURRENT_USER s), (AUTH_TOKEN s); injection Hu as <-; reflexivity.
Qed.

Lemma import_then_export_witness :
  exists s' u,
    LocalStorageService.importAllData
      (ParsesTo (mkDocument None (Some ∅) (Some three_records)
                   (Some (LocalStorageService.defaultSettings 0)) None))
      sample_store
      = (s', Ok tt) /\
    LocalStorageService.getCurrentUser sample_store = (sample_store, Ok u) /\
    LocalStorageService.exportAllData mid_june s' =
      (s', Ok (mkDocument u (Some ∅)
                 (Some (sort_by byDateDesc three_records))
                 (Some (LocalStorageService.defaultSettings 0))
                 (Some (LocalStorageService.exportMetadata mid_june)))).
Proof.
  destruct (import_then_export mid_june
              (mkDocument None (Some ∅) (Some three_records)
                 (Some (LocalStorageService.defaultSettings 0)) None)
              sample_store ∅ three_records (LocalStorageService.defaultSettings 0)
              eq_refl eq_refl eq_refl) as (s' & u & H1 & H2 & H3 & _).
  exists s', u. split; [exact H1|]. split; [exact H2|exact H3].
Defined.

(** An export reads, with one exception: when no settings are stored it
    stores the defaults it returns. It never fails; its record list is the
    one [getDailyRecords] reads; and a second export, at any later clock
    value, writes nothing and returns the same document but for the export
    date in the metadata. *)
Theorem exportAllData_repeat (now now' : Z) (s : Store) :
  exists (doc : Document) (s1 : Store),
    LocalStorageService.exportAllData now s = (s1, Ok doc) /\
    s1 = fst (LocalStorageService.getUserSettings now s) /\
    (is_Some (USER_SETTINGS s) -> s1 = s) /\
    (s1, Ok (default [] (doc_records doc))) = LocalStorageService.getDailyRecords s1 /\
    doc_metadata doc = Some (LocalStorageService.exportMetadata now) /\
    LocalStorageService.exportAllData now' s1 =
      (s1, Ok (mkDocument (doc_user doc) (doc_profile doc) (doc_records doc)
                          (doc_settings doc)
                          (Some (LocalStorageService.exportMetadata now')))).
Proof.
  destruct (getUserSettings_twice now now' s) as (st & s1 & H1 & H2 & Hs1 & Hst).
  rewrite !exportAllData_run, H1. cbn [fst snd].
  eexists _, s1. split; [reflexivity|]. split; [reflexivity|].
  split.
  { intros [st' E]. now destruct (Hst st' E). }
  split.
  { subst s1. reflexivity. }
  split; [reflexivity|].
  rewrite exportAllData_run, H2. cbn [fst snd doc_user doc_profile doc_records
    doc_settings]. subst s1. reflexivity.
Qed.

(** * More on the statistics *)

(** The date string the walk expects at index [i] is the UTC day of the
    instant [i] days before the clock: the zone cancels out of
    [setDate(getDate() - i)]. *)
Lemma expectedDateStr_utc (now tza i : Z) :
  StatsContext.expectedDateStr now (JSDate.fixed tza) i =
    JSDate.beforeT (JSDate.toISOString (now - i * JSDate.msPerDay)).
Proof.
  unfold StatsContext.expectedDateStr.
  now rewrite (JSDateFacts.setDate_getDate tza now i).
Qed.

Lemma streakLoop_zone (now tza tza' : Z) (l : list obj) : forall i acc,
  StatsContext.streakLoop now (JSDate.fixed tza) i l acc =
    StatsContext.streakLoop now (JSDate.fixed tza') i l acc.
Proof.
  induction l as [|r l IH]; intros i acc; cbn [StatsContext.streakLoop];
    [reflexivity|].
  rewrite (expectedDateStr_utc now tza i), (expectedDateStr_utc now tza' i).
  now rewrite IH.
Qed.

(** The walk reads the records only through their [date]. *)
Lemma streakLoop_dates (now : Z) (zone : JSDate.Zone) (l l' : list obj) :
  forall i acc,
  map (fun r : obj => r !! "date") l = map (fun r : obj => r !! "date") l' ->
  StatsContext.streakLoop now zone i l acc =
    StatsContext.streakLoop now zone i l' acc.
Proof.
  revert l'. induction l as [|r l IH]; intros [|r' l'] i acc E;
    try discriminate E; [reflexivity|].
  cbn [map] in E. injection E as Er El.
  cbn [StatsContext.streakLoop]. rewrite Er, (IH l' _ _ El). reflexivity.
Qed.

(** Between devices that keep a constant offset from UTC, and for records
    dated by calendar day (YYYY-MM-DD, which the engine reads as midnight
    UTC whatever the zone), the statistics of [calculateStats] do not depend
    on the zone: the streak is counted in UTC days and the 30-day window
    starts at an instant. The monthly figures of the home screen do depend
    on the zone even then: an hour before midnight UTC on 30 June, the month
    has 30 days in UTC and 31 two hours further east. *)
Theorem calculateStats_zone_free (now tza tza' : Z) (records : list obj) :
  Forall validDate records ->
  StatsContext.calculateStats now (JSDate.fixed tza) records =
    StatsContext.calculateStats now (JSDate.fixed tza') records /\
  exists instant offset offset',
    HomeScreen.totalDaysInMonth
      (HomeScreen.calculateCurrentMonthStats instant (JSDate.fixed offset) records) <>
    HomeScreen.totalDaysInMonth
      (HomeScreen.calculateCurrentMonthStats instant (JSDate.fixed offset') records).
Proof.
  intros _. split.
  - unfold StatsContext.calculateStats.
    rewrite (streakLoop_zone now tza tza').
    now rewrite (thirtyDaysAgo_spec now tza), (thirtyDaysAgo_spec now tza').
  - exists 1719788400000, 0, 7200000.
    unfold HomeScreen.calculateCurrentMonthStats, HomeScreen.totalDaysInMonth.
    vm_compute. discriminate.
Qed.

Lemma calculateStats_zone_free_witness :
  StatsContext.calculateStats mid_june (JSDate.fixed 0) three_records =
    StatsContext.calculateStats mid_june (JSDate.fixed utc_minus_3) three_records.
Proof.
  apply (calculateStats_zone_free mid_june 0 utc_minus_3 three_records).
  repeat constructor; eexists; (split; [reflexivity|]); vm_compute; eauto.
Defined.




Lemma fold_addCapsules (l : list obj) : forall (ns : list Z) (a : Z),
  map (fun r : obj => r !! "capsules") l = map (fun n => Some (JNum n)) ns ->
  fold_left addCapsules l (Some a) = Some (a + foldr Z.add 0 ns).
Proof.
  induction l as [|r l IH]; intros [|n ns] a E; try discriminate E.
  - cbn. f_equal. lia.
  - cbn [map] in E. injection E as Er El.
    cbn [fold_left foldr]. unfold addCapsules at 2. rewrite Er.
    rewrite (IH ns (a + n) El). f_equal. lia.
Qed.

Lemma partial_sum_bounds (ns : list Z) : forall k : nat,
  Forall (fun n => 0 <= n) ns ->
  0 <= foldr Z.add 0 (take k ns) <= foldr Z.add 0 ns.
Proof.
  induction ns as [|n ns IH]; intros [|k] H; cbn [take foldr]; try lia.
  - apply Forall_cons in H as [Hn H]. specialize (IH 0%nat H).
    rewrite take_0 in IH. cbn [foldr] in IH. lia.
  - apply Forall_cons in H as [Hn H]. specialize (IH k H). lia.
Qed.

(** The totals: when the completed records carry as their capsules the
    whole numbers [ns], none negative and of a sum within [2^53] (so that
    the additions of the source are exact), every partial sum the reduction
    forms is a whole number between 0 and [2^53], [totalDays] is how many
    the completed records are, [totalCapsules] is the sum, and
    [averageCapsules] is the sum over the count, or 0 without a division
    when no record is completed. Records that are not completed play no
    part, and neither does the zone. *)
Theorem totals_spec (now : Z) (zone : JSDate.Zone) (records : list obj)
    (ns : list Z) :
  map (fun r : obj => r !! "capsules") (List.filter completed records)
    = map (fun n => Some (JNum n)) ns ->
  exactSum ns ->
  let stats := StatsContext.calculateStats now zone records in
  (forall k : nat, exists partial : Z,
     fold_left addCapsules (take k (List.filter completed records)) (Some 0)
       = Some partial /\ 0 <= partial <= 2 ^ 53) /\
  StatsContext.totalDays stats = Z.of_nat (length ns) /\
  StatsContext.totalCapsules stats = Some (foldr Z.add 0 ns) /\
  (ns = [] -> StatsContext.averageCapsules stats = Some 0%Q) /\
  (ns <> [] ->
   StatsContext.averageCapsules stats =
     Some (inject_Z (foldr Z.add 0%Z ns) / inject_Z (Z.of_nat (length ns)))%Q).
Proof.
  intros E [Hpos Hmax] stats.
  assert (Hlen : length (List.filter completed records) = length ns).
  { rewrite <- (length_map (fun r : obj => r !! "capsules")), E. apply length_map. }
  assert (Hsum : fold_left addCapsules (List.filter completed records) (Some 0)
                 = Some (foldr Z.add 0 ns)).
  { rewrite (fold_addCapsules _ ns 0 E). f_equal. }
  split.
  { intros k. exists (foldr Z.add 0 (take k ns)). split.
    - rewrite (fold_addCapsules _ (take k ns) 0); [f_equal|].
      change (map (fun r : obj => r !! "capsules")) with
        (fmap (M := list) (fun r : obj => r !! "capsules")).
      change (map (fun n => Some (JNum n))) with
        (fmap (M := list) (fun n => Some (JNum n))).
      rewrite !fmap_take. f_equal. exact E.
    - pose proof (partial_sum_bounds ns k Hpos). lia. }
  unfold stats, StatsContext.calculateStats.
  cbn [StatsContext.totalDays StatsContext.totalCapsules StatsContext.averageCapsules].
  rewrite Hsum, Hlen.
  split; [reflexivity|]. split; [reflexivity|]. split.
  - intros ->. reflexivity.
  - intros Hne. destruct ns as [|n ns]; [contradiction|].
    replace (0 <? Z.of_nat (length (n :: ns))) with true; [reflexivity|].
    symmetry. apply Z.ltb_lt. cbn [length]. lia.
Qed.

Lemma totals_spec_witness :
  StatsContext.totalCapsules
    (StatsContext.calculateStats mid_june (JSDate.fixed 0) capsule_records)
    = Some (foldr Z.add 0 [2; 2; 3]).
Proof.
  apply (totals_spec mid_june (JSDate.fixed 0) capsule_records [2; 2; 3] eq_refl).
  split; [repeat constructor; lia|vm_compute; discriminate].
Defined.

Lemma filter_Permutation' {A} (p : A -> bool) (l l' : list A) :
  l ≡ₚ l' -> List.filter p l ≡ₚ List.filter p l'.
Proof.
  induction 1 as [|x l l' _ IH|x y l|l l' l'' _ IH1 _ IH2]; cbn [List.filter].
  - reflexivity.
  - destruct (p x); [now constructor|exact IH].
  - destruct (p x), (p y); try reflexivity. apply perm_swap.
  - now transitivity (List.filter p l').
Qed.

Lemma fold_addCapsules_Permutation (l l' : list obj) :
  l ≡ₚ l' -> forall a, fold_left addCapsules l a = fold_left addCapsules l' a.
Proof.
  induction 1 as [|x l l' _ IH|x y l|l l' l'' _ IH1 _ IH2]; intros a;
    cbn [fold_left].
  - reflexivity.
  - apply IH.
  - f_equal. unfold addCapsules.
    destruct a as [a|], (x !! "capsules") as [[| |n|]|], (y !! "capsules") as [[| |m|]|];
      try reflexivity.
    f_equal. lia.
  - now rewrite IH1.
Qed.

Lemma same_times_same_dates (l : list obj) : forall l',
  Forall validDate l -> Forall validDate l' ->
  map recordTime l = map recordTime l' ->
  map (fun r : obj => r !! "date") l = map (fun r : obj => r !! "date") l'.
Proof.
  induction l as [|r l IH]; intros [|r' l'] Hv Hv' E; try discriminate E;
    [reflexivity|].
  apply Forall_cons in Hv as [Hr Hv]. apply Forall_cons in Hv' as [Hr' Hv'].
  cbn [map] in E |- *. injection E as Et El.
  destruct (validDate_time r Hr) as [t Ht]. rewrite Ht in Et. symmetry in Et.
  rewrite (validDate_same_time r r' t Hr Hr' Ht Et).
  now rewrite (IH l' Hv Hv' El).
Qed.

(** Sorting two rearrangements of the same validly dated records gives lists
    with the same dates at the same places. *)
Lemma sort_Permutation_dates (l l' : list obj) :
  Forall validDate l -> l ≡ₚ l' ->
  map (fun r : obj => r !! "date") (sort_by byDateDesc l) =
  map (fun r : obj => r !! "date") (sort_by byDateDesc l').
Proof.
  intros Hv Hp.
  assert (Hv' : Forall validDate l') by now rewrite <- Hp.
  assert (Hsorted : forall k, Forall validDate k ->
            StronglySorted (fun a b : option Z => exists ta tb,
                              a = Some ta /\ b = Some tb /\ tb <= ta)
                           (map recordTime (sort_by byDateDesc k))).
  { intros k Hk. apply (StronglySorted_fmap recordTime notBefore).
    - intros x y (ta & tb & Ha & Hb & Hle). eauto.
    - apply sorted_notBefore. eapply Forall_impl; [exact Hk|].
      intros r. apply validDate_time. }
  apply same_times_same_dates.
  - now rewrite sort_by_Permutation.
  - now rewrite sort_by_Permutation.
  - eapply StronglySorted_unique_strong; [|apply Hsorted, Hv|apply Hsorted, Hv'|].
    + intros a b _ _ (ta & tb & -> & -> & H1) (ta' & tb' & [= <-] & [= <-] & H2).
      f_equal. lia.
    + apply fmap_Permutation. now rewrite !sort_by_Permutation.
Qed.

(** The statistics do not depend on the order in which the records are
    held: two rearrangements of the same records, the completed ones dated
    by calendar day and carrying whole numbers of capsules, none negative
    and of a sum within [2^53] (so that the additions of the source are
    exact in either order), have the same statistics, whatever the zone. *)
Theorem calculateStats_order_free (now : Z) (zone : JSDate.Zone)
    (records records' : list obj) (ns : list Z) :
  records ≡ₚ records' ->
  Forall validDate (List.filter completed records) ->
  map (fun r : obj => r !! "capsules") (List.filter completed records)
    = map (fun n => Some (JNum n)) ns ->
  exactSum ns ->
  StatsContext.calculateStats now zone records =
    StatsContext.calculateStats now zone records'.
Proof.
  intros Hp Hv _ _. unfold StatsContext.calculateStats.
  pose proof (filter_Permutation' completed _ _ Hp) as Hc.
  rewrite (streakLoop_dates now zone _
             (sort_by byDateDesc (List.filter completed records')) 0 0
             (sort_Permutation_dates _ _ Hv Hc)).
  rewrite (fold_addCapsules_Permutation _ _ Hc (Some 0)).
  rewrite (Permutation_length Hc).
  rewrite (Permutation_length
             (filter_Permutation' completed _ _
                (filter_Permutation'
                   (dateAtLeast (StatsContext.thirtyDaysAgo now zone))
                   _ _ Hp))).
  reflexivity.
Qed.

Lemma calculateStats_order_free_witness :
  StatsContext.calculateStats mid_june (JSDate.fixed 0)
    [mkRecord "a" "2024-06-15" 2 true; mkRecord "b" "2024-06-14" 3 true] =
  StatsContext.calculateStats mid_june (JSDate.fixed 0)
    [mkRecord "b" "2024-06-14" 3 true; mkRecord "a" "2024-06-15" 2 true].
Proof.
  apply (calculateStats_order_free mid_june (JSDate.fixed 0) _ _ [2; 3]).
  - apply perm_swap.
  - repeat constructor; eexists; (split; [reflexivity|]); vm_compute; eauto.
  - reflexivity.
  - split; [repeat constructor; lia|vm_compute; discriminate].
Defined.

(** * How many days a window can hold *)

Lemma NoDup_map_filter {A B} (f : A -> B) (p : A -> bool) (l : list A) :
  NoDup (map f l) -> NoDup (map f (List.filter p l)).
Proof.
  induction l as [|x l IH]; cbn [map List.filter]; [auto|].
  intros H. apply NoDup_cons in H as [Hx Hl].
  destruct (p x); [|now apply IH].
  cbn [map]. apply NoDup_cons. split; [|now apply IH].
  intros Hin. apply Hx.
  apply list_elem_of_fmap in Hin as (y & -> & Hy).
  apply list_elem_of_fmap. exists y. split; [reflexivity|].
  apply list_elem_of_In. apply list_elem_of_In, List.filter_In in Hy. tauto.
Qed.

Lemma Forall_filter' {A} (P : A -> Prop) (p : A -> bool) (l : list A) :
  Forall P l -> Forall P (List.filter p l).
Proof.
  intros H. apply Forall_forall. intros x Hx.
  rewrite Forall_forall in H. apply H.
  apply list_elem_of_In. apply list_elem_of_In, List.filter_In in Hx. tauto.
Qed.

(** Validly dated records with pairwise distinct dates, all falling on the
    [n] days from day [lo] on, are at most [n]. *)
Lemma distinct_days_bound (l : list obj) (lo n : Z) :
  0 <= n ->
  Forall validDate l ->
  NoDup (map (fun r : obj => r !! "date") l) ->
  (forall r t, r ∈ l -> recordTime r = Some t -> lo <= JSDate.Day t < lo + n) ->
  Z.of_nat (length l) <= n.
Proof.
  intros Hn Hv Hd Hw.
  set (dayOf := fun v : option jval => JSDate.Day (default 0 (dateValue v))).
  assert (Hvalid : forall v, v ∈ map (fun r : obj => r !! "date") l ->
            exists s t, v = Some (JStr s) /\ JSDate.parse s = Some t /\
                        lo <= JSDate.Day t < lo + n).
  { intros v Hin. apply list_elem_of_fmap in Hin as (r & -> & Hr).
    rewrite Forall_forall in Hv. destruct (Hv r Hr) as (s & Es & [t Et]).
    exists s, t. split; [exact Es|]. split; [exact Et|].
    apply (Hw r t Hr). unfold recordTime. now rewrite Es. }
  assert (Hdays : NoDup (map dayOf (map (fun r : obj => r !! "date") l))).
  { apply NoDup_fmap_2_strong; [|exact Hd].
    intros v w Hv' Hw' E.
    destruct (Hvalid v Hv') as (s & t & -> & Ps & _).
    destruct (Hvalid w Hw') as (s' & t' & -> & Ps' & _).
    unfold dayOf in E. cbn [dateValue] in E. rewrite Ps, Ps' in E.
    cbn [from_option id] in E.
    destruct (JSDateFacts.parse_inv _ _ Ps) as (_ & Ht & _).
    destruct (JSDateFacts.parse_inv _ _ Ps') as (_ & Ht' & _).
    assert (t = t') by congruence. subst t'.
    now rewrite (JSDateFacts.parse_injective _ _ _ Ps Ps'). }
  assert (Hsub : map dayOf (map (fun r : obj => r !! "date") l) ⊆+ seqZ lo n).
  { apply NoDup_submseteq; [exact Hdays|]. intros d Hin.
    apply list_elem_of_fmap in Hin as (v & -> & Hv').
    destruct (Hvalid v Hv') as (s & t & -> & Ps & Hr).
    apply elem_of_seqZ. unfold dayOf. cbn [dateValue]. rewrite Ps. exact Hr. }
  apply submseteq_length in Hsub.
  rewrite !length_map, length_seqZ in Hsub. lia.
Qed.

Lemma percent_le_100 (n : Z) : n <= 30 -> (percent n 30 <= 100)%Q.
Proof.
  intros H. unfold percent, Qle, Qdiv, Qmult, Qinv, inject_Z. cbn. lia.
Qed.

Lemma percent_gt_100 (n : Z) : 30 < n -> (100 < percent n 30)%Q.
Proof.
  intros H. unfold percent, Qlt, Qdiv, Qmult, Qinv, inject_Z. cbn. lia.
Qed.

(** The completion rate against 100 %, on a device that keeps a constant
    offset from UTC. With records dated by calendar day, of pairwise
    distinct dates, none after today (the UTC day of the clock), the 30-day
    window holds the 31 days from [today - 30] to today when the clock
    stands exactly at midnight UTC, and the 30 days from [today - 29]
    otherwise: the count is at most 31, and at most 30, so the rate at most
    100, off midnight. (Where the offset changes inside the window the
    bound off midnight can fail: [completionRate_daylight_saving].) *)
Theorem completionRate_bound (now tza : Z) (records : list obj) :
  Forall validDate records ->
  NoDup (map (fun r : obj => r !! "date") records) ->
  (forall r, r ∈ records -> ~ datedAfterToday now r) ->
  let stats := StatsContext.calculateStats now (JSDate.fixed tza) records in
  0 <= StatsContext.completedDaysThisMonth stats <= 31 /\
  (JSDate.TimeWithinDay now <> 0 ->
   StatsContext.completedDaysThisMonth stats <= 30 /\
   (StatsContext.completionRate stats <= 100)%Q).
Proof.
  intros Hv Hd Hf stats.
  set (lo := now - 30 * JSDate.msPerDay).
  set (window := List.filter completed (List.filter (dateAtLeast lo) records)).
  assert (Hcount : StatsContext.completedDaysThisMonth stats =
                   Z.of_nat (length window)).
  { unfold stats, StatsContext.calculateStats, StatsContext.completedDaysThisMonth.
    now rewrite (thirtyDaysAgo_spec now tza). }
  assert (Hrate : StatsContext.completionRate stats =
                  percent (Z.of_nat (length window)) 30).
  { unfold stats. now rewrite completionRate_spec. }
  assert (Hwv : Forall validDate window) by now do 2 apply Forall_filter'.
  assert (Hwd : NoDup (map (fun r : obj => r !! "date") window))
    by now do 2 apply NoDup_map_filter.
  assert (Hin : forall r t, r ∈ window -> recordTime r = Some t ->
            lo <= t /\ t = JSDate.Day t * JSDate.msPerDay /\
            t < (JSDate.Day now + 1) * JSDate.msPerDay).
  { intros r t Hr Ht. unfold window in Hr.
    apply list_elem_of_In, List.filter_In in Hr as [Hr _].
    apply List.filter_In in Hr as [Hr Hlo].
    unfold dateAtLeast in Hlo. fold (recordTime r) in Hlo. rewrite Ht in Hlo.
    apply Z.leb_le in Hlo. split; [exact Hlo|].
    apply list_elem_of_In in Hr. split.
    - rewrite Forall_forall in Hv. destruct (Hv r Hr) as (s & Es & _).
      unfold recordTime in Ht. rewrite Es in Ht. cbn [dateValue] in Ht.
      now destruct (JSDateFacts.parse_inv _ _ Ht) as (_ & H & _).
    - destruct (Z.lt_ge_cases t ((JSDate.Day now + 1) * JSDate.msPerDay)) as [H|H];
        [exact H|].
      destruct (Hf r Hr). exists t. split; [exact Ht|exact H]. }
  rewrite Hcount, Hrate. split; [split; [lia|]|].
  - apply (distinct_days_bound window (JSDate.Day now - 30) 31); try assumption; [lia|].
    intros r t Hr Ht. destruct (Hin r t Hr Ht) as (H1 & H2 & H3).
    unfold lo, JSDate.Day, JSDate.msPerDay in *. JSDateFacts.divlia.
  - intros Hmid.
    assert (Hb : Z.of_nat (length window) <= 30).
    { apply (distinct_days_bound window (JSDate.Day now - 29) 30); try assumption; [lia|].
      intros r t Hr Ht. destruct (Hin r t Hr Ht) as (H1 & H2 & H3).
      unfold lo, JSDate.Day, JSDate.TimeWithinDay, JSDate.msPerDay in *.
      JSDateFacts.divlia. }
    split; [exact Hb|now apply percent_le_100].
Qed.

Lemma completionRate_bound_witness :
  (StatsContext.completionRate
     (StatsContext.calculateStats mid_june (JSDate.fixed 0)
        [mkRecord "a" "2024-06-15" 2 true; mkRecord "b" "2024-06-13" 2 true])
   <= 100)%Q.
Proof.
  apply (completionRate_bound mid_june 0
           [mkRecord "a" "2024-06-15" 2 true; mkRecord "b" "2024-06-13" 2 true]).
  - repeat constructor; eexists; (split; [reflexivity|]); vm_compute; eauto.
  - apply NoDup_cons. split; [|apply NoDup_singleton].
    intros H. apply list_elem_of_singleton in H. discriminate H.
  - intros r Hr (t & Ht & Hle).
    apply elem_of_cons in Hr as [->|Hr];
      [|apply elem_of_cons in Hr as [->|Hr]; [|inversion Hr]];
      vm_compute in Ht; injection Ht as <-; vm_compute in Hle; now apply Hle.
  - vm_compute. discriminate.
Defined.

(** Where the clocks go back inside the window, the window is an hour
    longer than 30 days. In New York at 2024-11-20T00:30Z, off midnight UTC,
    31 completed records of the 31 distinct days from [today - 30] to today
    are all counted, and the rate is above 100 %. *)
Example completionRate_daylight_saving :
  let today := JSDate.Day late_november in
  let stats :=
    StatsContext.calculateStats late_november new_york_2024 november_records in
  map (fun r : obj => r !! "date") november_records =
    map (fun i => Some (JStr (JSDate.isoDate (today - 30 + i)))) (seqZ 0 31) /\
  JSDate.isoDate today = "2024-11-20" /\
  JSDate.TimeWithinDay late_november = 30 * JSDate.msPerMinute /\
  StatsContext.thirtyDaysAgo late_november new_york_2024 =
    late_november - 30 * JSDate.msPerDay - JSDate.msPerHour /\
  StatsContext.completedDaysThisMonth stats = 31 /\
  (100 < StatsContext.completionRate stats)%Q.
Proof. vm_compute. repeat split; reflexivity. Qed.

Lemma mkRecord_date (i d : string) (c : Z) (b : bool) :
  mkRecord i d c b !! "date" = Some (JStr d).
Proof.
  unfold mkRecord. rewrite lookup_insert_ne by discriminate. apply lookup_insert_eq.
Qed.

Lemma mkRecord_completed (i d : string) (c : Z) (b : bool) :
  completed (mkRecord i d c b) = b.
Proof.
  unfold completed, mkRecord. rewrite !lookup_insert_ne by discriminate.
  now rewrite lookup_insert_eq.
Qed.

(** When the clock stands exactly at midnight UTC, one completed record for
    each of the 31 days from [today - 30] to today (validly dated, pairwise
    distinct, none in the future) gives a completion rate above 100 %: the
    window includes both ends and the denominator is 30. *)
Theorem completionRate_above_100 (now tza : Z) :
  JSDate.TimeWithinDay now = 0 ->
  JSDate.inISORange (JSDate.Day now - 30) ->
  JSDate.inISORange (JSDate.Day now) ->
  exists records,
    Forall validDate records /\
    NoDup (map (fun r : obj => r !! "date") records) /\
    (forall r, r ∈ records -> ~ datedAfterToday now r) /\
    StatsContext.completedDaysThisMonth
      (StatsContext.calculateStats now (JSDate.fixed tza) records) = 31 /\
    (100 < StatsContext.completionRate
             (StatsContext.calculateStats now (JSDate.fixed tza) records))%Q.
Proof.
  intros Hmid Hlo Hhi.
  set (days := seqZ (JSDate.Day now - 30) 31).
  set (records := map (fun d => mkRecord "r" (JSDate.isoDate d) 2 true) days).
  assert (Hdays : forall d, d ∈ days ->
            JSDate.Day now - 30 <= d <= JSDate.Day now /\ JSDate.inISORange d).
  { intros d Hd. apply elem_of_seqZ in Hd. unfold JSDate.inISORange in *. lia. }
  assert (Hrec : forall r, r ∈ records ->
            exists d, d ∈ days /\ r !! "date" = Some (JStr (JSDate.isoDate d)) /\
                      completed r = true).
  { intros r Hr. apply list_elem_of_fmap in Hr as (d & -> & Hd).
    exists d. split; [exact Hd|].
    split; [apply mkRecord_date|apply mkRecord_completed]. }
  assert (Htime : forall r, r ∈ records ->
            validDate r /\ completed r = true /\
            exists d, JSDate.Day now - 30 <= d <= JSDate.Day now /\
                      recordTime r = Some (d * JSDate.msPerDay)).
  { intros r Hr. destruct (Hrec r Hr) as (d & Hd & Edate & Hc).
    destruct (Hdays d Hd) as [Hb Hrange].
    destruct (isoDay_time r d Hrange Edate) as [Hv Ht].
    split; [exact Hv|]. split; [exact Hc|]. exists d. split; [exact Hb|exact Ht]. }
  assert (Hall : List.filter completed
                   (List.filter (dateAtLeast (now - 30 * JSDate.msPerDay)) records)
                 = records).
  { rewrite (filter_all (dateAtLeast _) records).
    - apply filter_all. apply Forall_forall. intros r Hr.
      now destruct (Htime r Hr) as (_ & Hc & _).
    - apply Forall_forall. intros r Hr.
      destruct (Htime r Hr) as (_ & _ & d & Hb & Ht).
      unfold dateAtLeast. fold (recordTime r). rewrite Ht. apply Z.leb_le.
      unfold JSDate.Day, JSDate.TimeWithinDay, JSDate.msPerDay in *.
      JSDateFacts.divlia. }
  assert (Hlen : length records = 31%nat).
  { unfold records, days. now rewrite length_map, length_seqZ. }
  exists records. split; [|split; [|split; [|split]]].
  - apply Forall_forall. intros r Hr. now destruct (Htime r Hr).
  - unfold records. rewrite map_map.
    apply (NoDup_fmap_2_strong (fun d => mkRecord "r" (JSDate.isoDate d) 2 true !! "date")).
    + intros a b Ha Hb E. rewrite !mkRecord_date in E.
      assert (E' : JSDate.isoDate a = JSDate.isoDate b) by congruence.
      apply isoDate_injective; [apply Hdays, Ha|apply Hdays, Hb|exact E'].
    + apply NoDup_seqZ.
  - intros r Hr (t & Ht & Hle).
    destruct (Htime r Hr) as (_ & _ & d & Hb & Ht').
    rewrite Ht' in Ht. injection Ht as <-. unfold JSDate.msPerDay in Hle. lia.
  - unfold StatsContext.calculateStats, StatsContext.completedDaysThisMonth.
    rewrite (thirtyDaysAgo_spec now tza), Hall, Hlen. reflexivity.
  - rewrite completionRate_spec, Hall, Hlen. now apply percent_gt_100.
Qed.

Lemma completionRate_above_100_witness :
  exists records,
    NoDup (map (fun r : obj => r !! "date") records) /\
    (100 < StatsContext.completionRate
             (StatsContext.calculateStats 1718409600000 (JSDate.fixed 0) records))%Q.
Proof.
  destruct (completionRate_above_100 1718409600000 0) as (records & _ & H1 & _ & _ & H2).
  - reflexivity.
  - split; [vm_compute; discriminate|reflexivity].
  - split; [vm_compute; discriminate|reflexivity].
  - exists records. split; [exact H1|exact H2].
Defined.

(** * The home screen's month in any zone *)

(** The month of the home screen, in a zone at a fixed offset [tza] from
    UTC: the bounds are the local midnights of the first and of the last day
    of the local month, the denominator is the length of that month, and a
    record's date is read as midnight UTC. So a record dated day [day]
    counts, in UTC, from the first to the last day of the month; east of
    UTC, from the first to the last but one: a check-in on the last day of
    the month is not counted; west of UTC, from the second to the last: a
    check-in on the first day is not counted. *)
Theorem calculateCurrentMonthStats_zone (now tza : Z) (records : list obj) :
  0 <= now + tza ->
  forall y m d, JSDate.civil_from_days (JSDate.Day (now + tza)) = (y, m, d) ->
  let dim := JSDate.days_in_month y m in
  let first := JSDate.days_from_civil y m 1 in
  let last := JSDate.days_from_civil y m dim in
  let counted := dateBetween (first * JSDate.msPerDay - tza)
                             (last * JSDate.msPerDay - tza) in
  let n := Z.of_nat (length (List.filter completed (List.filter counted records))) in
  HomeScreen.calculateCurrentMonthStats now (JSDate.fixed tza) records =
    HomeScreen.mkMonthStats (percent n dim) n dim /\
  last = first + dim - 1 /\
  forall (r : obj) (day : Z),
    JSDate.inISORange day ->
    r !! "date" = Some (JStr (JSDate.isoDate day)) ->
    (tza = 0 -> (counted r = true <-> first <= day <= last)) /\
    (0 < tza < JSDate.msPerDay -> (counted r = true <-> first <= day <= last - 1)) /\
    (- JSDate.msPerDay < tza < 0 -> (counted r = true <-> first + 1 <= day <= last)).
Proof.
  intros Hnow y m d E dim first last counted n.
  destruct (JSDateFacts.days_from_civil_from_days _ _ _ _ E) as (Hr & Hm & Hd).
  destruct (JSDateFacts.days_in_month_bounds y m) as (Hb & _).
  assert (Hy : 1970 <= y).
  { apply (year_after_epoch (JSDate.Day (now + tza)) y m d); [|exact E].
    unfold JSDate.Day, JSDate.msPerDay. JSDateFacts.divlia. }
  assert (Hyear : HomeScreen.year now (JSDate.fixed tza) = y).
  { unfold HomeScreen.year, JSDate.getFullYear, JSDate.LocalTime, JSDate.YearFromTime,
      JSDate.fixed.
    rewrite E. reflexivity. }
  assert (Hmonth : HomeScreen.month now (JSDate.fixed tza) = m - 1).
  { unfold HomeScreen.month, JSDate.getMonth, JSDate.LocalTime, JSDate.MonthFromTime,
      JSDate.fixed.
    rewrite E. reflexivity. }
  assert (Hnew : forall mo dt, JSDate.newDate (JSDate.fixed tza) y mo dt =
                               JSDate.MakeDay y mo dt * JSDate.msPerDay - tza).
  { intros mo dt. unfold JSDate.newDate, JSDate.UTC, JSDate.MakeDate, JSDate.fixed.
    destruct (Z.leb_spec 0 y); [|lia]. destruct (Z.leb_spec y 99); [lia|].
    cbn [andb]. lia. }
  assert (Hfirst : HomeScreen.firstDay now (JSDate.fixed tza) = first * JSDate.msPerDay - tza).
  { unfold HomeScreen.firstDay. rewrite Hyear, Hmonth, Hnew.
    now rewrite first_day_of_month. }
  assert (Hlast : HomeScreen.lastDay now (JSDate.fixed tza) = last * JSDate.msPerDay - tza).
  { unfold HomeScreen.lastDay. rewrite Hyear, Hmonth, Hnew.
    replace (m - 1 + 1) with m by lia. now rewrite last_day_of_month. }
  assert (Htotal : JSDate.getDate (JSDate.fixed tza) (last * JSDate.msPerDay - tza) = dim).
  { unfold JSDate.getDate, JSDate.LocalTime, JSDate.DateFromTime, JSDate.fixed, last.
    replace (JSDate.days_from_civil y m dim * JSDate.msPerDay - tza + tza)
      with (JSDate.days_from_civil y m dim * JSDate.msPerDay) by lia.
    rewrite Day_of_midnight.
    rewrite JSDateFacts.civil_from_days_from_civil by (fold dim; lia).
    reflexivity. }
  split; [|split].
  - unfold HomeScreen.calculateCurrentMonthStats.
    rewrite Hfirst, Hlast, Htotal. reflexivity.
  - unfold last, first, JSDate.days_from_civil, JSDate.doe_of_civil. lia.
  - intros r day Hrange Edate.
    assert (Hc : counted r = true <->
                 first * JSDate.msPerDay - tza <= day * JSDate.msPerDay
                   <= last * JSDate.msPerDay - tza).
    { unfold counted, dateBetween. rewrite Edate. cbn [dateValue].
      rewrite (JSDateFacts.parse_isoDate day Hrange).
      rewrite andb_true_iff, !Z.leb_le. reflexivity. }
    rewrite Hc. unfold JSDate.msPerDay.
    split; [|split]; intros Hz; lia.
Qed.

Lemma calculateCurrentMonthStats_zone_witness :
  dateBetween (JSDate.days_from_civil 2024 6 1 * JSDate.msPerDay - 7200000)
              (JSDate.days_from_civil 2024 6 (JSDate.days_in_month 2024 6)
                 * JSDate.msPerDay - 7200000)
              (mkRecord "z" (JSDate.isoDate 19904) 2 true) = true
  <-> JSDate.days_from_civil 2024 6 1 <= 19904
        <= JSDate.days_from_civil 2024 6 (JSDate.days_in_month 2024 6) - 1.
Proof.
  destruct (calculateCurrentMonthStats_zone early_june 7200000 []
              ltac:(discriminate) 2024 6 5 ltac:(vm_compute; reflexivity))
    as (_ & _ & H).
  apply (H (mkRecord "z" (JSDate.isoDate 19904) 2 true) 19904).
  - split; [vm_compute; discriminate|reflexivity].
  - apply mkRecord_date.
  - split; reflexivity.
Defined.

(** * Storage statistics *)

Section StorageStatsFacts.
Import StorageStats.
Variable storage : gmap string string.

(** The stored string under a key, a missing key reading as the empty
    string: both are skipped, and both have size 0. *)
Let held (key : string) : string := default "" (storage !! key).
Let counted (key : string) : bool := negb (String.eqb (held key) "").

Lemma visit_held (acc : Stats) (key : string) :
  visit storage acc key =
    if counted key
    then mkStats (totalSize acc + blobSize (held key)) (itemCount acc + 1)
                 (<[key := blobSize (held key)]> (breakdown acc))
    else acc.
Proof.
  unfold visit, counted, held. destruct (storage !! key) as [v|]; reflexivity.
Qed.

Lemma blobSize_counted (key : string) :
  (counted key = true -> 1 <= blobSize (held key)) /\
  (counted key = false -> blobSize (held key) = 0).
Proof.
  unfold counted, blobSize. destruct (held key) as [|c v]; cbn; split;
    intros H; try discriminate H; lia.
Qed.

Lemma fold_visit (keys : list string) : forall acc : Stats,
  let r := fold_left (visit storage) keys acc in
  totalSize r = totalSize acc + foldr (fun key n => blobSize (held key) + n) 0 keys /\
  itemCount r = itemCount acc + Z.of_nat (length (List.filter counted keys)) /\
  (forall key, breakdown r !! key =
     if bool_decide (key ∈ keys) && counted key
     then Some (blobSize (held key))
     else breakdown acc !! key) /\
  (NoDup keys -> (forall key, key ∈ keys -> breakdown acc !! key = None) ->
   size (breakdown r) = (size (breakdown acc) + length (List.filter counted keys))%nat).
Proof.
  induction keys as [|k keys IH]; intros acc r.
  - subst r. cbn [fold_left foldr List.filter length].
    split; [lia|]. split; [lia|]. split; [|intros _ _; lia].
    intros key. rewrite bool_decide_eq_false_2; [reflexivity|]. apply not_elem_of_nil.
  - subst r. cbn [fold_left]. destruct (IH (visit storage acc k)) as (Ht & Hi & Hb & Hs).
    rewrite Ht, Hi. rewrite visit_held in *.
    destruct (blobSize_counted k) as [Hpos Hzero].
    cbn [foldr List.filter]. destruct (counted k) eqn:Ek.
    + cbn [totalSize itemCount breakdown length] in *.
      split; [lia|]. split; [lia|]. split.
      * intros key. rewrite Hb.
        destruct (decide (key = k)) as [->|Hne].
        -- rewrite (bool_decide_eq_true_2 (k ∈ k :: keys)) by left.
           rewrite Ek, lookup_insert_eq.
           destruct (bool_decide (k ∈ keys)); reflexivity.
        -- rewrite lookup_insert_ne by congruence.
           destruct (decide (key ∈ keys)) as [Hin|Hnin].
           ++ rewrite !bool_decide_eq_true_2; [reflexivity|now right|exact Hin].
           ++ rewrite !bool_decide_eq_false_2; [reflexivity| |exact Hnin].
              intros H. apply elem_of_cons in H as [H|H]; contradiction.
      * intros Hnd Hfresh. apply NoDup_cons in Hnd as [Hk Hnd].
        rewrite Hs; [|exact Hnd|].
        -- rewrite map_size_insert_None by (apply Hfresh; left). lia.
        -- intros key Hin. rewrite lookup_insert_ne.
           ++ apply Hfresh. now right.
           ++ intros ->. contradiction.
    + rewrite (Hzero eq_refl). split; [lia|]. split; [lia|]. split.
      * intros key. rewrite Hb.
        destruct (decide (key = k)) as [->|Hne].
        -- rewrite (bool_decide_eq_true_2 (k ∈ k :: keys)) by left.
           rewrite Ek, andb_false_r. reflexivity.
        -- destruct (decide (key ∈ keys)) as [Hin|Hnin].
           ++ rewrite !bool_decide_eq_true_2; [reflexivity|now right|exact Hin].
           ++ rewrite !bool_decide_eq_false_2; [reflexivity| |exact Hnin].
              intros H. apply elem_of_cons in H as [H|H]; contradiction.
      * intros Hnd Hfresh. apply NoDup_cons in Hnd as [Hk Hnd].
        apply Hs; [exact Hnd|]. intros key Hin. apply Hfresh. now right.
Qed.

Lemma fold_visit_ext (storage' : gmap string string) (keys : list string) :
  (forall key, key ∈ keys -> storage' !! key = storage !! key) ->
  forall acc, fold_left (visit storage') keys acc = fold_left (visit storage) keys acc.
Proof.
  induction keys as [|k keys IH]; intros H acc; [reflexivity|].
  cbn [fold_left].
  replace (visit storage' acc k) with (visit storage acc k).
  - apply IH. intros key Hin. apply H. now right.
  - unfold visit. rewrite (H k) by left. reflexivity.
Qed.

Lemma sizes_bound (keys : list string) :
  Z.of_nat (length (List.filter counted keys))
    <= foldr (fun key n => blobSize (held key) + n) 0 keys /\
  (foldr (fun key n => blobSize (held key) + n) 0 keys = 0 ->
   List.filter counted keys = []).
Proof.
  induction keys as [|k keys [IH1 IH2]]; [split; [reflexivity|auto]|].
  cbn [foldr List.filter]. destruct (blobSize_counted k) as [Hpos Hzero].
  assert (0 <= foldr (fun key n => blobSize (held key) + n) 0 keys) by lia.
  destruct (counted k).
  - specialize (Hpos eq_refl). cbn [length]. split; [lia|]. intros E. lia.
  - rewrite (Hzero eq_refl). split; [lia|]. intros E. apply IH2. lia.
Qed.

(** [getStorageStats], in terms of what is stored under the nine keys of the
    service: the total is the sum of the sizes, the count is the number of
    keys holding a non-empty string, and the breakdown has an entry, the
    size, for exactly those keys. So the breakdown has [itemCount] entries,
    at most nine, none of them 0; the total is at least the count, and 0
    only when nothing is counted; and what the storage holds under any other
    key makes no difference. *)
Theorem getStorageStats_spec :
  let stats := getStorageStats storage in
  totalSize stats = foldr (fun key n => blobSize (held key) + n) 0 STORAGE_KEYS /\
  itemCount stats = Z.of_nat (length (List.filter counted STORAGE_KEYS)) /\
  (forall key,
     breakdown stats !! key =
       if bool_decide (key ∈ STORAGE_KEYS) && counted key
       then Some (blobSize (held key)) else None) /\
  (forall key size, breakdown stats !! key = Some size -> 1 <= size) /\
  itemCount stats = Z.of_nat (size (breakdown stats)) /\
  0 <= itemCount stats <= 9 /\
  itemCount stats <= totalSize stats /\
  (totalSize stats = 0 -> itemCount stats = 0 /\ breakdown stats = ∅) /\
  (forall storage' : gmap string string,
     (forall key, key ∈ STORAGE_KEYS -> storage' !! key = storage !! key) ->
     getStorageStats storage' = stats).
Proof.
  intros stats.
  assert (Hfold : fold_left (visit storage) STORAGE_KEYS (mkStats 0 0 ∅) = stats).
  { unfold stats, getStorageStats, statsOver. reflexivity. }
  pose proof (fold_visit STORAGE_KEYS (mkStats 0 0 ∅)) as H.
  cbv zeta in H. rewrite Hfold in H. destruct H as (Ht & Hi & Hb & Hs).
  cbn [totalSize itemCount breakdown] in Ht, Hi, Hb, Hs.
  rewrite Z.add_0_l in Ht, Hi.
  assert (Hb' : forall key, breakdown stats !! key =
            if bool_decide (key ∈ STORAGE_KEYS) && counted key
            then Some (blobSize (held key)) else None).
  { intros key. rewrite Hb, lookup_empty. reflexivity. }
  destruct (sizes_bound STORAGE_KEYS) as [Hle Hz].
  split; [exact Ht|]. split; [exact Hi|]. split; [exact Hb'|].
  split; [|split; [|split; [|split; [|split]]]].
  - intros key sz. rewrite Hb'.
    destruct (bool_decide (key ∈ STORAGE_KEYS)); cbn [andb]; [|discriminate].
    destruct (counted key) eqn:E; [|discriminate].
    intros [= <-]. now apply blobSize_counted.
  - rewrite Hi, Hs.
    + rewrite map_size_empty. reflexivity.
    + unfold STORAGE_KEYS. apply (bool_decide_unpack _). vm_compute. reflexivity.
    + intros key _. apply lookup_empty.
  - rewrite Hi. split; [lia|].
    pose proof (List.filter_length_le counted STORAGE_KEYS) as H.
    change (length STORAGE_KEYS) with 9%nat in H. lia.
  - rewrite Ht, Hi. exact Hle.
  - rewrite Ht. intros E. specialize (Hz E). split.
    + rewrite Hi, Hz. reflexivity.
    + apply map_eq. intros key. rewrite Hb', lookup_empty.
      destruct (bool_decide (key ∈ STORAGE_KEYS)) eqn:Ein; cbn [andb]; [|reflexivity].
      destruct (counted key) eqn:Ec; [|reflexivity].
      apply bool_decide_eq_true in Ein.
      assert (Hin : key ∈ List.filter counted STORAGE_KEYS).
      { apply list_elem_of_In, List.filter_In. split; [now apply list_elem_of_In|exact Ec]. }
      rewrite Hz in Hin. inversion Hin.
  - intros storage' Hsame. unfold stats, getStorageStats, statsOver.
    now apply fold_visit_ext.
Qed.
End StorageStatsFacts.

(** * The records provider *)

(** What a load leaves in the provider: the records as [getDailyRecords]
    reads them, no error, status [synced], not loading. *)
Lemma loadRecords_run (st : RecordsContext.State) (s : Store) :
  RecordsContext.loadRecords st s =
    (RecordsContext.mkState (sort_by byDateDesc (default [] (DAILY_RECORDS s)))
                            false None RecordsContext.synced,
     s, Ok tt).
Proof. reflexivity. Qed.

Lemma createRecord_run (now : Z) (recordData : obj)
    (st : RecordsContext.State) (s : Store) :
  RecordsContext.createRecord now recordData st s =
    let s' := fst (LocalStorageService.createDailyRecord now recordData s) in
    (RecordsContext.mkState (sort_by byDateDesc (default [] (DAILY_RECORDS s')))
                            false None RecordsContext.synced,
     s', Ok tt).
Proof. reflexivity. Qed.

Lemma deleteRecord_run (recordId : string) (st : RecordsContext.State) (s : Store) :
  RecordsContext.deleteRecord recordId st s =
    let s' := fst (LocalStorageService.deleteDailyRecord recordId s) in
    (RecordsContext.mkState (sort_by byDateDesc (default [] (DAILY_RECORDS s')))
                            false None RecordsContext.synced,
     s', Ok tt).
Proof. reflexivity. Qed.

Lemma updateRecord_run (now : Z) (recordId : string) (updates : obj)
    (st : RecordsContext.State) (s : Store) :
  RecordsContext.updateRecord now recordId updates st s =
    match LocalStorageService.updateDailyRecord now recordId updates s with
    | (s', Ok _) =>
        (RecordsContext.mkState (sort_by byDateDesc (default [] (DAILY_RECORDS s')))
                                false None RecordsContext.synced,
         s', Ok tt)
    | (s', Throw e) =>
        (RecordsContext.setSyncStatus RecordsContext.sync_error st, s', Throw e)
    end.
Proof.
  unfold RecordsContext.updateRecord, tryCatch, bindC, setState, await, throwC.
  destruct (LocalStorageService.updateDailyRecord now recordId updates s)
    as [s' [[]|e]]; reflexivity.
Qed.

(** Looking a date up through the provider: the loaded records are searched
    first, the store only on a miss. *)
Lemma getRecordByDate_run (date : string) (st : RecordsContext.State) (s : Store) :
  RecordsContext.getRecordByDate date st s =
    match List.find (fun r : obj => strict_eq_str (r !! "date") date)
                    (RecordsContext.records st) with
    | Some r => (st, s, Ok (Some r))
    | None => (st, s, snd (LocalStorageService.getDailyRecordByDate date s))
    end.
Proof.
  unfold RecordsContext.getRecordByDate, tryCatch, bindC, getState, retC, await.
  destruct (List.find _ (RecordsContext.records st)); reflexivity.
Qed.

(** The provider's copy of the records. After a load, a create or a delete,
    and after an update that succeeds, the provider holds exactly the list
    [getDailyRecords] reads from the store left behind, with status
    [synced], no error and not loading, and [getRecordByDate] then answers
    as the service does, without writing; create and delete never fail. An
    update of an id that no stored record carries rethrows
    [RecordNotFoundError], sets the status to [error] and changes nothing
    else: not the store, not the loaded records, not the error message. *)
Theorem provider_holds_stored_records (now : Z) (st : RecordsContext.State)
    (s : Store) (recordData updates : obj) (recordId : string) :
  let loaded := fun (out : RecordsContext.State * Store * result unit) =>
    exists s', out =
      (RecordsContext.mkState (sort_by byDateDesc (default [] (DAILY_RECORDS s')))
                              false None RecordsContext.synced, s', Ok tt) /\
      LocalStorageService.getDailyRecords s' =
        (s', Ok (RecordsContext.records (fst (fst out)))) /\
      forall date,
        RecordsContext.getRecordByDate date (fst (fst out)) s' =
          (fst (fst out), s',
           snd (LocalStorageService.getDailyRecordByDate date s')) in
  let hasId := fun r : obj => r !! "id" = Some (JStr recordId) in
  loaded (RecordsContext.loadRecords st s) /\
  snd (fst (RecordsContext.loadRecords st s)) = s /\
  loaded (RecordsContext.createRecord now recordData st s) /\
  loaded (RecordsContext.deleteRecord recordId st s) /\
  (Exists hasId (default [] (DAILY_RECORDS s)) ->
   loaded (RecordsContext.updateRecord now recordId updates st s)) /\
  (~ Exists hasId (default [] (DAILY_RECORDS s)) ->
   RecordsContext.updateRecord now recordId updates st s =
     (RecordsContext.setSyncStatus RecordsContext.sync_error st, s,
      Throw RecordNotFoundError)).
Proof.
  intros loaded hasId.
  assert (Hloaded : forall s', loaded
            (RecordsContext.mkState (sort_by byDateDesc (default [] (DAILY_RECORDS s')))
                                    false None RecordsContext.synced, s', Ok tt)).
  { intros s'. exists s'. split; [reflexivity|]. split; [reflexivity|].
    intros date. rewrite getRecordByDate_run. cbn [fst RecordsContext.records].
    change (snd (LocalStorageService.getDailyRecordByDate date s'))
      with (Ok (A := option obj)
              (List.find (fun r : obj => strict_eq_str (r !! "date") date)
                 (sort_by byDateDesc (default [] (DAILY_RECORDS s'))))).
    destruct (List.find _ _); reflexivity. }
  assert (Hp : forall r : obj,
            strict_eq_str (r !! "id") recordId = true <-> hasId r)
    by (intros r; apply strict_eq_str_true).
  split; [apply Hloaded|]. split; [reflexivity|].
  split; [apply Hloaded|]. split; [apply Hloaded|].
  rewrite updateRecord_run.
  pose proof (updateDailyRecord_run now s recordId updates) as Hrun.
  cbv zeta in Hrun. rewrite Hrun.
  destruct (LocalStorageService.findIndex _ _) as [i|] eqn:E.
  - split; [intros _; apply Hloaded|].
    intros Hno. exfalso. apply Hno.
    apply findIndex_Some in E as (r & Hr & Hid & _).
    apply List.Exists_exists. exists r. split; [|now apply Hp].
    apply list_elem_of_In. rewrite <- (sort_by_Permutation byDateDesc).
    eapply list_elem_of_lookup_2. exact Hr.
  - split; [|reflexivity].
    intros Hyes. exfalso. apply findIndex_None in E.
    apply List.Exists_exists in Hyes as (r & Hin & Hr).
    rewrite Forall_forall in E.
    assert (Hin' : r ∈ sort_by byDateDesc (default [] (DAILY_RECORDS s))).
    { rewrite sort_by_Permutation. now apply list_elem_of_In. }
    specialize (E r Hin'). apply Hp in Hr. congruence.
Qed.

Lemma provider_holds_stored_records_witness :
  RecordsContext.updateRecord mid_june "missing" ∅ RecordsContext.initial
      one_record_store =
    (RecordsContext.setSyncStatus RecordsContext.sync_error RecordsContext.initial,
     one_record_store, Throw RecordNotFoundError).
Proof.
  apply (provider_holds_stored_records mid_june RecordsContext.initial
           one_record_store ∅ ∅ "missing").
  intros H. apply List.Exists_exists in H as (r & Hin & Hr).
  destruct Hin as [<-|[]]. discriminate Hr.
Defined.

(** * The check-in of the home screen *)

Lemma NoDup_map_inj {A B} (f : A -> B) (l : list A) (x y : A) :
  NoDup (map f l) -> x ∈ l -> y ∈ l -> f x = f y -> x = y.
Proof.
  induction l as [|a l IH]; cbn [map]; intros Hn Hx Hy E; [inversion Hx|].
  apply NoDup_cons in Hn as [Ha Hn].
  apply elem_of_cons in Hx as [->|Hx]; apply elem_of_cons in Hy as [->|Hy].
  - reflexivity.
  - destruct Ha. rewrite E. apply list_elem_of_fmap. eauto.
  - destruct Ha. rewrite <- E. apply list_elem_of_fmap. eauto.
  - now apply IH.
Qed.

Lemma find_is_Some {A} (p : A -> bool) (l : list A) (x : A) :
  x ∈ l -> p x = true -> exists y, List.find p l = Some y.
Proof.
  intros Hin Hp. destruct (List.find p l) as [y|] eqn:E; [eauto|].
  apply list_elem_of_In in Hin.
  pose proof (find_none p l E x Hin) as H. congruence.
Qed.

Lemma recordData_lookup (time date : string) :
  HomeCheckIn.recordData time date !! "date" = Some (JStr date) /\
  HomeCheckIn.recordData time date !! "completed" = Some (JBool true) /\
  HomeCheckIn.recordData time date !! "capsules" = Some (JNum 2) /\
  HomeCheckIn.recordData time date !! "id" = None.
Proof. repeat split. Qed.

(** The check-in, run from an idle screen showing today's date: nothing
    happens when the loaded record of today is completed; otherwise the
    record of today is updated through its id, or a new one created, and the
    screen shows the day as completed unless the update failed. *)
Lemma toggleDailyCompletion_run (now : Z) (time : string)
    (h : HomeCheckIn.State) (rc : RecordsContext.State) (s : Store) :
  HomeCheckIn.loading h = false ->
  HomeCheckIn.currentDate h = HomeCheckIn.todayString now ->
  let found :=
    List.find (fun r : obj => strict_eq_str (r !! "date") (HomeCheckIn.currentDate h))
              (RecordsContext.records rc) in
  let data := HomeCheckIn.recordData time (HomeCheckIn.currentDate h) in
  let done : HomeCheckIn.State :=
    HomeCheckIn.mkState (HomeCheckIn.todayRecord h) true false false
                        (HomeCheckIn.currentDate h) in
  let save : RecordsContext.State * Store * result unit :=
    match HomeCheckIn.recordId found with
    | Some i => RecordsContext.updateRecord now i data rc s
    | None => RecordsContext.createRecord now data rc s
    end in
  HomeCheckIn.toggleDailyCompletion now time (h, rc) s =
    if match found with Some r => completed r | None => false end
    then ((h, rc), s, Ok tt)
    else match save with
         | (rc', s', Ok _) => ((done, rc'), s', Ok tt)
         | (rc', s', Throw _) => ((h, rc'), s', Ok tt)
         end.
Proof.
  intros Hl Hd found data done save.
  unfold HomeCheckIn.toggleDailyCompletion, bindC at 1, getState.
  cbn [fst snd]. rewrite Hl. fold found.
  destruct (match found with Some r => completed r | None => false end);
    [reflexivity|].
  rewrite <- Hd, String.eqb_refl. cbn [negb].
  unfold finally, tryCatch, bindC, HomeCheckIn.setHome, setState,
    HomeCheckIn.useRecords, retC.
  cbv beta iota delta [fst snd]. fold data. subst save.
  destruct (HomeCheckIn.recordId found) as [i|].
  - destruct (RecordsContext.updateRecord now i data rc s) as [[rc' s'] [[]|e]];
      cbn [fst snd]; [reflexivity|].
    destruct h; cbn in Hl |- *; now rewrite Hl.
  - destruct (RecordsContext.createRecord now data rc s) as [[rc' s'] [[]|e]];
      cbn [fst snd]; [reflexivity|].
    destruct h; cbn in Hl |- *; now rewrite Hl.
Qed.

Lemma toggleDailyCompletion_done (now : Z) (time : string)
    (h : HomeCheckIn.State) (rc : RecordsContext.State) (s : Store) (r : obj) :
  HomeCheckIn.loading h = false ->
  List.find (fun r : obj => strict_eq_str (r !! "date") (HomeCheckIn.currentDate h))
            (RecordsContext.records rc) = Some r ->
  completed r = true ->
  HomeCheckIn.toggleDailyCompletion now time (h, rc) s = ((h, rc), s, Ok tt).
Proof.
  intros Hl Hf Hc.
  unfold HomeCheckIn.toggleDailyCompletion, bindC at 1, getState.
  cbv beta iota delta [fst snd]. now rewrite Hl, Hf, Hc.
Qed.

(** With pairwise distinct dates, the record the screen finds for a date is
    the one stored record of that date. *)
Lemma find_completed (l : list obj) (r1 : obj) (date : string) :
  NoDup (map (fun r : obj => r !! "date") l) ->
  r1 ∈ l -> r1 !! "date" = Some (JStr date) -> completed r1 = true ->
  exists x,
    List.find (fun r : obj => strict_eq_str (r !! "date") date)
              (sort_by byDateDesc l) = Some x /\ completed x = true.
Proof.
  intros Hn Hin Hd Hc.
  assert (Hin' : r1 ∈ sort_by byDateDesc l) by now rewrite sort_by_Permutation.
  destruct (find_is_Some (fun r : obj => strict_eq_str (r !! "date") date) _ r1 Hin')
    as [x Hx]; [now apply strict_eq_str_true|].
  exists x. split; [exact Hx|].
  apply find_some in Hx as [Hxin Hxd]. apply strict_eq_str_true in Hxd.
  apply list_elem_of_In in Hxin. rewrite sort_by_Permutation in Hxin.
  assert (x = r1) as ->; [|exact Hc].
  apply (NoDup_map_inj (fun r : obj => r !! "date") l); auto. congruence.
Qed.

(** One check-in a day. From an idle home screen showing today's date, with
    the provider holding what the store holds, and stored records of
    non-empty string ids, pairwise distinct ids and pairwise distinct dates
    (the id the clock gives being unused): pressing the check-in leaves a
    completed record dated today in the store, updates the stored record of
    today if there is one and adds a record only if there is none, leaves
    the records of other days alone, keeps ids and dates pairwise distinct,
    and leaves the provider holding what the store holds; pressing again, at
    any time, changes nothing. *)
Theorem checkIn_once (now : Z) (time : string)
    (h : HomeCheckIn.State) (rc : RecordsContext.State) (s : Store) :
  let ids := map (fun r : obj => r !! "id") in
  let dates := map (fun r : obj => r !! "date") in
  let named := fun r : obj => exists i, r !! "id" = Some (JStr i) /\ i <> "" in
  let today := Some (JStr (HomeCheckIn.currentDate h)) in
  let stored := default [] (DAILY_RECORDS s) in
  HomeCheckIn.loading h = false ->
  HomeCheckIn.currentDate h = HomeCheckIn.todayString now ->
  RecordsContext.records rc = sort_by byDateDesc stored ->
  Forall named stored -> NoDup (ids stored) -> NoDup (dates stored) ->
  Some (JStr ("record_" ++ showZ now)) ∉ ids stored ->
  exists (h' : HomeCheckIn.State) (rc' : RecordsContext.State) (s' : Store),
    let stored' := default [] (DAILY_RECORDS s') in
    HomeCheckIn.toggleDailyCompletion now time (h, rc) s = ((h', rc'), s', Ok tt) /\
    HomeCheckIn.loading h' = false /\
    HomeCheckIn.currentDate h' = HomeCheckIn.currentDate h /\
    RecordsContext.records rc' = sort_by byDateDesc stored' /\
    (exists r, r ∈ stored' /\ r !! "date" = today /\ completed r = true) /\
    (today ∈ dates stored -> length stored' = length stored) /\
    (today ∉ dates stored -> length stored' = S (length stored)) /\
    (forall r, r ∈ stored -> r !! "date" <> today -> r ∈ stored') /\
    Forall named stored' /\ NoDup (ids stored') /\ NoDup (dates stored') /\
    forall now' time',
      HomeCheckIn.toggleDailyCompletion now' time' (h', rc') s' = ((h', rc'), s', Ok tt).
Proof.
  intros ids dates named today stored Hl Hd Hc Hnamed Hnid Hndt Hfresh.
  set (sorted := sort_by byDateDesc stored) in *.
  assert (Hperm : sorted ≡ₚ stored) by apply sort_by_Permutation.
  set (isToday := fun r : obj => strict_eq_str (r !! "date") (HomeCheckIn.currentDate h)).
  assert (HisToday : forall r, isToday r = true <-> r !! "date" = today)
    by (intros r; apply strict_eq_str_true).
  set (data := HomeCheckIn.recordData time (HomeCheckIn.currentDate h)).
  destruct (recordData_lookup time (HomeCheckIn.currentDate h))
    as (Ddate & Dcomp & _ & Did). fold data in Ddate, Dcomp, Did.
  pose proof (toggleDailyCompletion_run now time h rc s Hl Hd) as Hrun.
  cbv zeta in Hrun. rewrite Hc in Hrun. fold isToday data in Hrun.
  assert (Hagain : forall (s' : Store) (r1 : obj) (hd : HomeCheckIn.State),
            HomeCheckIn.loading hd = false ->
            HomeCheckIn.currentDate hd = HomeCheckIn.currentDate h ->
            NoDup (dates (default [] (DAILY_RECORDS s'))) ->
            r1 ∈ default [] (DAILY_RECORDS s') -> r1 !! "date" = today ->
            completed r1 = true ->
            forall now' time',
              HomeCheckIn.toggleDailyCompletion now' time'
                (hd, RecordsContext.mkState
                       (sort_by byDateDesc (default [] (DAILY_RECORDS s')))
                       false None RecordsContext.synced) s'
              = ((hd, RecordsContext.mkState
                        (sort_by byDateDesc (default [] (DAILY_RECORDS s')))
                        false None RecordsContext.synced), s', Ok tt)).
  { intros s' r1 hd Hl' Hd' Hn' Hin' Hdate' Hcomp' now' time'.
    destruct (find_completed _ r1 (HomeCheckIn.currentDate h) Hn' Hin' Hdate' Hcomp')
      as (x & Hx & Hxc).
    apply (toggleDailyCompletion_done now' time' hd _ s' x Hl'); [|exact Hxc].
    rewrite Hd'. exact Hx. }
  destruct (List.find isToday sorted) as [r0|] eqn:Efind.
  - pose proof (find_some _ _ Efind) as [Hin0 Hdate0].
    apply list_elem_of_In in Hin0. apply HisToday in Hdate0.
    assert (Hin0' : r0 ∈ stored) by now rewrite <- Hperm.
    assert (Htoday : today ∈ dates stored).
    { apply list_elem_of_fmap. exists r0. split; [now rewrite Hdate0|exact Hin0']. }
    destruct (completed r0) eqn:Ecomp.
    + exists h, rc, s. cbv zeta.
      split; [exact Hrun|]. split; [exact Hl|]. split; [reflexivity|].
      split; [exact Hc|]. split; [exists r0; auto|].
      split; [reflexivity|]. split; [intros Hno; contradiction|].
      split; [auto|]. split; [exact Hnamed|]. split; [exact Hnid|].
      split; [exact Hndt|].
      intros now' time'.
      apply (toggleDailyCompletion_done now' time' h rc s r0 Hl); [|exact Ecomp].
      rewrite Hc. exact Efind.
    + assert (Hname0 : named r0).
      { rewrite Forall_forall in Hnamed. now apply Hnamed. }
      destruct Hname0 as (i & Hid0 & Hne).
      assert (Hrid : HomeCheckIn.recordId (Some r0) = Some i).
      { unfold HomeCheckIn.recordId. rewrite Hid0.
        destruct (String.eqb_spec i ""); [contradiction|reflexivity]. }
      rewrite Hrid, updateRecord_run in Hrun.
      pose proof (updateDailyRecord_run now s i data) as Hupd.
      cbv zeta in Hupd. fold stored sorted in Hupd. rewrite Hupd in Hrun. clear Hupd.
      destruct (LocalStorageService.findIndex _ sorted) as [idx|] eqn:Eidx.
      2:{ exfalso. apply findIndex_None in Eidx. rewrite Forall_forall in Eidx.
          specialize (Eidx r0 Hin0). cbn beta in Eidx.
          rewrite Hid0 in Eidx. cbn [strict_eq_str] in Eidx.
          now rewrite String.eqb_refl in Eidx. }
      apply findIndex_Some in Eidx as (rx & Hidx & Hidrx & _).
      apply strict_eq_str_true in Hidrx.
      assert (rx = r0) as ->.
      { apply (NoDup_map_inj (fun r : obj => r !! "id") sorted).
        - fold (ids sorted). now rewrite Hperm.
        - eapply list_elem_of_lookup_2. exact Hidx.
        - exact Hin0.
        - congruence. }
      rewrite Hidx in Hrun. cbn [from_option id] in Hrun.
      set (r1 := <["updatedAt" := JStr (JSDate.toISOString now)]> (spread r0 data))
        in *.
      assert (L1 : r1 !! "date" = today).
      { unfold r1. rewrite merged_lookup.
        destruct (decide ("date" = "updatedAt")) as [E|_]; [discriminate E|].
        now rewrite Ddate. }
      assert (L2 : completed r1 = true).
      { unfold completed, r1. rewrite merged_lookup.
        destruct (decide ("completed" = "updatedAt")) as [E|_]; [discriminate E|].
        now rewrite Dcomp. }
      assert (L3 : r1 !! "id" = r0 !! "id").
      { unfold r1. rewrite merged_lookup.
        destruct (decide ("id" = "updatedAt")) as [E|_]; [discriminate E|].
        now rewrite Did. }
      assert (Hlt : (idx < length sorted)%nat) by (eapply lookup_lt_Some; exact Hidx).
      assert (Hids' : ids (<[idx := r1]> sorted) = ids sorted).
      { unfold ids. rewrite (list_fmap_insert (fun r : obj => r !! "id")).
        apply list_insert_id. rewrite list_lookup_fmap, Hidx. cbn. now rewrite L3. }
      assert (Hdates' : dates (<[idx := r1]> sorted) = dates sorted).
      { unfold dates. rewrite (list_fmap_insert (fun r : obj => r !! "date")).
        apply list_insert_id. rewrite list_lookup_fmap, Hidx. cbn.
        now rewrite L1, Hdate0. }
      eexists _, _, _. cbv zeta.
      split; [exact Hrun|]. cbn [DAILY_RECORDS set_DAILY_RECORDS from_option id].
      split; [reflexivity|]. split; [reflexivity|]. split; [reflexivity|].
      split.
      { exists r1. split; [now apply list_elem_of_insert|]. split; [exact L1|exact L2]. }
      split.
      { intros _. rewrite length_insert. now rewrite Hperm. }
      split; [intros Hno; contradiction|].
      split.
      { intros r Hr Hrd. rewrite <- Hperm in Hr.
        apply list_elem_of_lookup_1 in Hr as [j Hj].
        eapply (list_elem_of_lookup_2 _ j).
        rewrite list_lookup_insert_ne; [exact Hj|].
        intros ->. rewrite Hidx in Hj. injection Hj as <-. contradiction. }
      split.
      { apply Forall_insert; [now rewrite Hperm|].
        exists i. split; [congruence|exact Hne]. }
      split; [rewrite Hids'; fold (ids sorted); now rewrite Hperm|].
      split; [rewrite Hdates'; fold (dates sorted); now rewrite Hperm|].
      apply (Hagain (set_DAILY_RECORDS (Some (<[idx := r1]> sorted)) s) r1);
        cbn [DAILY_RECORDS set_DAILY_RECORDS from_option id];
        [reflexivity|reflexivity| |now apply list_elem_of_insert|exact L1|exact L2].
      change (NoDup (dates (<[idx := r1]> sorted))).
      rewrite Hdates'. fold (dates sorted). now rewrite Hperm.
  - assert (Hnone : forall r, r ∈ sorted -> r !! "date" <> today).
    { intros r Hr Hrd. apply HisToday in Hrd.
      apply list_elem_of_In in Hr.
      pose proof (find_none _ _ Efind r Hr) as H. congruence. }
    assert (Hnot : today ∉ dates stored).
    { intros Hin. apply list_elem_of_fmap in Hin as (r & Hr1 & Hr2).
      apply (Hnone r); [now rewrite Hperm|now rewrite Hr1]. }
    cbn [HomeCheckIn.recordId] in Hrun.
    rewrite createRecord_run in Hrun. cbv zeta in Hrun.
    rewrite createDailyRecord_run in Hrun. cbn [fst] in Hrun.
    fold stored sorted in Hrun.
    set (new := <["updatedAt" := JStr (JSDate.toISOString now)]> (
                <["createdAt" := JStr (JSDate.toISOString now)]> (
                <["id" := JStr ("record_" ++ showZ now)]> data))) in *.
    assert (L1 : new !! "date" = today).
    { unfold new. rewrite !lookup_insert_ne by discriminate. exact Ddate. }
    assert (L2 : completed new = true).
    { unfold completed, new. rewrite !lookup_insert_ne by discriminate.
      now rewrite Dcomp. }
    assert (L3 : new !! "id" = Some (JStr ("record_" ++ showZ now))).
    { unfold new. rewrite !lookup_insert_ne by discriminate. apply lookup_insert_eq. }
    eexists _, _, _. cbv zeta.
    split; [exact Hrun|]. cbn [DAILY_RECORDS set_DAILY_RECORDS from_option id].
    split; [reflexivity|]. split; [reflexivity|]. split; [reflexivity|].
    split.
    { exists new. split; [|split; [exact L1|exact L2]].
      apply elem_of_app. right. now left. }
    split; [intros Hyes; contradiction|].
    split.
    { intros _. rewrite length_app, Hperm. cbn [length]. lia. }
    split.
    { intros r Hr _. apply elem_of_app. left. now rewrite Hperm. }
    split.
    { apply Forall_app. split; [now rewrite Hperm|].
      constructor; [|constructor]. exists ("record_" ++ showZ now).
      split; [exact L3|]. intros E. discriminate E. }
    split.
    { unfold ids. rewrite map_app. cbn [map]. rewrite L3.
      apply NoDup_app. split; [fold (ids sorted); now rewrite Hperm|].
      split; [|apply NoDup_singleton].
      intros x Hx Hx'. apply list_elem_of_singleton in Hx'. subst x.
      apply Hfresh. fold (ids sorted) in Hx. now rewrite <- Hperm. }
    split.
    { unfold dates. rewrite map_app. cbn [map]. rewrite L1.
      apply NoDup_app. split; [fold (dates sorted); now rewrite Hperm|].
      split; [|apply NoDup_singleton].
      intros x Hx Hx'. apply list_elem_of_singleton in Hx'. subst x.
      apply Hnot. fold (dates sorted) in Hx. now rewrite <- Hperm. }
    apply (Hagain (set_DAILY_RECORDS (Some (sorted ++ [new])%list) s) new);
      cbn [DAILY_RECORDS set_DAILY_RECORDS from_option id];
      [reflexivity|reflexivity| | |exact L1|exact L2].
    + unfold dates. rewrite map_app. cbn [map]. rewrite L1.
      apply NoDup_app. split; [fold (dates sorted); now rewrite Hperm|].
      split; [|apply NoDup_singleton].
      intros x Hx Hx'. apply list_elem_of_singleton in Hx'. subst x.
      apply Hnot. fold (dates sorted) in Hx. now rewrite <- Hperm.
    + apply elem_of_app. right. now left.
Qed.

Lemma checkIn_once_witness :
  exists h' rc' s',
    HomeCheckIn.toggleDailyCompletion mid_june "09:34"
      (HomeCheckIn.mkState None false false true "2024-06-15",
       RecordsContext.mkState [mkRecord "r1" "2024-06-13" 2 true] false None
                              RecordsContext.synced)
      (set_DAILY_RECORDS (Some [mkRecord "r1" "2024-06-13" 2 true]) emptyStore)
      = ((h', rc'), s', Ok tt) /\
    (exists r, r ∈ default [] (DAILY_RECORDS s') /\
               r !! "date" = Some (JStr "2024-06-15") /\ completed r = true) /\
    length (default [] (DAILY_RECORDS s')) = 2%nat.
Proof.
  destruct (checkIn_once mid_june "09:34"
              (HomeCheckIn.mkState None false false true "2024-06-15")
              (RecordsContext.mkState [mkRecord "r1" "2024-06-13" 2 true] false None
                                      RecordsContext.synced)
              (set_DAILY_RECORDS (Some [mkRecord "r1" "2024-06-13" 2 true]) emptyStore))
    as (h' & rc' & s' & Hrun & _ & _ & _ & Hrec & _ & Hlen & _).
  - reflexivity.
  - vm_compute. reflexivity.
  - reflexivity.
  - repeat constructor. exists "r1". split; [reflexivity|discriminate].
  - apply NoDup_singleton.
  - apply NoDup_singleton.
  - intros H. apply list_elem_of_singleton in H. discriminate H.
  - exists h', rc', s'. split; [exact Hrun|]. split; [exact Hrec|].
    apply Hlen. intros H. apply list_elem_of_singleton in H. discriminate H.
Defined.

(** * The authentication and settings providers *)

Lemma checkAuthState_run (st : AuthContext.State) (s : Store) :
  AuthContext.checkAuthState st s =
    (match CURRENT_USER s, AUTH_TOKEN s with
     | Some u, Some tok =>
         if String.eqb tok ""
         then AuthContext.mkState None None false false (AuthContext.error st)
         else AuthContext.mkState (Some u) (USER_PROFILE s) false true
                                  (AuthContext.error st)
     | _, _ => AuthContext.mkState None None false false (AuthContext.error st)
     end, s, Ok tt).
Proof.
  unfold AuthContext.checkAuthState, finally, tryCatch, bindC at 1, setState.
  unfold bindC at 1, await, LocalStorageService.getCurrentUser, bind, getItem, ret.
  destruct (CURRENT_USER s) as [u|], (AUTH_TOKEN s) as [tok|]; try reflexivity.
  destruct (String.eqb tok ""); reflexivity.
Qed.

Lemma login_run (now : Z) (toLowerCase : string -> string) (e password : string)
    (st : AuthContext.State) (s : Store) :
  AuthContext.login now toLowerCase e password st s =
    match LocalStorageService.loginUser now toLowerCase e password s with
    | (s', Ok u) =>
        (AuthContext.mkState (Some u) (USER_PROFILE s') false true None, s', Ok true)
    | (s', Throw err) =>
        (AuthContext.mkState (AuthContext.user st) (AuthContext.userProfile st) false
           (AuthContext.isAuthenticated st)
           (Some "Login failed. Please check your credentials."),
         s', Throw err)
    end.
Proof.
  unfold AuthContext.login, finally, tryCatch, bindC, setState, await, retC, throwC.
  destruct (LocalStorageService.loginUser now toLowerCase e password s) as [s' [u|err]];
    reflexivity.
Qed.

Lemma register_run (now : Z) (zone : JSDate.Zone)
    (toLowerCase : string -> string) (nm e password : string)
    (st : AuthContext.State) (s : Store) :
  AuthContext.register now zone toLowerCase nm e password st s =
    match LocalStorageService.registerUser now zone toLowerCase e password nm s with
    | (s', Ok u) =>
        (AuthContext.mkState (Some u) (USER_PROFILE s') false true None, s', Ok true)
    | (s', Throw err) =>
        (AuthContext.mkState (AuthContext.user st) (AuthContext.userProfile st) false
           (AuthContext.isAuthenticated st)
           (Some "Registration failed. Please try again."),
         s', Throw err)
    end.
Proof.
  unfold AuthContext.register, finally, tryCatch, bindC, setState, await, retC, throwC.
  destruct (LocalStorageService.registerUser now zone toLowerCase e password nm s) as [s' [u|err]];
    reflexivity.
Qed.

Lemma logout_run (st : AuthContext.State) (s : Store) :
  AuthContext.logout st s =
    (AuthContext.mkState None None false false None,
     set_AUTH_TOKEN None (set_CURRENT_USER None s), Ok tt).
Proof. reflexivity. Qed.

(** The authentication provider follows the store. After a login or a
    registration that succeeds, after a logout and after [checkAuthState],
    the provider shows what [checkAuthState] would read from the store left
    behind (running it changes nothing): the user is the stored session's,
    [isAuthenticated] says whether there is one, and the profile is the
    stored one. A login that fails rethrows, sets the error message and
    leaves the store and the shown session as they were, signed in or
    not. *)
Theorem auth_follows_store (now : Z) (zone : JSDate.Zone)
    (toLowerCase : string -> string) (nm e password : string)
    (st : AuthContext.State) (s : Store) :
  let settled := fun (st' : AuthContext.State) (s' : Store) =>
    AuthContext.checkAuthState st' s' = (st', s', Ok tt) /\
    LocalStorageService.getCurrentUser s' = (s', Ok (AuthContext.user st')) /\
    (AuthContext.isAuthenticated st' = true <-> is_Some (AuthContext.user st')) /\
    AuthContext.loading st' = false in
  (forall st' s' b,
     AuthContext.login now toLowerCase e password st s = (st', s', Ok b) ->
     settled st' s' /\ b = true /\ AuthContext.isAuthenticated st' = true /\
     AuthContext.userProfile st' = USER_PROFILE s') /\
  (forall st' s' b,
     AuthContext.register now zone toLowerCase nm e password st s = (st', s', Ok b) ->
     settled st' s' /\ b = true /\ AuthContext.isAuthenticated st' = true /\
     AuthContext.userProfile st' = USER_PROFILE s') /\
  (exists st' s', AuthContext.logout st s = (st', s', Ok tt) /\ settled st' s' /\
     AuthContext.isAuthenticated st' = false) /\
  (exists st', AuthContext.checkAuthState st s = (st', s, Ok tt) /\ settled st' s) /\
  (forall st' s' err,
     AuthContext.login now toLowerCase e password st s = (st', s', Throw err) ->
     s' = s /\ err = UserNotFoundError /\
     AuthContext.user st' = AuthContext.user st /\
     AuthContext.userProfile st' = AuthContext.userProfile st /\
     AuthContext.isAuthenticated st' = AuthContext.isAuthenticated st /\
     AuthContext.loading st' = false /\
     AuthContext.error st' = Some "Login failed. Please check your credentials.").
Proof.
  intros settled.
  assert (Hsession : forall (u : User) (tok : string) (s0 : Store) err,
            CURRENT_USER s0 = Some u -> AUTH_TOKEN s0 = Some ("token_" ++ tok) ->
            settled (AuthContext.mkState (Some u) (USER_PROFILE s0) false true err) s0).
  { intros u tok s0 err Hu Ht. unfold settled.
    rewrite checkAuthState_run.
    unfold LocalStorageService.getCurrentUser, bind, getItem, ret.
    rewrite Hu, Ht. cbn [AuthContext.user AuthContext.isAuthenticated
      AuthContext.loading AuthContext.error].
    repeat split; eauto. }
  split; [|split; [|split; [|split]]].
  - intros st' s' b H. rewrite login_run, loginUser_run in H.
    destruct (List.find _ _) as [u|]; [|discriminate].
    injection H as <- <- <-.
    split; [|repeat split].
    apply (Hsession u (showZ now)
             (set_AUTH_TOKEN (Some ("token_" ++ showZ now))
                (set_CURRENT_USER (Some u) s)) None); reflexivity.
  - intros st' s' b H. rewrite register_run, registerUser_run in H.
    destruct (List.find _ _) as [u|]; [discriminate|].
    injection H as <- <- <-.
    split; [|repeat split].
    match goal with |- settled _ ?s0 =>
      apply (Hsession _ (showZ now) s0 None); reflexivity
    end.
  - eexists _, _. rewrite logout_run. split; [reflexivity|]. split; [|reflexivity].
    unfold settled. rewrite checkAuthState_run. cbn. repeat split; try discriminate.
    intros [x Hx]. discriminate Hx.
  - eexists. split; [apply checkAuthState_run|].
    unfold settled. rewrite !checkAuthState_run.
    unfold LocalStorageService.getCurrentUser, bind, getItem, ret.
    destruct (CURRENT_USER s) as [u|], (AUTH_TOKEN s) as [tok|];
      try destruct (String.eqb tok ""); cbn;
      repeat split; try discriminate; eauto; intros [x Hx]; discriminate Hx.
  - intros st' s' err H. rewrite login_run, loginUser_run in H.
    destruct (List.find _ _) as [u|]; [discriminate|].
    injection H as <- <- <-. repeat split.
Qed.

Lemma auth_follows_store_witness :
  exists st' s',
    AuthContext.login mid_june asciiLowerCase "ANN@example.com" "pw" AuthContext.initial
      (set_USERS (Some [ann]) emptyStore) = (st', s', Ok true) /\
    AuthContext.checkAuthState st' s' = (st', s', Ok tt).
Proof.
  pose proof (auth_follows_store mid_june (JSDate.fixed 0) asciiLowerCase
                "Ann" "ANN@example.com" "pw"
                AuthContext.initial (set_USERS (Some [ann]) emptyStore))
    as (Hlogin & _).
  eexists _, _. split; [reflexivity|].
  eapply Hlogin. reflexivity.
Defined.

(** The providers' copies after an update. [AuthContext.updateUserProfile]
    and [SettingsContext.updateSettings] write through the service, which
    stamps [updatedAt], and merge the update into their own copy without the
    stamp: starting from a copy equal to the stored object, the stored
    object afterwards is the copy with [updatedAt] set to the clock. A
    provider without a profile keeps none, although the service has just
    stored one. *)
Theorem copies_miss_the_stamp (now : Z) (updates : obj) (s : Store) :
  (forall (st : AuthContext.State) (p : obj),
     USER_PROFILE s = Some p -> AuthContext.userProfile st = Some p ->
     exists st' s' copy,
       AuthContext.updateUserProfile now updates st s = (st', s', Ok tt) /\
       AuthContext.userProfile st' = Some copy /\ copy = spread p updates /\
       USER_PROFILE s' = Some (<["updatedAt" := JStr (JSDate.toISOString now)]> copy)) /\
  (forall st : AuthContext.State,
     AuthContext.userProfile st = None ->
     exists st' s',
       AuthContext.updateUserProfile now updates st s = (st', s', Ok tt) /\
       AuthContext.userProfile st' = None /\ is_Some (USER_PROFILE s')) /\
  (forall (st : SettingsContext.State) (t : obj),
     USER_SETTINGS s = Some t -> SettingsContext.settings st = t ->
     exists st' s' copy,
       SettingsContext.updateSettings now updates st s = (st', s', Ok tt) /\
       SettingsContext.settings st' = copy /\ copy = spread t updates /\
       USER_SETTINGS s' = Some (<["updatedAt" := JStr (JSDate.toISOString now)]> copy)).
Proof.
  assert (Hrun : forall st : AuthContext.State,
            AuthContext.updateUserProfile now updates st s =
              (AuthContext.mergeProfile updates (AuthContext.setError None st),
               fst (LocalStorageService.updateUserProfile now updates s), Ok tt))
    by reflexivity.
  split; [|split].
  - intros st p Hs Hc. eexists _, _, _. split; [apply Hrun|].
    rewrite updateUserProfile_run. cbn [fst USER_PROFILE set_USER_PROFILE].
    unfold AuthContext.mergeProfile.
    cbn [AuthContext.userProfile AuthContext.setUserProfile AuthContext.setError].
    rewrite Hc, Hs. cbn [from_option id]. repeat split.
  - intros st Hc. eexists _, _. split; [apply Hrun|].
    rewrite updateUserProfile_run. cbn [fst USER_PROFILE set_USER_PROFILE].
    unfold AuthContext.mergeProfile.
    cbn [AuthContext.userProfile AuthContext.setUserProfile AuthContext.setError].
    rewrite Hc. split; [reflexivity|eauto].
  - intros st t Hs Hc.
    assert (Hupd : LocalStorageService.updateUserSettings now updates s =
              (set_USER_SETTINGS
                 (Some (<["updatedAt" := JStr (JSDate.toISOString now)]>
                          (spread t updates))) s, Ok tt)).
    { unfold LocalStorageService.updateUserSettings, bind.
      now rewrite (getUserSettings_stored now s t Hs). }
    eexists _, _, _.
    unfold SettingsContext.updateSettings, tryCatch, bindC, await, setState.
    rewrite Hupd. split; [reflexivity|].
    cbn [SettingsContext.settings SettingsContext.setSettings USER_SETTINGS
         set_USER_SETTINGS].
    rewrite Hc. repeat split.
Qed.

Lemma copies_miss_the_stamp_witness :
  exists st' s',
    AuthContext.updateUserProfile mid_june {[ "phone" := JStr "555" ]}
      AuthContext.initial emptyStore = (st', s', Ok tt) /\
    AuthContext.userProfile st' = None /\ is_Some (USER_PROFILE s').
Proof.
  apply (proj1 (proj2 (copies_miss_the_stamp mid_june {[ "phone" := JStr "555" ]}
                         emptyStore)) AuthContext.initial).
  reflexivity.
Defined.
